(** * drone-alertmanager: the plugin entry point, embedded and verified

    Shallow embedding of [docker-entrypoint.py].  Python [str] values are
    [string]s: a character is a code point below 256, and [str.lower],
    [str.strip] and [int] are those of Python on these code points (the
    strings of the development are written in ASCII; a character above 127
    is given by its number).  [os.environ] and the module-global
    [request_headers] dictionary are [gmap string string], and the effectful
    functions run in a state monad whose results tell a normal return from
    [sys.exit] and from a raised exception. *)

From Stdlib Require Import ZArith Ascii String List Bool Lia DecimalString.
From stdpp Require Import base option gmap strings list fin_maps.

Local Open Scope Z_scope.
Set Warnings "-register-all".

(** ** Strings *)

Module Str.

(** [s[n:]] *)
Fixpoint drop (n : nat) (s : string) : string :=
  match n, s with
  | O, _ => s
  | S n', String _ s' => drop n' s'
  | S _, EmptyString => EmptyString
  end.

(** [s[:n]] *)
Fixpoint take (n : nat) (s : string) : string :=
  match n, s with
  | O, _ => EmptyString
  | S n', String c s' => String c (take n' s')
  | S _, EmptyString => EmptyString
  end.

(** [str.lower] of one character: the capitals [A] to [Z] and, above 127,
    those of U+00C0 to U+00DE but the multiplication sign U+00D7; each has
    its small letter 32 places further. *)
Definition lower_char (c : ascii) : ascii :=
  let n := N_of_ascii c in
  if ((65 <=? n)%N && (n <=? 90)%N)
     || ((192 <=? n)%N && (n <=? 222)%N && negb (n =? 215)%N)
  then ascii_of_N (n + 32) else c.

(** [s.lower()] *)
Fixpoint lower (s : string) : string :=
  match s with
  | EmptyString => EmptyString
  | String c s' => String (lower_char c) (lower s')
  end.

(** [str.isspace] of one character: tab to carriage return, the four
    separators 28 to 31, the blank, the next-line control U+0085 and the
    no-break space U+00A0. *)
Definition isspace (c : ascii) : bool :=
  let n := N_of_ascii c in
  ((9 <=? n)%N && (n <=? 13)%N) || ((28 <=? n)%N && (n <=? 32)%N)
  || (n =? 133)%N || (n =? 160)%N.

Fixpoint lstrip (s : string) : string :=
  match s with
  | EmptyString => EmptyString
  | String c s' => if isspace c then lstrip s' else s
  end.

Fixpoint rstrip (s : string) : string :=
  match s with
  | EmptyString => EmptyString
  | String c s' =>
      match rstrip s' with
      | EmptyString => if isspace c then EmptyString else String c EmptyString
      | t => String c t
      end
  end.

(** [s.strip()] *)
Definition strip (s : string) : string := rstrip (lstrip s).

(** [s.split(sep)] for a separator of one character: the fields between
    the separators, at least one. *)
Fixpoint split (sep : ascii) (s : string) : list string :=
  match s with
  | EmptyString => [EmptyString]
  | String c s' =>
      if Ascii.eqb c sep then EmptyString :: split sep s'
      else match split sep s' with
           | f :: fs => String c f :: fs
           | [] => [String c EmptyString]
           end
  end.

(** [tok in s] *)
Fixpoint contains (tok s : string) : bool :=
  String.prefix tok s ||
  match s with
  | EmptyString => false
  | String _ s' => contains tok s'
  end.

(** [s.replace(tok, v)] for a token of at least one character: scan from
    the left; at an occurrence emit [v] and pass over the token ([skip]
    counts the characters of it still to pass), elsewhere copy. *)
Fixpoint replace_from (skip : nat) (tok v s : string) : string :=
  match s with
  | EmptyString => EmptyString
  | String c s' =>
      match skip with
      | S k => replace_from k tok v s'
      | O =>
          if String.prefix tok s
          then v +:+ replace_from (String.length tok - 1) tok v s'
          else String c (replace_from O tok v s')
      end
  end.

Definition replace (tok v s : string) : string := replace_from O tok v s.

(** [sep.join(parts)] *)
Fixpoint join (sep : string) (parts : list string) : string :=
  match parts with
  | [] => EmptyString
  | [p] => p
  | p :: ps => p +:+ sep +:+ join sep ps
  end.

(** The number of occurrences of a character. *)
Fixpoint count (c : ascii) (s : string) : nat :=
  match s with
  | EmptyString => O
  | String a s' => (if Ascii.eqb a c then 1 else 0) + count c s'
  end.

(** The double quote and the line feed, which a literal cannot hold. *)
Definition dq : string := String (ascii_of_nat 34) EmptyString.
Definition nl : string := String (ascii_of_nat 10) EmptyString.

End Str.

(** ** Integers and their text *)

(** [str(n)] and ["%d" % n] *)
Definition str_of_Z (n : Z) : string := NilZero.string_of_int (Z.to_int n).

(** ["%02d" % n] *)
Definition pad2 (n : Z) : string :=
  if (0 <=? n) && (n <? 10) then String "0" (str_of_Z n) else str_of_Z n.

Definition digit_of (c : ascii) : option Z :=
  let n := N_of_ascii c in
  if (48 <=? n)%N && (n <=? 57)%N then Some (Z.of_N n - 48) else None.

(** The digits of a decimal literal, most significant first; one
    underscore is allowed between two digits. [acc] is the value read so
    far, [prev] tells whether the previous character was a digit. *)
Fixpoint int_digits (acc : Z) (prev : bool) (s : string) : option Z :=
  match s with
  | EmptyString => if prev then Some acc else None
  | String c s' =>
      match digit_of c with
      | Some d => int_digits (10 * acc + d) true s'
      | None =>
          if Ascii.eqb c "_" && prev
          then match s' with
               | String c' _ =>
                   if bool_decide (is_Some (digit_of c')) then int_digits acc false s'
                   else None
               | EmptyString => None
               end
          else None
      end
  end.

(** The white space [int] passes over on either side of a literal: tab to
    carriage return and the blank, and the two spaces above 127, which the
    conversion turns into blanks beforehand. The separators 28 to 31, which
    [str.strip] trims, are not among them. *)
Definition int_space (c : ascii) : bool :=
  let n := N_of_ascii c in
  ((9 <=? n)%N && (n <=? 13)%N) || (n =? 32)%N || (n =? 133)%N || (n =? 160)%N.

Fixpoint int_lstrip (s : string) : string :=
  match s with
  | EmptyString => EmptyString
  | String c s' => if int_space c then int_lstrip s' else s
  end.

Fixpoint int_rstrip (s : string) : string :=
  match s with
  | EmptyString => EmptyString
  | String c s' =>
      match int_rstrip s' with
      | EmptyString => if int_space c then EmptyString else String c EmptyString
      | t => String c t
      end
  end.

(** The number of digits of a literal, leading zeros counted and
    underscores not. *)
Fixpoint count_digits (s : string) : Z :=
  match s with
  | EmptyString => 0
  | String c s' => (if bool_decide (is_Some (digit_of c)) then 1 else 0) + count_digits s'
  end.

(** [sys.get_int_max_str_digits()], the default of the interpreter. *)
Definition int_max_str_digits : Z := 4300.

(** [int(s)]: white space on either side, an optional sign, decimal
    digits, no more of them than the interpreter converts; [None] stands
    for [ValueError]. *)
Definition py_int (s : string) : option Z :=
  let literal := int_rstrip (int_lstrip s) in
  if int_max_str_digits <? count_digits literal then None
  else
    match literal with
    | String "-" t => Z.opp <$> int_digits 0 false t
    | String "+" t => int_digits 0 false t
    | t => int_digits 0 false t
    end.

(** ** Regular expressions, as far as [re.match] is used

    [re.match(p, s)] succeeds when some prefix of [s] belongs to the
    language of [p]; the matcher walks [s] taking derivatives. *)

Module Re.

Inductive regex : Type :=
  | Void
  | Eps
  | Chr (c : ascii)
  | Rng (lo hi : ascii)
  | Cat (r1 r2 : regex)
  | Alt (r1 r2 : regex)
  | Star (r : regex).

(** [r+] *)
Definition Plus (r : regex) : regex := Cat r (Star r).

Definition in_range (lo hi c : ascii) : bool :=
  (N_of_ascii lo <=? N_of_ascii c)%N && (N_of_ascii c <=? N_of_ascii hi)%N.

Fixpoint nullable (r : regex) : bool :=
  match r with
  | Void | Chr _ | Rng _ _ => false
  | Eps | Star _ => true
  | Cat r1 r2 => nullable r1 && nullable r2
  | Alt r1 r2 => nullable r1 || nullable r2
  end.

Fixpoint deriv (a : ascii) (r : regex) : regex :=
  match r with
  | Void | Eps => Void
  | Chr c => if Ascii.eqb a c then Eps else Void
  | Rng lo hi => if in_range lo hi a then Eps else Void
  | Cat r1 r2 =>
      if nullable r1 then Alt (Cat (deriv a r1) r2) (deriv a r2)
      else Cat (deriv a r1) r2
  | Alt r1 r2 => Alt (deriv a r1) (deriv a r2)
  | Star r1 => Cat (deriv a r1) (Star r1)
  end.

(** [re.match(r, s) is not None] *)
Fixpoint re_match (r : regex) (s : string) : bool :=
  nullable r ||
  match s with
  | EmptyString => false
  | String a s' => re_match (deriv a r) s'
  end.

(** The language of a regular expression. *)
Inductive lang : regex → string → Prop :=
  | lang_eps : lang Eps ""
  | lang_chr c : lang (Chr c) (String c "")
  | lang_rng lo hi c : in_range lo hi c = true → lang (Rng lo hi) (String c "")
  | lang_cat r1 r2 s1 s2 : lang r1 s1 → lang r2 s2 → lang (Cat r1 r2) (s1 +:+ s2)
  | lang_alt_l r1 r2 s : lang r1 s → lang (Alt r1 r2) s
  | lang_alt_r r1 r2 s : lang r2 s → lang (Alt r1 r2) s
  | lang_star_nil r : lang (Star r) ""
  | lang_star_cons r c s1 s2 :
      lang r (String c s1) → lang (Star r) s2 → lang (Star r) (String c s1 +:+ s2).

End Re.

(** ** The template filters *)

(** [r"^v[0-9]+\.[0-9]+\.[0-9]+"]; the leading [^] is what [re.match]
    does anyway. *)
Definition version_re : Re.regex :=
  let digits := Re.Plus (Re.Rng "0" "9") in
  Re.Cat (Re.Chr "v")
    (Re.Cat digits (Re.Cat (Re.Chr ".")
      (Re.Cat digits (Re.Cat (Re.Chr ".") digits)))).

Definition strip_version (input : string) : string :=
  if Re.re_match version_re input then Str.drop 1 input else input.

(** [input.replace("\\", "\\\\")] *)
Fixpoint escape_for_json (input : string) : string :=
  match input with
  | EmptyString => EmptyString
  | String c s =>
      if Ascii.eqb c "\" then String "\" (String "\" (escape_for_json s))
      else String c (escape_for_json s)
  end.

(** ** Results of a call *)

(** Exceptions, by class. Those of [httplib2] are the ones [make_request]
    has a handler for; [EngineError] is whatever the template engine
    raises, [OtherError] any further [Exception]. *)
Inductive exn : Type :=
  | ValueError (what : string)
  | TypeError (what : string)
  | KeyError (key : string)
  | AttributeError (what : string)
  | OverflowError (what : string)
  | TemplateRuntimeError (msg : string)
  | EngineError (msg : string)
  | RedirectMissingLocation
  | RedirectLimit
  | ServerNotFoundError
  | RelativeURIError
  | FailedToDecompressContent
  | SocketTimeout
  | OtherError (msg : string).

(** A function without effects returns or raises. *)
Inductive raises (A : Type) : Type :=
  | Ok (a : A)
  | Raised (e : exn).
Arguments Ok {A} a.
Arguments Raised {A} e.

Definition rbind {A B : Type} (r : raises A) (k : A → raises B) : raises B :=
  match r with
  | Ok a => k a
  | Raised e => Raised e
  end.

Notation "'let?' x ':=' r 'in' k" := (rbind r (λ x, k))
  (at level 10, x pattern, r at level 100, k at level 200).

(** A call of the program returns, or leaves through [sys.exit(code)]
    ([SystemExit], which [except Exception] does not catch), or raises an
    [Exception]. *)
Inductive result (A : Type) : Type :=
  | Ret (a : A)
  | Exit (code : Z)
  | Raise (e : exn).
Arguments Ret {A} a.
Arguments Exit {A} code.
Arguments Raise {A} e.

(** ** The [mandatory] filter *)

(** What a template reference evaluates to: the engine's [Undefined]
    with its [_undefined_name], or a value. *)
Inductive jinja_value (A : Type) : Type :=
  | Undefined (undefined_name : option string)
  | Value (a : A).
Arguments Undefined {A} undefined_name.
Arguments Value {A} a.

Definition mandatory {A : Type} (input : jinja_value A) (msg : option string)
  : raises (jinja_value A) :=
  match input with
  | Undefined undefined_name =>
      let name := match undefined_name with Some n => n | None => EmptyString end in
      let msg :=
        match msg with
        | Some m => m
        | None =>
            if String.eqb (Str.take 7 name) "PLUGIN_"
            then "Mandatory option " +:+ Str.dq +:+ Str.lower (Str.drop 7 name)
                   +:+ Str.dq +:+ " is not defined in plugin settings"
            else "Mandatory variable " +:+ Str.dq +:+ name
                   +:+ Str.dq +:+ " is not defined via environment"
        end in
      Raised (TemplateRuntimeError msg)
  | Value _ => Ok input
  end.

(** ** Durations and instants *)

(** [str(datetime.timedelta(seconds=n))] for an integer [n]; the
    constructor normalises to days and seconds of the day and refuses more
    than 999999999 days either way. *)
Definition timedelta_str (n : Z) : raises string :=
  let days := n / 86400 in
  let seconds := n mod 86400 in
  if (Z.abs days >? 999999999) then Raised (OverflowError "timedelta")
  else
    let mm := seconds / 60 in
    let ss := seconds mod 60 in
    let hh := mm / 60 in
    let mm := mm mod 60 in
    let s := str_of_Z hh +:+ ":" +:+ pad2 mm +:+ ":" +:+ pad2 ss in
    Ok (if days =? 0 then s
         else str_of_Z days +:+ " day"
                +:+ (if Z.abs days =? 1 then "" else "s") +:+ ", " +:+ s).

Definition timestamp_diff (start end_ : string) : raises string :=
  match py_int end_ with
  | None => Raised (ValueError end_)
  | Some e =>
      match py_int start with
      | None => Raised (ValueError start)
      | Some b => timedelta_str (e - b)
      end
  end.

(** A [datetime] is its distance from [datetime.min] in microseconds;
    [datetime.max] is the last microsecond of year 9999. *)
Definition datetime_end : Z := 3652059 * 86400 * 1000000.

(** [target + datetime.timedelta(seconds=n)] *)
Definition datetime_add_seconds (target n : Z) : raises Z :=
  if (Z.abs (n / 86400) >? 999999999) then Raised (OverflowError "timedelta")
  else
    let t := target + n * 1000000 in
    if (0 <=? t) && (t <? datetime_end) then Ok t
    else Raised (OverflowError "date value out of range").

(** [isoformat] is the calendar rendering of the library. *)
Definition time_in_rfc3339 (isoformat : Z → string) (target : Z) (delta : option string)
  : raises string :=
  match delta with
  | None => Ok (isoformat target +:+ "Z")
  | Some d =>
      match py_int d with
      | None => Raised (ValueError d)
      | Some n =>
          let? t := datetime_add_seconds target n in
          Ok (isoformat t +:+ "Z")
      end
  end.

(** ** Decoded JSON

    What [json.loads] returns: [None], [bool], [int], [str], [list] and
    [dict]; a [dict] is the list of its items, keys pairwise distinct.
    Numbers with a fraction or an exponent are not represented. *)
Inductive json : Type :=
  | JNull
  | JBool (b : bool)
  | JInt (n : Z)
  | JStr (s : string)
  | JArr (elems : list json)
  | JObj (items : list (string * json)).

Fixpoint dict_get (key : string) (items : list (string * json)) : option json :=
  match items with
  | [] => None
  | (k, v) :: rest => if String.eqb k key then Some v else dict_get key rest
  end.

(** [a == b]: [bool] is a subclass of [int], lists compare element by
    element, dictionaries item by item whatever the order. *)
Fixpoint py_eq (a b : json) {struct a} : bool :=
  match a, b with
  | JNull, JNull => true
  | JBool x, JBool y => Bool.eqb x y
  | JBool x, JInt y => Z.b2z x =? y
  | JInt x, JBool y => x =? Z.b2z y
  | JInt x, JInt y => x =? y
  | JStr x, JStr y => String.eqb x y
  | JArr xs, JArr ys =>
      (fix all2 (xs ys : list json) {struct xs} : bool :=
         match xs, ys with
         | [], [] => true
         | x :: xs', y :: ys' => py_eq x y && all2 xs' ys'
         | _, _ => false
         end) xs ys
  | JObj xs, JObj ys =>
      (length xs =? length ys)%nat &&
      (fix all_in (xs : list (string * json)) {struct xs} : bool :=
         match xs with
         | [] => true
         | (k, v) :: xs' =>
             match dict_get k ys with
             | Some v' => py_eq v v' && all_in xs'
             | None => false
             end
         end) xs
  | _, _ => false
  end.

(** [v[key]] for a string key *)
Definition py_getitem (v : json) (key : string) : raises json :=
  match v with
  | JObj items =>
      match dict_get key items with
      | Some x => Ok x
      | None => Raised (KeyError key)
      end
  | _ => Raised (TypeError "subscript")
  end.

Fixpoint chars (s : string) : list json :=
  match s with
  | EmptyString => []
  | String c s' => JStr (String c EmptyString) :: chars s'
  end.

(** What [for x in v] goes through *)
Definition py_iter (v : json) : raises (list json) :=
  match v with
  | JArr elems => Ok elems
  | JObj items => Ok (map (λ kv, JStr kv.1) items)
  | JStr s => Ok (chars s)
  | _ => Raised (TypeError "not iterable")
  end.

Definition hex_digit (n : N) : ascii :=
  if (n <? 10)%N then ascii_of_N (48 + n) else ascii_of_N (87 + n).

(** [repr] of a [str]: quoted, with the quote and the backslash escaped,
    and the characters that do not print: the controls below 32 and from 127
    to 159, the no-break space 160 and the soft hyphen 173. *)
Fixpoint repr_chars (quote : ascii) (s : string) : string :=
  match s with
  | EmptyString => EmptyString
  | String c s' =>
      let n := N_of_ascii c in
      (if Ascii.eqb c quote || Ascii.eqb c "\" then String "\" (String c EmptyString)
       else if (n =? 9)%N then "\t"
       else if (n =? 10)%N then "\n"
       else if (n =? 13)%N then "\r"
       else if (n <? 32)%N || ((127 <=? n)%N && (n <=? 160)%N) || (n =? 173)%N
            then String "\" (String "x" (String (hex_digit (n / 16))
                   (String (hex_digit (n mod 16)) EmptyString)))
       else String c EmptyString) +:+ repr_chars quote s'
  end.

Definition repr_str (s : string) : string :=
  let sq := ascii_of_nat 39 in
  let quote :=
    if Str.contains (String sq EmptyString) s && negb (Str.contains Str.dq s)
    then ascii_of_nat 34 else sq in
  String quote (repr_chars quote s +:+ String quote EmptyString).

(** [repr(v)] *)
Fixpoint py_repr (v : json) : string :=
  match v with
  | JNull => "None"
  | JBool true => "True"
  | JBool false => "False"
  | JInt n => str_of_Z n
  | JStr s => repr_str s
  | JArr elems => "[" +:+ Str.join ", " (map py_repr elems) +:+ "]"
  | JObj items =>
      "{" +:+ Str.join ", "
                (map (λ kv, repr_str kv.1 +:+ ": " +:+ py_repr kv.2) items) +:+ "}"
  end.

(** [str(v)], as ["{0}".format(v)] renders it *)
Definition py_str (v : json) : string :=
  match v with
  | JStr s => s
  | _ => py_repr v
  end.

(** ** The process and what it talks to *)

(** The [body] argument of a request: the initial [{}] of [make_request],
    or a rendered payload. *)
Inductive body : Type :=
  | EmptyDict
  | Payload (text : string).

(** One call of [httplib2.Http(...).request], with the settings of the
    [Http] object it is made on. *)
Record request : Type := {
  uri : string;
  method : string;
  headers : gmap string string;
  req_body : body;
  disable_ssl_certificate_validation : bool;
  timeout : Z;
  credentials : option (string * string);
  follow_redirects : bool
}.

(** An [httplib2.Response]: the status and the header dictionary. *)
Record response : Type := {
  status : Z;
  resp_headers : gmap string string
}.

Inductive http_result : Type :=
  | Responded (r : response) (content : string)
  | Failed (e : exn).

(** What is formatted into a message. *)
Inductive arg : Type :=
  | AStr (s : string)
  | AInt (n : Z)
  | ABool (b : bool)
  | ABytes (content : string)
  | AExn (e : exn)
  | AJson (v : json)
  | AHeaders (h : gmap string string)
  | ABody (b : body)
  | AResponse (r : response)
  | ACodes (codes : list Z).

(** A line of standard output: a [print_msg] with its level, or a bare
    [print]. The message is kept as its format string and arguments; the
    time stamp and the colour of [print_msg] are left out. *)
Inductive out : Type :=
  | Msg (level : string) (fmt : string) (args : list arg)
  | Plain (fmt : string) (args : list arg).

(** The state a run threads: [os.environ], the module-global
    [request_headers], standard output, the requests made so far and the
    number of clock readings. *)
Record state : Type := {
  environ : gmap string string;
  request_headers : gmap string string;
  stdout : list out;
  sent : list request;
  clock_reads : nat
}.

(** The libraries and the outside: the HTTP exchange (it may depend on the
    requests made before); [json.loads] after the decoding of the bytes;
    the exception [Environment.from_string] raises on a template string it
    cannot compile (line 194); what [Template.render] makes of a compiled
    template string and of the environment (line 199); what the engine makes
    of a file of a templates directory (lines 212 to 218); the file test of
    [render_template]; the clock; and [datetime.isoformat]. *)
Record world : Type := {
  http_request : list request → request → http_result;
  json_loads : string → option json;
  from_string : string → option exn;
  render_string : string → gmap string string → raises string;
  render_file : string → string → gmap string string → raises string;
  is_file : string → bool;
  utcnow : nat → Z;
  isoformat : Z → string
}.

(** The module globals [main] sets before [perform_action]. *)
Record globals : Type := {
  debug_mode : bool;
  strict_match : bool;
  silence_duration : string;
  build_event : string
}.

Definition M (A : Type) : Type := state → result A * state.

Definition ret {A : Type} (a : A) : M A := λ st, (Ret a, st).

Definition bind {A B : Type} (m : M A) (k : A → M B) : M B :=
  λ st,
    match m st with
    | (Ret a, st') => k a st'
    | (Exit c, st') => (Exit c, st')
    | (Raise e, st') => (Raise e, st')
    end.

Notation "'let!' x ':=' m 'in' k" := (bind m (λ x, k))
  (at level 10, x pattern, m at level 100, k at level 200).

Definition raise {A : Type} (e : exn) : M A := λ st, (Raise e, st).

(** [sys.exit(code)] *)
Definition sys_exit {A : Type} (code : Z) : M A := λ st, (Exit code, st).

Definition lift {A : Type} (r : raises A) : M A :=
  match r with
  | Ok a => ret a
  | Raised e => raise e
  end.

(** [try: m  except Exception as e: h e] *)
Definition try_except {A : Type} (m : M A) (h : exn → M A) : M A :=
  λ st,
    match m st with
    | (Raise e, st') => h e st'
    | r => r
    end.

Definition when (b : bool) (m : M unit) : M unit := if b then m else ret tt.

Fixpoint for_each {A : Type} (l : list A) (f : A → M unit) : M unit :=
  match l with
  | [] => ret tt
  | x :: l' => let! _ := f x in for_each l' f
  end.

Definition set_environ (env : gmap string string) (st : state) : state :=
  {| environ := env; request_headers := request_headers st;
     stdout := stdout st; sent := sent st; clock_reads := clock_reads st |}.

Definition set_request_headers (h : gmap string string) (st : state) : state :=
  {| environ := environ st; request_headers := h;
     stdout := stdout st; sent := sent st; clock_reads := clock_reads st |}.

Definition set_stdout (o : list out) (st : state) : state :=
  {| environ := environ st; request_headers := request_headers st;
     stdout := o; sent := sent st; clock_reads := clock_reads st |}.

Definition set_sent (l : list request) (st : state) : state :=
  {| environ := environ st; request_headers := request_headers st;
     stdout := stdout st; sent := l; clock_reads := clock_reads st |}.

Definition set_clock_reads (n : nat) (st : state) : state :=
  {| environ := environ st; request_headers := request_headers st;
     stdout := stdout st; sent := sent st; clock_reads := n |}.

Definition get_environ : M (gmap string string) := λ st, (Ret (environ st), st).

Definition get_request_headers : M (gmap string string) :=
  λ st, (Ret (request_headers st), st).

(** [os.environ[key] = value] *)
Definition setenv (key value : string) : M unit :=
  λ st, (Ret tt, set_environ (<[key := value]> (environ st)) st).

Definition write (o : out) : M unit :=
  λ st, (Ret tt, set_stdout (stdout st ++ [o]) st).

Definition print_msg (level fmt : string) (args : list arg) : M unit :=
  write (Msg level fmt args).

Definition fatal_error {A : Type} (message : string) : M A :=
  let! _ := print_msg "ERROR" message [] in sys_exit 1.

(** [os.environ.get(key, default)] *)
Definition from_env (env : gmap string string) (key default : string) : string :=
  match env !! key with
  | Some v => v
  | None => default
  end.

(** [from_env(key) not in ['', None]] *)
Definition in_env (env : gmap string string) (key : string) : bool :=
  negb (String.eqb (from_env env key "") "").

(** ** The plugin *)

Definition supported_actions : list string := ["create"; "delete"].
Definition supported_build_events : list string :=
  ["push"; "tag"; "cron"; "pull_request"; "promote"; "rollback"; "custom"].

Definition plugin_user_agent : string := "drone/alertmanager".

(** The initial value of the global [request_headers]. *)
Definition base_headers : gmap string string :=
  <["Content-Type" := "application/json; charset = UTF-8"]>
    (<["User-Agent" := plugin_user_agent]> ∅).

Definition required_env : list string :=
  ["DRONE_REPO_OWNER"; "DRONE_REPO_NAME";
   "DRONE_BUILD_LINK"; "DRONE_BUILD_NUMBER";
   "DRONE_BUILD_STARTED"; "DRONE_BUILD_FINISHED";
   "DRONE_BUILD_EVENT"; "DRONE_STAGE_NAME";
   "DRONE_BUILD_NUMBER"].

Definition silence_author : string := plugin_user_agent.

Definition silence_comment (env : gmap string string) : string :=
  "Created for build#" +:+ from_env env "DRONE_BUILD_NUMBER" ""
    +:+ " of " +:+ from_env env "DRONE_REPO_OWNER" ""
    +:+ "/" +:+ from_env env "DRONE_REPO_NAME" ""
    +:+ ", see " +:+ from_env env "DRONE_BUILD_LINK" "".

Definition decode_and_parse_json (w : world) (content : string) : M json :=
  match json_loads w content with
  | Some v => ret v
  | None =>
      let! _ := print_msg "ERROR"
                  ("Failed decode and parse response:" +:+ Str.nl +:+ "{0}")
                  [AExn (ValueError content)] in
      ret (JArr [])
  end.

(** *** Rendering *)

Definition deploy_target_tag : string := "{{deploy_target}}".

Definition replace_macroses (g : globals) (raw_payload : string) : M string :=
  if negb (Str.contains deploy_target_tag raw_payload) then ret raw_payload
  else
    let! _ := when (negb (existsb (String.eqb (build_event g)) ["promote"; "rollback"]))
                (fatal_error ("Tag " +:+ Str.dq +:+ "{{deploy_target}}" +:+ Str.dq
                   +:+ " is available only for promote and rollback events")) in
    let! env := get_environ in
    match env !! "DRONE_DEPLOY_TO" with
    | None | Some EmptyString =>
        fatal_error ("Can't replace " +:+ Str.dq +:+ "{{deploy_target}}" +:+ Str.dq
          +:+ ", because " +:+ Str.dq +:+ "DRONE_DEPLOY_TO" +:+ Str.dq
          +:+ " is empty or unavailable in environment")
    | Some deploy_target =>
        ret (Str.replace deploy_target_tag deploy_target raw_payload)
    end.

(** [template.filters], read on line 195 before the assignment into it:
    the object [from_string] returns is a [jinja2.Template], whose class has
    no attribute [filters] (the filters belong to the [Environment], as in
    [render_template]), so the lookup raises. *)
Definition template_filters : raises unit :=
  Raised (AttributeError "'Template' object has no attribute 'filters'").

(** Lines 194 to 200 as they are written; what follows the lookup of
    line 195 is never reached. *)
Definition render_custom_template (w : world) (g : globals) (custom_template : string)
  : M string :=
  let! _ := match from_string w custom_template with
            | Some e => raise e
            | None => ret tt
            end in
  let! _ := lift template_filters in
  let! env_vars := get_environ in
  let! payload := lift (render_string w custom_template env_vars) in
  replace_macroses g payload.

Definition render_template (w : world) (g : globals) (target_template : string)
  : M string :=
  let! env := get_environ in
  let templates_dir := from_env env "TEMPLATES_PATH" "/templates/" in
  let template_file := templates_dir +:+ target_template +:+ ".j2" in
  if negb (is_file w template_file) then
    let! _ := print_msg "ERROR" "Can't read template from {0}" [AStr template_file] in
    sys_exit 1
  else
    let! env_vars := get_environ in
    let! raw_payload := lift (render_file w templates_dir (target_template +:+ ".j2") env_vars) in
    replace_macroses g raw_payload.

(** *** One request *)

(** Lines 233 to 238: a derived duration, written into the environment
    when both ends of the interval are set and not empty. *)
Definition derive_duration (start_key end_key out_key : string) : M unit :=
  let! env := get_environ in
  when (in_env env start_key && in_env env end_key)
    (let! d := lift (timestamp_diff (from_env env start_key "") (from_env env end_key "")) in
     setenv out_key d).

(** The loop of lines 243 to 245 over the entries of the header list. *)
Fixpoint parse_headers (headers_list : list string) (custom_headers : gmap string string)
  : raises (gmap string string) :=
  match headers_list with
  | [] => Ok custom_headers
  | header_string :: rest =>
      match Str.split ":" header_string with
      | [k; v] => parse_headers rest (<[Str.strip k := Str.strip v]> custom_headers)
      | _ => Raised (ValueError header_string)
      end
  end.

(** [request_headers.update(custom_headers)], on the global. *)
Definition update_request_headers (custom_headers : gmap string string) : M unit :=
  λ st, (Ret tt, set_request_headers (custom_headers ∪ request_headers st) st).

Definition merge_custom_headers : M unit :=
  let! env := get_environ in
  when (in_env env "PLUGIN_HEADERS")
    (let! custom_headers :=
       lift (parse_headers (Str.split "," (from_env env "PLUGIN_HEADERS" "")) ∅) in
     update_request_headers custom_headers).

(** Lines 248 to 258. *)
Definition render_payload (w : world) (g : globals) (template_name : option string)
  : M body :=
  if bool_decide (template_name = Some "create") then
    try_except
      (let! env := get_environ in
       if in_env env "PLUGIN_CUSTOM_TEMPLATE" then
         let! p := render_custom_template w g (from_env env "PLUGIN_CUSTOM_TEMPLATE" "") in
         ret (Payload p)
       else if in_env env "PLUGIN_TEMPLATE" then
         let payload_template := from_env env "PLUGIN_TEMPLATE" "default" +:+ "/create" in
         let! p := render_template w g payload_template in
         ret (Payload p)
       else ret EmptyDict)
      (λ e,
         let! _ := print_msg "ERROR"
                     ("Template rendering failed with an error:" +:+ Str.nl +:+ "{0}")
                     [AExn e] in
         sys_exit 1)
  else ret EmptyDict.

(** [http_obj.request(...)]: the attempt is recorded, then the exchange
    returns or raises. *)
Definition http_call (w : world) (req : request) : M (response * string) :=
  λ st,
    let st' := set_sent (sent st ++ [req]) st in
    match http_request w (sent st) req with
    | Responded r content => (Ret (r, content), st')
    | Failed e => (Raise e, st')
    end.

(** The handlers of lines 309 to 324. *)
Definition report_failure (target_url : string) (request_timeout : Z) (e : exn) : M unit :=
  match e with
  | RedirectMissingLocation =>
      print_msg "ERROR"
        "A 3xx redirect response code was provided but no Location: header was provided to point to the new location." []
  | RedirectLimit =>
      print_msg "ERROR"
        "The maximum number of redirections was reached without coming to a final URI." []
  | ServerNotFoundError =>
      print_msg "ERROR"
        ("Unable to resolve the host name given for URI:" +:+ Str.nl +:+ " {0}.")
        [AStr target_url]
  | RelativeURIError =>
      print_msg "ERROR"
        "A relative, as opposed to an absolute URI, was passed into request()." []
  | FailedToDecompressContent =>
      print_msg "ERROR"
        "The headers claimed that the content of the response was compressed but the decompression algorithm applied to the content failed." []
  | SocketTimeout =>
      print_msg "ERROR" "Timeout exceeded after {0} seconds, request aborted."
        [AInt request_timeout]
  | _ =>
      print_msg "ERROR" ("Request failed with an error:" +:+ Str.nl +:+ "{0}") [AExn e]
  end.

(** Lines 260 to 269 and 274 to 278: the settings of the [Http] object. *)
Definition skip_verify (env : gmap string string) : bool :=
  in_env env "PLUGIN_SKIP_VERIFY"
  && String.eqb (Str.lower (from_env env "PLUGIN_SKIP_VERIFY" "")) "true".

Definition follow_redirects_setting (env : gmap string string) : bool :=
  if in_env env "PLUGIN_FOLLOW_REDIRECTS"
  then String.eqb (Str.lower (from_env env "PLUGIN_FOLLOW_REDIRECTS" "")) "true"
  else true.

Definition request_timeout (env : gmap string string) : raises Z :=
  if in_env env "PLUGIN_TIMEOUT" then
    match py_int (from_env env "PLUGIN_TIMEOUT" "") with
    | Some n => Ok n
    | None => Raised (ValueError (from_env env "PLUGIN_TIMEOUT" ""))
    end
  else Ok 60.

Definition with_credentials (env : gmap string string) : bool :=
  in_env env "PLUGIN_USERNAME" && in_env env "PLUGIN_PASSWORD".

Definition auth_username (env : gmap string string) : string :=
  if with_credentials env then from_env env "PLUGIN_USERNAME" "" else "".

Definition auth_password (env : gmap string string) : string :=
  if with_credentials env then from_env env "PLUGIN_PASSWORD" "" else "".

(** The request of lines 293 to 298 on the object of lines 271 to 278;
    the object follows redirects unless credentials are set and the
    setting says otherwise. *)
Definition build_request (env hdrs : gmap string string)
    (target_url request_method : string) (request_payload : body) (timeout : Z)
  : request :=
  {| uri := target_url; method := request_method; headers := hdrs;
     req_body := request_payload;
     disable_ssl_certificate_validation := skip_verify env;
     timeout := timeout;
     credentials :=
       if with_credentials env then Some (auth_username env, auth_password env)
       else None;
     follow_redirects :=
       if with_credentials env then follow_redirects_setting env else true |}.

(** Lines 280 to 291. *)
Definition debug_request (env : gmap string string) (req : request)
    (valid_response_codes : list Z) : M unit :=
  let! _ := print_msg "DEBUG" "Target URL is {0}" [AStr (uri req)] in
  let! _ := print_msg "DEBUG" "Method is {0}" [AStr (method req)] in
  let! _ := print_msg "DEBUG" "SkipVerify is {0}" [ABool (skip_verify env)] in
  let! _ := print_msg "DEBUG" "FollowRedirects is {0}"
              [ABool (follow_redirects_setting env)] in
  let! _ := print_msg "DEBUG" "Timeout is {0}" [AInt (timeout req)] in
  let! _ := print_msg "DEBUG" "Headers are {0}" [AHeaders (headers req)] in
  let! _ := print_msg "DEBUG" "Credentials are {0}:{1}"
              [AStr (auth_username env); AStr (auth_password env)] in
  let! _ := print_msg "DEBUG" "Valid codes are {0}" [ACodes valid_response_codes] in
  let! _ := print_msg "DEBUG" ("Here is a message:" +:+ Str.nl +:+ "{0}")
              [ABody (req_body req)] in
  print_msg "NOTICE" "Sending request to {0}" [AStr (uri req)].

(** The body of the [try] of lines 293 to 308. *)
Definition exchange (w : world) (g : globals) (req : request)
    (valid_response_codes : list Z) : M (option (response * string)) :=
  let! (response, content) := http_call w req in
  let! _ := when (debug_mode g)
    (let! _ := print_msg "DEBUG" ("Here is a response:" +:+ Str.nl +:+ "{0}")
                [AResponse response] in
     print_msg "DEBUG" ("And here is a body of response:" +:+ Str.nl +:+ "{0}")
       [ABytes content]) in
  if bool_decide (status response ∈ valid_response_codes) then
    let! _ := print_msg "NOTICE" "Request successfully sent to {0}, we got HTTP/{1}"
                [AStr (uri req); AInt (status response)] in
    ret (Some (response, content))
  else
    let! _ := print_msg "ERROR"
                ("Request failed with HTTP/{0}, recieved response below:"
                   +:+ Str.nl +:+ "{1}")
                [AInt (status response); ABytes content] in
    sys_exit 1.

(** A call returns the response and its content, or [None] when a
    handler of the [try] ran. *)
Definition make_request (w : world) (g : globals)
    (target_url request_method : string) (template_name : option string)
  : M (option (response * string)) :=
  let valid_response_codes := [200] in
  let! _ := derive_duration "DRONE_BUILD_STARTED" "DRONE_BUILD_FINISHED"
              "DRONE_BUILD_TOTALTIME" in
  let! _ := derive_duration "DRONE_BUILD_CREATED" "DRONE_BUILD_STARTED"
              "DRONE_BUILD_QUEUEDTIME" in
  let! _ := merge_custom_headers in
  let! request_payload := render_payload w g template_name in
  let! env := get_environ in
  let! timeout := lift (request_timeout env) in
  let! hdrs := get_request_headers in
  let req := build_request env hdrs target_url request_method request_payload timeout in
  let! _ := when (debug_mode g) (debug_request env req valid_response_codes) in
  try_except (exchange w g req valid_response_codes)
    (λ e, let! _ := report_failure target_url timeout e in ret None).

(** *** Searching *)

(** The tests of lines 158 to 164 on one entry of the list: [Ok true]
    when the entry is selected, [Ok false] at a [continue] or when the last
    test fails. [required_matchers] is bound only in a strict search. *)
Definition silence_selected (strict : bool) (required_matchers : option json)
    (required_silence_author required_silence_comment : string)
    (target_silence : json) : raises bool :=
  let? st := py_getitem target_silence "status" in
  let? state := py_getitem st "state" in
  if py_eq state (JStr "expired") then Ok false else
  let? created_by := py_getitem target_silence "createdBy" in
  if negb (py_eq created_by (JStr required_silence_author)) then Ok false else
  let? comment := py_getitem target_silence "comment" in
  if negb (py_eq comment (JStr required_silence_comment)) then Ok false else
  if negb strict then Ok true else
  let? matchers := py_getitem target_silence "matchers" in
  match required_matchers with
  | None => Raised (OtherError "NameError")
  | Some rm =>
      let? required := py_getitem rm "matchers" in
      Ok (py_eq matchers required)
  end.

(** The [for] loop of lines 157 to 166: the identifiers appended to
    [silence_ids] until the list ends or an exception leaves the loop, and
    that exception. *)
Fixpoint select_silences (strict : bool) (required_matchers : option json)
    (required_silence_author required_silence_comment : string)
    (silences_list : list json) (silence_ids : list json)
  : list json * option exn :=
  match silences_list with
  | [] => (silence_ids, None)
  | target_silence :: rest =>
      match silence_selected strict required_matchers required_silence_author
              required_silence_comment target_silence with
      | Raised e => (silence_ids, Some e)
      | Ok false =>
          select_silences strict required_matchers required_silence_author
            required_silence_comment rest silence_ids
      | Ok true =>
          match py_getitem target_silence "id" with
          | Raised e => (silence_ids, Some e)
          | Ok id =>
              select_silences strict required_matchers required_silence_author
                required_silence_comment rest (silence_ids ++ [id])
          end
      end
  end.

(** Lines 155 to 168, after the decoding: what the [try] block leaves in
    [silence_ids], and the exception it caught. *)
Definition scan_silences (strict : bool) (required_matchers : option json)
    (required_silence_author required_silence_comment : string)
    (decoded : json) : list json * option exn :=
  match py_iter decoded with
  | Raised e => ([], Some e)
  | Ok silences_list =>
      select_silences strict required_matchers required_silence_author
        required_silence_comment silences_list []
  end.

(** [response['content-type']] *)
Definition content_type (r : response) : raises string :=
  match resp_headers r !! "content-type" with
  | Some v => Ok v
  | None => Raised (KeyError "content-type")
  end.

(** [response, content = make_request(...)] *)
Definition unpack {A : Type} (r : option A) : M A :=
  match r with
  | Some x => ret x
  | None => raise (TypeError "cannot unpack non-iterable NoneType object")
  end.

(** Lines 145 to 147: the matcher set of the template set, loaded only
    for a strict search. *)
Definition load_required_matchers (w : world) (g : globals) : M (option json) :=
  if strict_match g then
    let! env := get_environ in
    let payload_template := from_env env "PLUGIN_TEMPLATE" "default" +:+ "/_matchers" in
    let! rendered := render_template w g payload_template in
    match json_loads w ("{" +:+ rendered +:+ "}") with
    | Some v => ret (Some v)
    | None => raise (ValueError ("{" +:+ rendered +:+ "}"))
    end
  else ret None.

(** Lines 152 to 170: what the search makes of the answer. *)
Definition read_silences (w : world) (g : globals) (required_matchers : option json)
    (required_silence_author required_silence_comment : string)
    (response : response) (content : string) : M (option (list json)) :=
  let! ct := lift (content_type response) in
  if negb (String.eqb ct "application/json") then
    let! _ := print_msg "WARNING"
                ("Got " +:+ Str.dq +:+ "{0}" +:+ Str.dq
                   +:+ " as Content-Type type instead of expected "
                   +:+ Str.dq +:+ "application/json" +:+ Str.dq)
                [AStr ct] in
    ret None
  else
    let! silences_list := decode_and_parse_json w content in
    let '(silence_ids, caught) :=
      scan_silences (strict_match g) required_matchers required_silence_author
        required_silence_comment silences_list in
    let! _ := for_each silence_ids
                (λ id, print_msg "DEBUG" "Found matching silence with ID {0}" [AJson id]) in
    let! _ := match caught with
              | Some e =>
                  print_msg "ERROR"
                    ("Searching for silence failed with an error:" +:+ Str.nl +:+ "{0}")
                    [AExn e]
              | None => ret tt
              end in
    ret (Some silence_ids).

(** The search returns the list of identifiers, or [None] (line 154). *)
Definition find_silences (w : world) (g : globals) (base_url : string)
  : M (option (list json)) :=
  let request_method := "GET" in
  let target_url := base_url +:+ "/api/v2/silences" in
  let required_silence_author := silence_author in
  let! env := get_environ in
  let required_silence_comment := silence_comment env in
  let! required_matchers := load_required_matchers w g in
  let! _ := print_msg "NOTICE" "Searching for non-expired silences (strict_match={0})"
              [AStr (if strict_match g then "true" else "false")] in
  let! r := make_request w g target_url request_method None in
  let! (response, content) := unpack r in
  read_silences w g required_matchers required_silence_author required_silence_comment
    response content.

(** *** The action *)

Definition read_clock (w : world) : M Z :=
  λ st, (Ret (utcnow w (clock_reads st)), set_clock_reads (S (clock_reads st)) st).

(** Lines 338 to 352, for one target. *)
Definition create_silence (w : world) (g : globals) (target_url : string) : M unit :=
  let request_suffix := "/api/v2/silences" in
  let request_method := "POST" in
  let! time_now := read_clock w in
  let! starts_at := lift (time_in_rfc3339 (isoformat w) time_now None) in
  let! _ := setenv "SILENCE_STARTS_AT" starts_at in
  let! ends_at := lift (time_in_rfc3339 (isoformat w) time_now (Some (silence_duration g))) in
  let! _ := setenv "SILENCE_ENDS_AT" ends_at in
  let resulting_url := target_url +:+ request_suffix in
  let! r := make_request w g resulting_url request_method (Some "create") in
  let! (response, content) := unpack r in
  let! ct := lift (content_type response) in
  if negb (String.eqb ct "application/json") then
    print_msg "WARNING"
      ("Got " +:+ Str.dq +:+ "{0}" +:+ Str.dq
         +:+ " as Content-Type type instead of expected "
         +:+ Str.dq +:+ "application/json" +:+ Str.dq)
      [AStr ct]
  else
    let! json_response := decode_and_parse_json w content in
    let! id := lift (py_getitem json_response "silenceID") in
    print_msg "NOTICE" "Silence added with ID {0}" [AJson id].

(** Lines 362 to 365: the [DELETE] for one identifier. *)
Definition delete_one (w : world) (g : globals) (target_url : string)
    (silence_id : json) : M unit :=
  let request_suffix := "/api/v2/silence/" +:+ py_str silence_id in
  let resulting_url := target_url +:+ request_suffix in
  let! _ := print_msg "NOTICE" "Deleting silence with ID {0}" [AJson silence_id] in
  let! _ := make_request w g resulting_url "DELETE" (Some "delete") in
  ret tt.

(** The loop of line 361. *)
Definition delete_each (w : world) (g : globals) (target_url : string)
    (silence_ids : list json) : M unit :=
  for_each silence_ids (delete_one w g target_url).

(** Lines 354 to 367, for one target. *)
Definition delete_silences (w : world) (g : globals) (target_url : string) : M unit :=
  let! silence_ids := find_silences w g target_url in
  match silence_ids with
  | Some (id :: ids) => delete_each w g target_url (id :: ids)
  | Some [] | None =>
      print_msg "WARNING"
        "Can't find matching silences, probably they're already expired?" []
  end.

Definition perform_action (w : world) (g : globals) (target_action : string) : M unit :=
  let! env := get_environ in
  let! _ := setenv "SILENCE_COMMENT" (silence_comment env) in
  let! _ := setenv "SILENCE_CREATED_BY" silence_author in
  let! env := get_environ in
  let target_urls := Str.split "," (from_env env "PLUGIN_URLS" "") in
  for_each target_urls
    (λ target_url,
       let! _ := when (String.eqb target_action "create") (create_silence w g target_url) in
       when (String.eqb target_action "delete") (delete_silences w g target_url)).

(** *** The entry point *)

Definition main (w : world) : M unit :=
  let! env := get_environ in
  let! debug :=
    if in_env env "PLUGIN_DEBUG"
       && String.eqb (Str.lower (from_env env "PLUGIN_DEBUG" "")) "true"
    then
      let! _ := print_msg "DEBUG" "Here is our environment:" [] in
      let! _ := for_each (map_to_list env)
                  (λ kv, write (Plain "{0} => {1}" [AStr kv.1; AStr kv.2])) in
      ret true
    else ret false in
  let! _ := when (negb (in_env env "PLUGIN_URLS"))
    (let! _ := print_msg "ERROR"
                 ("You shoud set AlertManager's URLs via " +:+ Str.dq +:+ "urls"
                    +:+ Str.dq +:+ " in settings") [] in
     sys_exit 1) in
  let strict :=
    String.eqb (Str.lower (from_env env "PLUGIN_STRICT_MATCH" "false")) "true" in
  let silence_action := from_env env "PLUGIN_ACTION" "" in
  let! _ := when (negb (existsb (String.eqb silence_action) supported_actions))
    (let! _ := print_msg "ERROR"
                 ("Parameter " +:+ Str.dq +:+ "action" +:+ Str.dq
                    +:+ " is missing or wrong value specified") [] in
     sys_exit 1) in
  let duration := from_env env "PLUGIN_DURATION" "" in
  let! _ := when (String.eqb silence_action "create" && String.eqb duration "")
    (let! _ := print_msg "ERROR"
                 ("Parameter " +:+ Str.dq +:+ "duration" +:+ Str.dq
                    +:+ " is missing or wrong value specified") [] in
     sys_exit 1) in
  let! _ := when (negb (in_env env "PLUGIN_TEMPLATE" || in_env env "PLUGIN_CUSTOM_TEMPLATE"))
    (print_msg "WARNING"
       "Settings template and custom_template are missing, rendering default" []) in
  let! _ := for_each required_env
    (λ key,
       when (negb (bool_decide (is_Some (env !! key))))
         (let! _ := print_msg "ERROR" "Can't find {0} in environment" [AStr key] in
          sys_exit 1)) in
  let event := from_env env "DRONE_BUILD_EVENT" "" in
  let! _ := when (negb (existsb (String.eqb event) supported_build_events))
    (let! _ := print_msg "ERROR" "Unknown event: {0}" [AStr event] in
     sys_exit 1) in
  let g := {| debug_mode := debug; strict_match := strict;
              silence_duration := duration; build_event := event |} in
  let! _ := perform_action w g silence_action in
  sys_exit 0.

Definition initial (env : gmap string string) : state :=
  {| environ := env; request_headers := base_headers; stdout := [];
     sent := []; clock_reads := 0 |}.

(** The exit status of the process: that of [sys.exit], and 1 when an
    exception reaches the top. *)
Definition exit_status {A : Type} (r : result A) : Z :=
  match r with
  | Ret _ => 0
  | Exit code => code
  | Raise _ => 1
  end.

Definition run (w : world) (env : gmap string string) : Z * state :=
  let '(r, st) := main w (initial env) in (exit_status r, st).

(** ** Vocabulary of the statements *)

Fixpoint all_digits (s : string) : bool :=
  match s with
  | EmptyString => true
  | String c s' => Re.in_range "0" "9" c && all_digits s'
  end.

(** One decimal digit or more. *)
Definition digits1 (d : string) : Prop := d ≠ "" ∧ all_digits d = true.

(** The string starts with [v<digits>.<digits>.<digits>]. *)
Definition VersionTag (s : string) : Prop :=
  ∃ d1 d2 d3 rest,
    s = "v" +:+ d1 +:+ "." +:+ d2 +:+ "." +:+ d3 +:+ rest
    ∧ digits1 d1 ∧ digits1 d2 ∧ digits1 d3.

(** No proper suffix of the token is a prefix of it: two occurrences of
    the token in a text do not overlap. *)
Definition border_free (tok : string) : bool :=
  forallb (λ k, negb (String.prefix (Str.drop k tok) tok))
    (seq 1 (String.length tok - 1)).

(** A computation keeps an invariant of the state, however it ends, and
    does not end the process with status 0. *)
Definition keeps {A : Type} (I : state → Prop) (m : M A) : Prop :=
  ∀ st, I st → I (m st).2 ∧ (m st).1 ≠ Exit 0.

(** A computation keeps the invariant and does not return: it raises, or
    exits with a status other than 0. *)
Definition aborts {A : Type} (I : state → Prop) (m : M A) : Prop :=
  ∀ st, I st → I (m st).2 ∧ (m st).1 ≠ Exit 0 ∧ ∀ a, (m st).1 ≠ Ret a.

(** Invariants that do not read the standard output hold across
    printing. *)
Definition blind_to_stdout (I : state → Prop) : Prop :=
  ∀ st o, I st → I (set_stdout o st).

Definition blind_to_request_headers (I : state → Prop) : Prop :=
  ∀ st h, I st → I (set_request_headers h st).

Definition blind_to_sent (I : state → Prop) : Prop :=
  ∀ st l, I st → I (set_sent l st).

Definition blind_to_clock (I : state → Prop) : Prop :=
  ∀ st n, I st → I (set_clock_reads n st).

(** Invariants that hold across an assignment to one variable of the
    environment. *)
Definition blind_to_setenv (key : string) (I : state → Prop) : Prop :=
  ∀ st v, I st → I (set_environ (<[key := v]> (environ st)) st).

Definition is_ok {A : Type} (r : raises A) : bool :=
  match r with
  | Ok _ => true
  | Raised _ => false
  end.

(** The environment after one derived duration, and after both. *)
Definition with_duration (start_key end_key out_key : string)
    (env : gmap string string) : gmap string string :=
  if in_env env start_key && in_env env end_key then
    match timestamp_diff (from_env env start_key "") (from_env env end_key "") with
    | Ok d => <[out_key := d]> env
    | Raised _ => env
    end
  else env.

Definition derived_environ (env : gmap string string) : gmap string string :=
  with_duration "DRONE_BUILD_CREATED" "DRONE_BUILD_STARTED" "DRONE_BUILD_QUEUEDTIME"
    (with_duration "DRONE_BUILD_STARTED" "DRONE_BUILD_FINISHED" "DRONE_BUILD_TOTALTIME"
       env).


(** What follows the derived durations in [make_request]. *)
Definition request_tail (w : world) (g : globals)
    (target_url request_method : string) (template_name : option string)
  : M (option (response * string)) :=
  let! _ := merge_custom_headers in
  let! request_payload := render_payload w g template_name in
  let! env := get_environ in
  let! timeout := lift (request_timeout env) in
  let! hdrs := get_request_headers in
  let req := build_request env hdrs target_url request_method request_payload timeout in
  let! _ := when (debug_mode g) (debug_request env req [200]) in
  try_except (exchange w g req [200])
    (λ e, let! _ := report_failure target_url timeout e in ret None).

(** The variable [key] of the environment is [x] (or unset). *)
Definition env_at (key : string) (x : option string) (st : state) : Prop :=
  environ st !! key = x.

(** Nothing was sent yet, and the header list of the configuration is
    [x] (or unset). *)
Definition unsent_with (x : option string) (st : state) : Prop :=
  sent st = [] ∧ environ st !! "PLUGIN_HEADERS" = x.

(** The two ends of an interval, when both set, are integers not too far
    apart. *)
Definition duration_ok (start_key end_key : string) (env : gmap string string) : bool :=
  negb (in_env env start_key && in_env env end_key)
  || is_ok (timestamp_diff (from_env env start_key "") (from_env env end_key "")).

(** The custom headers of the configuration. *)
Definition custom_headers (env : gmap string string) : raises (gmap string string) :=
  if in_env env "PLUGIN_HEADERS"
  then parse_headers (Str.split "," (from_env env "PLUGIN_HEADERS" "")) ∅
  else Ok ∅.

(** The configuration lets [make_request] reach the exchange: the time
    stamps, the header list and the timeout are well formed. *)
Definition request_ready (env : gmap string string) : bool :=
  duration_ok "DRONE_BUILD_STARTED" "DRONE_BUILD_FINISHED" env
  && duration_ok "DRONE_BUILD_CREATED" "DRONE_BUILD_STARTED" env
  && is_ok (custom_headers env)
  && is_ok (request_timeout env).

(** In environment [env] the payload of the request renders to [p]. *)
Definition renders (w : world) (g : globals) (tn : option string)
    (env : gmap string string) (p : body) : Prop :=
  ∀ st, environ st = env → render_payload w g tn st = (Ret p, st).

(** What [make_request] makes of the answer to its request. *)
Definition answer_result (a : http_result) : result (option (response * string)) :=
  match a with
  | Responded r content =>
      if bool_decide (status r = 200) then Ret (Some (r, content)) else Exit 1
  | Failed _ => Ret None
  end.

Definition answer_level (a : http_result) : string :=
  match a with
  | Responded r _ => if bool_decide (status r = 200) then "NOTICE" else "ERROR"
  | Failed _ => "ERROR"
  end.

(** From [st] to [st'] lines were printed, the last a message of the
    given level. *)
Definition logged (level : string) (st st' : state) : Prop :=
  ∃ pre fmt args, stdout st' = stdout st ++ pre ++ [Msg level fmt args].

(** The keys of the environment a request reads before the exchange. *)
Definition request_keys : list string :=
  ["DRONE_BUILD_STARTED"; "DRONE_BUILD_FINISHED"; "DRONE_BUILD_CREATED";
   "PLUGIN_HEADERS"; "PLUGIN_TIMEOUT"].

(** The address of the [DELETE] for one identifier. *)
Definition delete_url (target : string) (id : json) : string :=
  target +:+ "/api/v2/silence/" +:+ py_str id.

(** An answer [make_request] returns from: status 200, or an exception of
    the exchange. *)
Definition tolerated (a : http_result) : Prop :=
  match a with
  | Responded r _ => status r = 200
  | Failed _ => True
  end.


(** The address of the search. *)
Definition search_url (base_url : string) : string := base_url +:+ "/api/v2/silences".


(** A silence as the backend lists it, by the fields the search reads. *)
Record silence : Type := {
  sid : json;
  sstate : string;
  created_by : string;
  scomment : string;
  smatchers : json
}.

(** The entry [j] of the decoded list carries the silence [s]. *)
Definition is_silence (j : json) (s : silence) : Prop :=
  py_getitem j "id" = Ok (sid s)
  ∧ (∃ st, py_getitem j "status" = Ok st
           ∧ py_getitem st "state" = Ok (JStr (sstate s)))
  ∧ py_getitem j "createdBy" = Ok (JStr (created_by s))
  ∧ py_getitem j "comment" = Ok (JStr (scomment s))
  ∧ py_getitem j "matchers" = Ok (smatchers s).

(** The fingerprint test: not expired, our author, our comment and, in a
    strict search, the very matcher set of the template set. *)
Definition selected (strict : bool) (required : json) (author comment : string)
    (s : silence) : bool :=
  negb (String.eqb (sstate s) "expired")
  && String.eqb (created_by s) author
  && String.eqb (scomment s) comment
  && (negb strict || py_eq (smatchers s) required).

(** A matcher, and the matcher set as the backend and the template
    write it. *)
Record matcher : Type := {
  name : string;
  value : string;
  isRegex : bool;
  isEqual : bool
}.

Definition matcher_json (m : matcher) : json :=
  JObj [("name", JStr (name m)); ("value", JStr (value m));
        ("isRegex", JBool (isRegex m)); ("isEqual", JBool (isEqual m))].

Definition matchers_json (ms : list matcher) : json := JArr (map matcher_json ms).

(** What [decode_and_parse_json] returns. *)
Definition decoded (w : world) (content : string) : json :=
  match json_loads w content with
  | Some v => v
  | None => JArr []
  end.



(** A computation that only prints. *)
Definition prints (m : M unit) : Prop :=
  ∀ st, ∃ lines, m st = (Ret tt, set_stdout (stdout st ++ lines) st).

(** ** Concrete runs *)

Module Scenario.

(** The build of the examples: build 7 of [acme/shop], a push. *)
Definition build_env : gmap string string :=
  list_to_map
    [("DRONE_REPO_OWNER", "acme"); ("DRONE_REPO_NAME", "shop");
     ("DRONE_BUILD_LINK", "https://ci.example.com/acme/shop/7");
     ("DRONE_BUILD_NUMBER", "7");
     ("DRONE_BUILD_STARTED", "1000"); ("DRONE_BUILD_FINISHED", "3661");
     ("DRONE_BUILD_EVENT", "push"); ("DRONE_STAGE_NAME", "deploy");
     ("PLUGIN_URLS", "http://am")].

Definition delete_env : gmap string string := <["PLUGIN_ACTION" := "delete"]> build_env.

Definition create_env : gmap string string :=
  <["PLUGIN_DURATION" := "3600"]> (<["PLUGIN_ACTION" := "create"]> build_env).

Definition not_strict : globals :=
  {| debug_mode := false; strict_match := false; silence_duration := "";
     build_event := "push" |}.

Definition strict : globals :=
  {| debug_mode := false; strict_match := true; silence_duration := "";
     build_event := "push" |}.

Definition creating : globals :=
  {| debug_mode := false; strict_match := false; silence_duration := "3600";
     build_event := "push" |}.

Definition promoting : globals :=
  {| debug_mode := false; strict_match := false; silence_duration := "";
     build_event := "promote" |}.

(** The comment and the author the backend holds for silences of this
    build. *)
Definition our_comment : string :=
  "Created for build#7 of acme/shop, see https://ci.example.com/acme/shop/7".

Definition our_author : string := "drone/alertmanager".

Definition by_instance : matcher :=
  {| name := "instance"; value := "shop-1"; isRegex := false; isEqual := true |}.

Definition entry (id state : string) (ms : list matcher) : json :=
  JObj [("id", JStr id); ("status", JObj [("state", JStr state)]);
        ("createdBy", JStr our_author); ("comment", JStr our_comment);
        ("matchers", matchers_json ms)].

Definition listed (id state : string) (ms : list matcher) : silence :=
  {| sid := JStr id; sstate := state; created_by := our_author;
     scomment := our_comment; smatchers := matchers_json ms |}.

(** An active silence of build 6, by the same author. *)
Definition earlier_comment : string :=
  "Created for build#6 of acme/shop, see https://ci.example.com/acme/shop/6".

Definition earlier_entry : json :=
  JObj [("id", JStr "o"); ("status", JObj [("state", JStr "active")]);
        ("createdBy", JStr our_author); ("comment", JStr earlier_comment);
        ("matchers", matchers_json [by_instance])].

Definition earlier : silence :=
  {| sid := JStr "o"; sstate := "active"; created_by := our_author;
     scomment := earlier_comment; smatchers := matchers_json [by_instance] |}.

(** The backend lists three silences of this build, [a] active, [x]
    expired, [b] active with no matcher, and the one of build 6. *)
Definition entries : list json :=
  [entry "a" "active" [by_instance]; entry "x" "expired" [by_instance];
   earlier_entry; entry "b" "active" []].

Definition silences : list silence :=
  [listed "a" "active" [by_instance]; listed "x" "expired" [by_instance];
   earlier; listed "b" "active" []].

Definition json_response (code : Z) : response :=
  {| status := code; resp_headers := {["content-type" := "application/json"]} |}.

Definition text_response (code : Z) : response :=
  {| status := code; resp_headers := {["content-type" := "text/plain"]} |}.

(** A world around an exchange. [LIST] stands for the JSON text of the
    four entries and decodes to them; the matcher artifact of the default
    template set renders to a text [M], and [{M}] decodes to the matcher
    set of [a]; no other template exists. *)
Definition world_of (http : list request → request → http_result) : world :=
  {| http_request := http;
     json_loads := λ s,
       if String.eqb s "LIST" then Some (JArr entries)
       else if String.eqb s "{M}"
            then Some (JObj [("matchers", matchers_json [by_instance])])
       else None;
     from_string := λ _, None;
     render_string := λ _ _, Raised (EngineError "no template");
     render_file := λ _ name _,
       if String.eqb name "default/_matchers.j2" then Ok "M"
       else Raised (EngineError "no template");
     is_file := λ path, String.eqb path "/templates/default/_matchers.j2";
     utcnow := λ _, 0;
     isoformat := λ _, "0001-01-01T00:00:00" |}.



(** Every request is answered with status 500. *)
Definition all_refused : world :=
  world_of (λ _ _, Responded (json_response 500) "").

(** Every request is answered with status 200 and plain text. *)
Definition plain_text : world :=
  world_of (λ _ _, Responded (text_response 200) "ok").

(** Every request is answered with status 200 and the list. *)
Definition listing : world :=
  world_of (λ _ _, Responded (json_response 200) "LIST").

(** A promotion to [prod]. *)
Definition promote_env : gmap string string :=
  <["DRONE_DEPLOY_TO" := "prod"]> (<["DRONE_BUILD_EVENT" := "promote"]> create_env).

(** Two custom headers. *)
Definition headers_env : gmap string string :=
  <["PLUGIN_HEADERS" := "X-Scope-OrgID: ops, X-Token:abc"]> delete_env.

Definition two_headers : gmap string string :=
  <["X-Token" := "abc"]> (<["X-Scope-OrgID" := "ops"]> ∅).

(** A header whose value holds a colon. *)
Definition referer_env : gmap string string :=
  <["PLUGIN_HEADERS" := "Referer: http://ci.example.com"]> delete_env.

End Scenario.

(** ** Vocabulary of the further properties *)

(** The entry carries the fingerprint of the build, by the tests of lines
    158 to 164: a state that is not [expired], the author, the comment and,
    in a strict search, the matcher set of the artifact. *)
Definition fingerprinted (strict : bool) (required_matchers : option json)
    (author comment : string) (j : json) : Prop :=
  (∃ st state, py_getitem j "status" = Ok st ∧ py_getitem st "state" = Ok state
               ∧ state ≠ JStr "expired")
  ∧ py_getitem j "createdBy" = Ok (JStr author)
  ∧ py_getitem j "comment" = Ok (JStr comment)
  ∧ (strict = true →
     ∃ ms rm required,
       py_getitem j "matchers" = Ok ms ∧ required_matchers = Some rm
       ∧ py_getitem rm "matchers" = Ok required ∧ py_eq ms required = true).

(** The entries to go through, none when the value cannot be iterated. *)
Definition iterated (d : json) : list json :=
  match py_iter d with
  | Ok l => l
  | Raised _ => []
  end.

(** The name and the value of a header entry [name:value]. *)
Definition header_name (entry : string) : string :=
  Str.strip (nth 0 (Str.split ":" entry) "").

Definition header_value (entry : string) : string :=
  Str.strip (nth 1 (Str.split ":" entry) "").

(** Whenever the computation leaves through [sys.exit], the status is 1. *)
Definition exits_one {A : Type} (m : M A) : Prop :=
  ∀ st c, (m st).1 = Exit c → c = 1.

(** [PLUGIN_DEBUG], as lines 372 and 373 read it. *)
Definition debug_setting (env : gmap string string) : bool :=
  in_env env "PLUGIN_DEBUG"
  && String.eqb (Str.lower (from_env env "PLUGIN_DEBUG" "")) "true".

(** The globals [main] sets from the environment. *)
Definition settings_of (env : gmap string string) : globals :=
  {| debug_mode := debug_setting env;
     strict_match :=
       String.eqb (Str.lower (from_env env "PLUGIN_STRICT_MATCH" "false")) "true";
     silence_duration := from_env env "PLUGIN_DURATION" "";
     build_event := from_env env "DRONE_BUILD_EVENT" "" |}.

(** The configuration passes the checks of lines 379 to 413. *)
Definition accepted (env : gmap string string) : bool :=
  in_env env "PLUGIN_URLS"
  && existsb (String.eqb (from_env env "PLUGIN_ACTION" "")) supported_actions
  && negb (String.eqb (from_env env "PLUGIN_ACTION" "") "create"
           && String.eqb (from_env env "PLUGIN_DURATION" "") "")
  && forallb (λ key, bool_decide (is_Some (env !! key))) required_env
  && existsb (String.eqb (from_env env "DRONE_BUILD_EVENT" "")) supported_build_events.

(** The result of [main] after [perform_action] ended in [r]. *)
Definition after_action (r : result unit) : result unit :=
  match r with
  | Ret _ => Exit 0
  | Exit c => Exit c
  | Raise e => Raise e
  end.

(** Since [st0] the requests sent all satisfy [P]. *)
Definition sends (P : request → Prop) (st0 st : state) : Prop :=
  ∃ reqs, sent st = sent st0 ++ reqs ∧ Forall P reqs.

(** The address of a creation. *)
Definition create_url (target : string) : string := target +:+ "/api/v2/silences".

(** The request is one the action makes for the target: the [POST] of a
    creation, the [GET] of a search, or the [DELETE] of an identifier. *)
Definition addressed (action target : string) (req : request) : Prop :=
  (action = "create" ∧ method req = "POST" ∧ uri req = create_url target)
  ∨ (action = "delete"
     ∧ ((method req = "GET" ∧ uri req = search_url target)
        ∨ (method req = "DELETE" ∧ ∃ id, uri req = delete_url target id))).

(** The request goes to one of the targets of the configuration. *)
Definition to_configured_target (env : gmap string string) (req : request) : Prop :=
  ∃ target,
    target ∈ Str.split "," (from_env env "PLUGIN_URLS" "")
    ∧ addressed (from_env env "PLUGIN_ACTION" "") target req.

(** The variables of the environment assigned for each target, and
    those the program assigns at all. *)
Definition target_keys : list string :=
  ["DRONE_BUILD_TOTALTIME"; "DRONE_BUILD_QUEUEDTIME";
   "SILENCE_STARTS_AT"; "SILENCE_ENDS_AT"].

Definition written_keys : list string :=
  "SILENCE_COMMENT" :: "SILENCE_CREATED_BY" :: target_keys.

(** Lines 338 to 367: the body of the loop of [perform_action], for one
    target. *)
Definition act_on (w : world) (g : globals) (target_action target_url : string) : M unit :=
  let! _ := when (String.eqb target_action "create") (create_silence w g target_url) in
  when (String.eqb target_action "delete") (delete_silences w g target_url).

(** The environment [perform_action] publishes the fingerprint into. *)
Definition published (env : gmap string string) : gmap string string :=
  <["SILENCE_CREATED_BY" := silence_author]>
    (<["SILENCE_COMMENT" := silence_comment env]> env).

(** The state keeps everything but the standard output. *)
Definition same_but_stdout (st0 st : state) : Prop :=
  environ st = environ st0 ∧ request_headers st = request_headers st0
  ∧ sent st = sent st0 ∧ clock_reads st = clock_reads st0.

(** Nothing was sent yet, and the variables a request reads before the
    exchange are those of [env]. *)
Definition unsent_reading (env : gmap string string) (st : state) : Prop :=
  sent st = [] ∧ ∀ k, k ∈ request_keys → environ st !! k = env !! k.

(** Nothing was sent yet, and a custom template is set. *)
Definition unsent_custom (st : state) : Prop :=
  sent st = [] ∧ in_env (environ st) "PLUGIN_CUSTOM_TEMPLATE" = true.

(** The template of a creation does not render in [env]: a custom
    template is set (it never renders), or the file of the template set is
    missing, or the engine raises on it. *)
Definition template_fails (w : world) (env : gmap string string) : Prop :=
  if in_env env "PLUGIN_CUSTOM_TEMPLATE" then True
  else if in_env env "PLUGIN_TEMPLATE" then
    let dir := from_env env "TEMPLATES_PATH" "/templates/" in
    let name := from_env env "PLUGIN_TEMPLATE" "default" +:+ "/create" in
    is_file w (dir +:+ name +:+ ".j2") = false
    ∨ ∃ e, render_file w dir (name +:+ ".j2") env = Raised e
  else False.

(** The state in which [make_request] renders the payload: the durations
    derived and the custom headers merged. *)
Definition prepared (custom : gmap string string) (st : state) : state :=
  set_request_headers (custom ∪ request_headers st)
    (set_environ (derived_environ (environ st)) st).

(** Lines 348 to 352: what a creation makes of the answer. *)
Definition read_creation (w : world) (response : response) (content : string) : M unit :=
  let! ct := lift (content_type response) in
  if negb (String.eqb ct "application/json") then
    print_msg "WARNING"
      ("Got " +:+ Str.dq +:+ "{0}" +:+ Str.dq
         +:+ " as Content-Type type instead of expected "
         +:+ Str.dq +:+ "application/json" +:+ Str.dq)
      [AStr ct]
  else
    let! json_response := decode_and_parse_json w content in
    let! id := lift (py_getitem json_response "silenceID") in
    print_msg "NOTICE" "Silence added with ID {0}" [AJson id].

(** The environment with the window of a silence that starts at [now]. *)
Definition stamped (w : world) (now : Z) (ends : string) (env : gmap string string)
  : gmap string string :=
  <["SILENCE_ENDS_AT" := ends]> (<["SILENCE_STARTS_AT" := isoformat w now +:+ "Z"]> env).


(** The computation only adds lines to the standard output. *)
Definition appends {A : Type} (m : M A) : Prop :=
  ∀ st, ∃ lines, stdout (m st).2 = stdout st ++ lines.

(** The line of the debugging dump for one variable (line 377). *)
Definition dump_line (kv : string * string) : out :=
  Plain "{0} => {1}" [AStr kv.1; AStr kv.2].



(** ** Further concrete runs *)

Module Cases.

(** What the backend answers to a creation. *)
Definition added : json := JObj [("silenceID", JStr "s-1")].

(** A world around an exchange, without templates, in which [ADDED]
    stands for the JSON text of [added]. *)
Definition backend (http : list request → request → http_result) : world :=
  {| http_request := http;
     json_loads := λ s,
       if String.eqb s "ADDED" then Some added else None;
     from_string := λ _, None;
     render_string := λ _ _, Raised (EngineError "no template");
     render_file := λ _ _ _, Raised (EngineError "no template");
     is_file := λ _, false;
     utcnow := λ _, 0;
     isoformat := λ _, "0001-01-01T00:00:00" |}.

(** Every request is answered with status 200 and the new silence. *)
Definition adding : world :=
  backend (λ _ _, Responded (Scenario.json_response 200) "ADDED").

(** No request reaches a host. *)
Definition unreachable : world :=
  Scenario.world_of (λ _ _, Failed ServerNotFoundError).

(** A start of the build that is no integer. *)
Definition unready_env : gmap string string :=
  <["DRONE_BUILD_STARTED" := "soon"]> Scenario.delete_env.

(** The certificate check switched off, and a timeout of five seconds. *)
Definition insecure_env : gmap string string :=
  <["PLUGIN_TIMEOUT" := "5"]> (<["PLUGIN_SKIP_VERIFY" := "True"]> Scenario.delete_env).

(** A custom template. *)
Definition custom_env : gmap string string :=
  <["PLUGIN_CUSTOM_TEMPLATE" := "{{ DRONE_TAG | mandatory }}"]> Scenario.create_env.





(** A template set without a matcher artifact. *)
Definition other_set_env : gmap string string :=
  <["PLUGIN_TEMPLATE" := "other"]> Scenario.delete_env.

(** Debugging switched on, with credentials. *)
Definition debug_env : gmap string string :=
  <["PLUGIN_DEBUG" := "True"]>
    (<["PLUGIN_PASSWORD" := "hunter2"]>
       (<["PLUGIN_USERNAME" := "ops"]> Scenario.delete_env)).

(** A list cut by an entry that is no object. *)
Definition cut_list : list json :=
  [Scenario.entry "a" "active" []] ++ JStr "oops" :: [Scenario.entry "b" "active" []].

End Cases.

(** * Proofs *)

(** ** Strings *)

Module StrFacts.

Lemma app_nil_l (s : string) : "" +:+ s = s.
Proof. reflexivity. Qed.

Lemma app_cons (c : ascii) (s t : string) : String c s +:+ t = String c (s +:+ t).
Proof. reflexivity. Qed.

Lemma app_nil_r (s : string) : s +:+ "" = s.
Proof. induction s as [|c s IH]; [done|]. by rewrite app_cons, IH. Qed.

Lemma app_assoc (s t u : string) : (s +:+ t) +:+ u = s +:+ t +:+ u.
Proof. induction s as [|c s IH]; [done|]. by rewrite !app_cons, IH. Qed.

Lemma length_app (s t : string) :
  String.length (s +:+ t) = (String.length s + String.length t)%nat.
Proof. induction s as [|c s IH]; [done|]. rewrite app_cons. simpl. by rewrite IH. Qed.

Lemma prefix_app (p s : string) : String.prefix p (p +:+ s) = true.
Proof.
  induction p as [|c p IH]; [by destruct s|].
  rewrite app_cons. simpl. by destruct (ascii_dec c c).
Qed.

Lemma drop_app (p s : string) : Str.drop (String.length p) (p +:+ s) = s.
Proof. induction p as [|c p IH]; [done|]. by rewrite app_cons. Qed.

Lemma take_app (p s : string) : Str.take (String.length p) (p +:+ s) = p.
Proof. induction p as [|c p IH]; [done|]. rewrite app_cons. simpl. by rewrite IH. Qed.


Lemma take_prefix (p s : string) :
  String.eqb (Str.take (String.length p) s) p = String.prefix p s.
Proof.
  revert s. induction p as [|c p IH]; intros [|d s]; simpl; try done.
  rewrite IH. destruct (Ascii.eqb_spec d c) as [->|Hn].
  - by destruct (ascii_dec c c).
  - by destruct (ascii_dec c d) as [->|].
Qed.

(** A token that is a prefix of [p +:+ x] either is a prefix of [p]
    already, or ends inside [x]. *)
Lemma prefix_app_inv (tok p x : string) :
  String.prefix tok (p +:+ x) = true →
  String.prefix tok p = true
  ∨ ∃ t, t ≠ "" ∧ tok = p +:+ t ∧ String.prefix t x = true.
Proof.
  revert tok. induction p as [|c p IH]; intros tok H.
  - destruct tok as [|a tok]; [by left|]. right. by exists (String a tok).
  - destruct tok as [|a tok]; [by left|].
    rewrite app_cons in H. simpl in H |- *.
    destruct (ascii_dec a c) as [->|]; [|done].
    destruct (IH _ H) as [?|(t & ? & -> & ?)]; [by left|].
    right. by exists t.
Qed.

Lemma prefix_app_short (t tok rest : string) :
  String.prefix t (tok +:+ rest) = true →
  (String.length t ≤ String.length tok)%nat →
  String.prefix t tok = true.
Proof.
  revert tok. induction t as [|a t IH]; intros tok H Hl; [by destruct tok|].
  destruct tok as [|c tok]; [simpl in Hl; lia|].
  rewrite app_cons in H. simpl in H, Hl |- *.
  destruct (ascii_dec a c); [|done]. apply IH; [done | lia].
Qed.

Lemma contains_cons (tok : string) (c : ascii) (s : string) :
  Str.contains tok (String c s) = false →
  String.prefix tok (String c s) = false ∧ Str.contains tok s = false.
Proof. simpl. intros H. by apply orb_false_iff in H. Qed.

(** Passing over the rest of an occurrence. *)
Lemma replace_from_skip (t tok v rest : string) :
  Str.replace_from (String.length t) tok v (t +:+ rest) = Str.replace_from 0 tok v rest.
Proof. induction t as [|c t IH]; [done|]. by rewrite app_cons. Qed.

Lemma replace_absent (tok v s : string) :
  Str.contains tok s = false → Str.replace tok v s = s.
Proof.
  unfold Str.replace. induction s as [|c s IH]; [done|].
  intros [Hp Hc]%contains_cons. cbn [Str.replace_from]. rewrite Hp.
  by rewrite IH.
Qed.

Lemma no_early_occurrence (tok p rest : string) :
  border_free tok = true →
  p ≠ "" →
  String.prefix tok p = false →
  String.prefix tok (p +:+ tok +:+ rest) = false.
Proof.
  intros Hb Hne Hp. destruct (String.prefix tok (p +:+ tok +:+ rest)) eqn:E; [|done].
  apply prefix_app_inv in E as [E|(t & Ht & Etok & E)]; [congruence|].
  assert (String.length tok = (String.length p + String.length t)%nat) as Hlen
    by (by rewrite Etok at 1; rewrite length_app).
  assert (0 < String.length p)%nat by (destruct p; [done | simpl; lia]).
  assert (0 < String.length t)%nat by (destruct t; [done | simpl; lia]).
  apply prefix_app_short in E; [|lia].
  unfold border_free in Hb. rewrite forallb_forall in Hb.
  specialize (Hb (String.length p)).
  rewrite Etok in Hb at 2. rewrite drop_app, E in Hb.
  discriminate Hb. apply in_seq. lia.
Qed.

(** Replacing at the first occurrence, when the text before holds none. *)
Lemma replace_first (tok v p rest : string) :
  border_free tok = true →
  tok ≠ "" →
  Str.contains tok p = false →
  Str.replace tok v (p +:+ tok +:+ rest) = p +:+ v +:+ Str.replace tok v rest.
Proof.
  intros Hb Hne. unfold Str.replace. induction p as [|c p IH]; intros Hc.
  - rewrite !app_nil_l. destruct tok as [|a tok]; [done|].
    rewrite app_cons. cbn [Str.replace_from].
    rewrite <- app_cons, prefix_app.
    replace (String.length (String a tok) - 1)%nat with (String.length tok)
      by (simpl; lia).
    by rewrite replace_from_skip.
  - apply contains_cons in Hc as [Hp Hc].
    pose proof (no_early_occurrence tok (String c p) rest Hb ltac:(done) Hp) as E.
    rewrite !app_cons in *. cbn [Str.replace_from]. rewrite E.
    by rewrite IH.
Qed.

(** Every occurrence is replaced: a text cut at the occurrences of the
    token, glued again with the value. *)
Lemma replace_join (tok v : string) (pieces : list string) :
  border_free tok = true →
  tok ≠ "" →
  Forall (λ p, Str.contains tok p = false) pieces →
  Str.replace tok v (Str.join tok pieces) = Str.join v pieces.
Proof.
  intros Hb Hne. induction 1 as [|p ps Hp Hps IH]; [done|].
  destruct ps as [|q ps].
  - simpl. by apply replace_absent.
  - change (Str.join tok (p :: q :: ps)) with (p +:+ tok +:+ Str.join tok (q :: ps)).
    change (Str.join v (p :: q :: ps)) with (p +:+ v +:+ Str.join v (q :: ps)).
    by rewrite replace_first, IH.
Qed.

End StrFacts.

(** ** The matcher decides the prefix language *)

Module ReFacts.
Import Re.

Lemma app_eq_nil (s t : string) : s +:+ t = "" → s = "" ∧ t = "".
Proof. destruct s; [done|]. by rewrite StrFacts.app_cons. Qed.

Lemma nullable_lang_nil r s : lang r s → s = "" → nullable r = true.
Proof.
  induction 1 as [| | |r1 r2 s1 s2 _ IH1 _ IH2|r1 r2 s _ IH|r1 r2 s _ IH| |];
    intros E; simpl; try done.
  - apply app_eq_nil in E as [-> ->]. by rewrite IH1, IH2.
  - by rewrite IH.
  - rewrite IH by done. by destruct (nullable r1).
Qed.

Lemma lang_nil_nullable r : nullable r = true → lang r "".
Proof.
  induction r as [| | | |r1 IH1 r2 IH2|r1 IH1 r2 IH2|r IH]; simpl; intros H; try done.
  - constructor.
  - apply andb_true_iff in H as [H1 H2].
    change "" with ("" +:+ ""). constructor; auto.
  - apply orb_true_iff in H as [H|H]; [apply lang_alt_l | apply lang_alt_r]; auto.
  - constructor.
Qed.

Lemma deriv_sound a r s : lang (deriv a r) s → lang r (String a s).
Proof.
  revert s. induction r as [| |c|lo hi|r1 IH1 r2 IH2|r1 IH1 r2 IH2|r IH];
    simpl; intros s H.
  - inversion H.
  - inversion H.
  - destruct (Ascii.eqb_spec a c) as [->|]; inversion H. constructor.
  - destruct (in_range lo hi a) eqn:E; inversion H. by constructor.
  - destruct (nullable r1) eqn:N.
    + inversion H as [| | | |? ? ? H'|? ? ? H'| |]; subst.
      * inversion H' as [| | |? ? s1 s2 Ha Hb| | | |]; subst.
        change (String a (s1 +:+ s2)) with (String a s1 +:+ s2).
        constructor; auto.
      * change (String a s) with ("" +:+ String a s).
        constructor; [by apply lang_nil_nullable | auto].
    + inversion H as [| | |? ? s1 s2 Ha Hb| | | |]; subst.
      change (String a (s1 +:+ s2)) with (String a s1 +:+ s2).
      constructor; auto.
  - inversion H; subst; [apply lang_alt_l | apply lang_alt_r]; auto.
  - inversion H as [| | |? ? s1 s2 Ha Hb| | | |]; subst.
    change (String a (s1 +:+ s2)) with (String a s1 +:+ s2).
    constructor; auto.
Qed.

Lemma deriv_complete a r s0 : lang r s0 → ∀ s, s0 = String a s → lang (deriv a r) s.
Proof.
  induction 1 as [|c|lo hi c Hc|r1 r2 s1 s2 H1 IH1 H2 IH2|r1 r2 s0 _ IH
                  |r1 r2 s0 _ IH| |r c s1 s2 H1 IH1 H2 IH2];
    intros s E; simpl.
  - done.
  - injection E as -> <-. rewrite Ascii.eqb_refl. constructor.
  - injection E as -> <-. rewrite Hc. constructor.
  - destruct s1 as [|c s1].
    + rewrite StrFacts.app_nil_l in E.
      rewrite (nullable_lang_nil _ _ H1 eq_refl). apply lang_alt_r. auto.
    + rewrite StrFacts.app_cons in E. injection E as -> <-.
      destruct (nullable r1); [apply lang_alt_l|]; constructor; auto.
  - apply lang_alt_l. auto.
  - apply lang_alt_r. auto.
  - done.
  - rewrite StrFacts.app_cons in E. injection E as -> <-.
    constructor; auto.
Qed.

Lemma re_match_lang r s :
  re_match r s = true ↔ ∃ p q, s = p +:+ q ∧ lang r p.
Proof.
  revert r. induction s as [|a s IH]; intros r; simpl.
  - rewrite orb_false_r. split.
    + intros H. exists "", "". split; [done|]. by apply lang_nil_nullable.
    + intros (p & q & E & H). symmetry in E. apply app_eq_nil in E as [-> ->].
      by eapply nullable_lang_nil.
  - rewrite orb_true_iff, IH. split.
    + intros [H|(p & q & -> & H)].
      * exists "", (String a s). split; [done|]. by apply lang_nil_nullable.
      * exists (String a p), q. split; [done|]. by apply deriv_sound.
    + intros (p & q & E & H). destruct p as [|c p].
      * left. by eapply nullable_lang_nil.
      * rewrite StrFacts.app_cons in E. injection E as -> ->.
        right. exists p, q. split; [done|]. by eapply deriv_complete.
Qed.

Lemma lang_chr_inv c s : lang (Chr c) s ↔ s = String c "".
Proof. split; [by inversion 1 | intros ->; constructor]. Qed.

Lemma lang_cat_inv r1 r2 s :
  lang (Cat r1 r2) s ↔ ∃ s1 s2, s = s1 +:+ s2 ∧ lang r1 s1 ∧ lang r2 s2.
Proof.
  split.
  - inversion 1; subst; eauto.
  - intros (s1 & s2 & -> & H1 & H2). by constructor.
Qed.

Lemma lang_star_digits s : lang (Star (Rng "0" "9")) s ↔ all_digits s = true.
Proof.
  split.
  - remember (Star (Rng "0" "9")) as r eqn:Er. induction 1; try done.
    injection Er as ->.
    match goal with H : lang (Rng _ _) _ |- _ => inversion H; subst end.
    rewrite StrFacts.app_cons, StrFacts.app_nil_l. simpl.
    apply andb_true_iff; split; auto.
  - induction s as [|c s IH]; simpl; intros H; [constructor|].
    apply andb_true_iff in H as [Hc Hs].
    change (String c s) with (String c "" +:+ s).
    constructor; [by constructor | auto].
Qed.

Lemma lang_plus_digits s : lang (Plus (Rng "0" "9")) s ↔ digits1 s.
Proof.
  unfold Plus, digits1. rewrite lang_cat_inv. split.
  - intros (s1 & s2 & -> & H1 & H2). inversion H1; subst.
    apply lang_star_digits in H2.
    rewrite StrFacts.app_cons, StrFacts.app_nil_l. simpl.
    split; [done|]. apply andb_true_iff; auto.
  - intros [Hne H]. destruct s as [|c s]; [done|]. simpl in H.
    apply andb_true_iff in H as [Hc Hs].
    exists (String c ""), s. split; [done|].
    split; [by constructor | by apply lang_star_digits].
Qed.

End ReFacts.

(** ** [strip_version] *)

Lemma lang_chr_cat c r s :
  Re.lang (Re.Cat (Re.Chr c) r) s ↔ ∃ t, s = String c t ∧ Re.lang r t.
Proof.
  rewrite ReFacts.lang_cat_inv. split.
  - intros (s1 & s2 & -> & ->%ReFacts.lang_chr_inv & H). by exists s2.
  - intros (t & -> & H). exists (String c ""), t.
    split; [done|]. split; [constructor | done].
Qed.

Lemma lang_digits_cat r s :
  Re.lang (Re.Cat (Re.Plus (Re.Rng "0" "9")) r) s ↔
  ∃ d t, s = d +:+ t ∧ digits1 d ∧ Re.lang r t.
Proof.
  rewrite ReFacts.lang_cat_inv. split.
  - intros (s1 & s2 & -> & H1%ReFacts.lang_plus_digits & H). by exists s1, s2.
  - intros (d & t & -> & H1%ReFacts.lang_plus_digits & H). by exists d, t.
Qed.

Lemma version_re_lang p :
  Re.lang version_re p ↔
  ∃ d1 d2 d3, p = "v" +:+ d1 +:+ "." +:+ d2 +:+ "." +:+ d3
              ∧ digits1 d1 ∧ digits1 d2 ∧ digits1 d3.
Proof.
  unfold version_re. cbv zeta. split.
  - intros (t1 & -> & H)%lang_chr_cat.
    apply lang_digits_cat in H as (d1 & t2 & -> & H1 & H).
    apply lang_chr_cat in H as (t3 & -> & H).
    apply lang_digits_cat in H as (d2 & t4 & -> & H2 & H).
    apply lang_chr_cat in H as (d3 & -> & H3%ReFacts.lang_plus_digits).
    by exists d1, d2, d3.
  - intros (d1 & d2 & d3 & -> & H1 & H2 & H3).
    apply lang_chr_cat. eexists. split; [reflexivity|].
    apply lang_digits_cat. exists d1. eexists. split; [reflexivity|]. split; [done|].
    apply lang_chr_cat. eexists. split; [reflexivity|].
    apply lang_digits_cat. exists d2. eexists. split; [reflexivity|]. split; [done|].
    apply lang_chr_cat. exists d3. split; [reflexivity|].
    by apply ReFacts.lang_plus_digits.
Qed.

Lemma version_re_match input : Re.re_match version_re input = true ↔ VersionTag input.
Proof.
  rewrite ReFacts.re_match_lang. unfold VersionTag.
  setoid_rewrite version_re_lang. split.
  - intros (p & q & -> & d1 & d2 & d3 & -> & H).
    exists d1, d2, d3, q. split; [|done].
    by rewrite !StrFacts.app_assoc.
  - intros (d1 & d2 & d3 & q & -> & H).
    exists ("v" +:+ d1 +:+ "." +:+ d2 +:+ "." +:+ d3), q. split.
    + by rewrite !StrFacts.app_assoc.
    + by exists d1, d2, d3.
Qed.

(** C8. Whatever the input, [strip_version] takes the leading [v] off a
    string that starts with [v<digits>.<digits>.<digits>] and nothing else,
    and returns any other string as it is; so ["v1.2.3"] gives ["1.2.3"],
    while ["1.2.3"] and ["v1.2"] come back unchanged. *)
Theorem strip_version_correct (input : string) :
  ((VersionTag input ∧ input = String "v" (strip_version input))
   ∨ (¬ VersionTag input ∧ strip_version input = input))
  ∧ strip_version "v1.2.3" = "1.2.3"
  ∧ strip_version "1.2.3" = "1.2.3"
  ∧ strip_version "v1.2" = "v1.2".
Proof.
  split; [|by repeat split].
  unfold strip_version.
  destruct (Re.re_match version_re input) eqn:E.
  - left. apply version_re_match in E as HV. split; [done|].
    destruct HV as (d1 & d2 & d3 & rest & -> & _). reflexivity.
  - right. split; [|done]. intros HV. apply version_re_match in HV. congruence.
Qed.

(** ** [mandatory] *)

(** C7, as the code has it. An undefined reference never passes the
    filter: rendering fails with a [TemplateRuntimeError]. Called on the
    reference alone, the filter names it in the message: a name
    [PLUGIN_<rest>] is reported as the option [<rest>] in lower case, any
    other name as itself, and a reference that has no name as the empty
    name. Called with a message, the filter raises that message as it is,
    whatever the name. A defined value comes back as it is, with or without
    a message. The capital E with acute accent, character 201, is lowered
    to character 233. *)
Theorem mandatory_correct (A : Type) (name rest : string) (a : A)
    (undefined_name msg : option string) (m : string) :
  mandatory (A:=A) (Undefined (Some ("PLUGIN_" +:+ rest))) None
    = Raised (TemplateRuntimeError
        ("Mandatory option " +:+ Str.dq +:+ Str.lower rest +:+ Str.dq
           +:+ " is not defined in plugin settings"))
  ∧ (String.prefix "PLUGIN_" name = false →
     mandatory (A:=A) (Undefined (Some name)) None
       = Raised (TemplateRuntimeError
           ("Mandatory variable " +:+ Str.dq +:+ name +:+ Str.dq
              +:+ " is not defined via environment")))
  ∧ mandatory (A:=A) (Undefined None) None
      = Raised (TemplateRuntimeError
          ("Mandatory variable " +:+ Str.dq +:+ Str.dq
             +:+ " is not defined via environment"))
  ∧ mandatory (A:=A) (Undefined undefined_name) (Some m)
      = Raised (TemplateRuntimeError m)
  ∧ mandatory (Value a) msg = Ok (Value a)
  ∧ mandatory (A:=A) (Undefined (Some "PLUGIN_FOO")) None
      = Raised (TemplateRuntimeError
          ("Mandatory option " +:+ Str.dq +:+ "foo" +:+ Str.dq
             +:+ " is not defined in plugin settings"))
  ∧ mandatory (A:=A) (Undefined (Some "BAR")) None
      = Raised (TemplateRuntimeError
          ("Mandatory variable " +:+ Str.dq +:+ "BAR" +:+ Str.dq
             +:+ " is not defined via environment"))
  ∧ mandatory (A:=A)
      (Undefined (Some ("PLUGIN_" +:+ String (ascii_of_nat 201) "COLE"))) None
      = Raised (TemplateRuntimeError
          ("Mandatory option " +:+ Str.dq +:+ String (ascii_of_nat 233) "cole"
             +:+ Str.dq +:+ " is not defined in plugin settings")).
Proof.
  split; [reflexivity|]. split; [|by repeat split].
  intros H. unfold mandatory.
  change 7%nat with (String.length "PLUGIN_").
  by rewrite StrFacts.take_prefix, H.
Qed.

Lemma mandatory_correct_witness :
  String.prefix "PLUGIN_" "DRONE_TAG" = false
  ∧ mandatory (A:=string) (Undefined (Some "DRONE_TAG")) None
      = Raised (TemplateRuntimeError
          ("Mandatory variable " +:+ Str.dq +:+ "DRONE_TAG" +:+ Str.dq
             +:+ " is not defined via environment")).
Proof.
  split; [reflexivity|].
  apply (proj1 (proj2 (mandatory_correct string "DRONE_TAG" "" "" None None ""))).
  reflexivity.
Defined.

(** ** Running the monad *)

Ltac state_simpl :=
  cbn [environ request_headers stdout sent clock_reads
       set_environ set_request_headers set_stdout set_sent set_clock_reads] in *.

Lemma bind_ret {A B : Type} (m : M A) (k : A → M B) st a st1 :
  m st = (Ret a, st1) → bind m k st = k a st1.
Proof. unfold bind. by intros ->. Qed.

Lemma bind_exit {A B : Type} (m : M A) (k : A → M B) st c st1 :
  m st = (Exit c, st1) → bind m k st = (Exit c, st1).
Proof. unfold bind. by intros ->. Qed.

Lemma bind_raise {A B : Type} (m : M A) (k : A → M B) st e st1 :
  m st = (Raise e, st1) → bind m k st = (Raise e, st1).
Proof. unfold bind. by intros ->. Qed.


(** ** Invariants through the combinators *)

Section Keeps.
Context (I : state → Prop).

Lemma keeps_ret {A : Type} (a : A) : keeps I (ret a).
Proof. by intros st H. Qed.

Lemma keeps_raise {A : Type} (e : exn) : keeps I (raise (A:=A) e).
Proof. by intros st H. Qed.

Lemma keeps_exit_1 {A : Type} : keeps I (sys_exit (A:=A) 1).
Proof. by intros st H. Qed.

Lemma keeps_lift {A : Type} (r : raises A) : keeps I (lift r).
Proof. destruct r; [apply keeps_ret | apply keeps_raise]. Qed.

Lemma keeps_bind {A B : Type} (m : M A) (k : A → M B) :
  keeps I m → (∀ a, keeps I (k a)) → keeps I (bind m k).
Proof.
  intros Hm Hk st H. unfold bind. destruct (Hm st H) as [H1 H2].
  destruct (m st) as [[a|c|e] st1]; simpl in *; [by apply Hk | | done].
  split; [done|]. intros [= ->]. by apply H2.
Qed.

Lemma keeps_try {A : Type} (m : M A) (h : exn → M A) :
  keeps I m → (∀ e, keeps I (h e)) → keeps I (try_except m h).
Proof.
  intros Hm Hh st H. unfold try_except. destruct (Hm st H) as [H1 H2].
  destruct (m st) as [[a|c|e] st1]; simpl in *; [done..|by apply Hh].
Qed.

Lemma keeps_when (b : bool) (m : M unit) : keeps I m → keeps I (when b m).
Proof. destruct b; [done|]. intros _. apply keeps_ret. Qed.

Lemma keeps_for_each {A : Type} (l : list A) (f : A → M unit) :
  (∀ x, keeps I (f x)) → keeps I (for_each l f).
Proof.
  intros Hf. induction l as [|x l IH]; [apply keeps_ret|].
  simpl. apply keeps_bind; auto.
Qed.

Lemma keeps_get_environ : keeps I get_environ.
Proof. by intros st H. Qed.

Lemma keeps_get_request_headers : keeps I get_request_headers.
Proof. by intros st H. Qed.

Lemma aborts_bind_l {A B : Type} (m : M A) (k : A → M B) :
  aborts I m → aborts I (bind m k).
Proof.
  intros Hm st H. unfold bind. destruct (Hm st H) as (H1 & H2 & H3).
  destruct (m st) as [[a|c|e] st1]; simpl in *; [by destruct (H3 a) | | done].
  split; [done|]. split; [|done]. intros [= ->]. by apply H2.
Qed.

Lemma aborts_bind_r {A B : Type} (m : M A) (k : A → M B) :
  keeps I m → (∀ a, aborts I (k a)) → aborts I (bind m k).
Proof.
  intros Hm Hk st H. unfold bind. destruct (Hm st H) as (H1 & H2).
  destruct (m st) as [[a|c|e] st1]; simpl in *; [by apply Hk | | done].
  split; [done|]. split; [|done]. intros [= ->]. by apply H2.
Qed.

Lemma aborts_for_each {A : Type} (x : A) (l : list A) (f : A → M unit) :
  aborts I (f x) → aborts I (for_each (x :: l) f).
Proof. intros H. simpl. by apply aborts_bind_l. Qed.

End Keeps.

Lemma keeps_write I o : blind_to_stdout I → keeps I (write o).
Proof. intros HI st H. split; [by apply HI | done]. Qed.

Lemma keeps_print_msg I level fmt args :
  blind_to_stdout I → keeps I (print_msg level fmt args).
Proof. apply keeps_write. Qed.

Lemma keeps_fatal_error {A : Type} I message :
  blind_to_stdout I → keeps I (fatal_error (A:=A) message).
Proof.
  intros HI. apply keeps_bind; [by apply keeps_print_msg|].
  intros _. apply keeps_exit_1.
Qed.

Ltac keeps_step :=
  lazymatch goal with
  | |- keeps _ (bind _ _) => apply keeps_bind; [|intros]
  | |- keeps _ (try_except _ _) => apply keeps_try; [|intros]
  | |- keeps _ (when _ _) => apply keeps_when
  | |- keeps _ (for_each _ _) => apply keeps_for_each; intros
  | |- keeps _ (ret _) => apply keeps_ret
  | |- keeps _ (raise _) => apply keeps_raise
  | |- keeps _ (sys_exit 1) => apply keeps_exit_1
  | |- keeps _ (lift _) => apply keeps_lift
  | |- keeps _ get_environ => apply keeps_get_environ
  | |- keeps _ get_request_headers => apply keeps_get_request_headers
  | |- keeps _ (print_msg _ _ _) => apply keeps_print_msg; assumption
  | |- keeps _ (write _) => apply keeps_write; assumption
  | |- keeps _ (fatal_error _) => apply keeps_fatal_error; assumption
  | |- keeps _ (if ?b then _ else _) => destruct b
  | |- keeps _ (match ?x with _ => _ end) => destruct x
  | |- keeps _ _ => progress cbv zeta
  end.

Ltac keeps_tac := repeat keeps_step.

Section KeepsProgram.
Context (I : state → Prop) (w : world) (g : globals).

Lemma keeps_setenv key v : blind_to_setenv key I → keeps I (setenv key v).
Proof. intros HI st H. split; [by apply HI | done]. Qed.

Lemma keeps_read_clock : blind_to_clock I → keeps I (read_clock w).
Proof. intros HI st H. split; [by apply HI | done]. Qed.

Lemma keeps_update_request_headers h :
  blind_to_request_headers I → keeps I (update_request_headers h).
Proof. intros HI st H. split; [by apply HI | done]. Qed.

Lemma keeps_http_call req : blind_to_sent I → keeps I (http_call w req).
Proof.
  intros HI st H. unfold http_call.
  destruct (http_request w (sent st) req); (split; [by apply HI | done]).
Qed.

Lemma keeps_decode_and_parse_json content :
  blind_to_stdout I → keeps I (decode_and_parse_json w content).
Proof. intros. unfold decode_and_parse_json. keeps_tac. Qed.

Lemma keeps_replace_macroses raw :
  blind_to_stdout I → keeps I (replace_macroses g raw).
Proof. intros. unfold replace_macroses. keeps_tac. Qed.

Lemma keeps_render_custom_template t :
  blind_to_stdout I → keeps I (render_custom_template w g t).
Proof.
  intros. unfold render_custom_template. keeps_tac.
  by apply keeps_replace_macroses.
Qed.

Lemma keeps_render_template t :
  blind_to_stdout I → keeps I (render_template w g t).
Proof.
  intros. unfold render_template. keeps_tac.
  by apply keeps_replace_macroses.
Qed.

Lemma keeps_render_payload tn :
  blind_to_stdout I → keeps I (render_payload w g tn).
Proof.
  intros. unfold render_payload. keeps_tac.
  - by apply keeps_render_custom_template.
  - by apply keeps_render_template.
Qed.

Lemma keeps_derive_duration a b k :
  blind_to_setenv k I → keeps I (derive_duration a b k).
Proof. intros. unfold derive_duration. keeps_tac. by apply keeps_setenv. Qed.

Lemma keeps_merge_custom_headers :
  blind_to_request_headers I → keeps I merge_custom_headers.
Proof.
  intros. unfold merge_custom_headers. keeps_tac.
  by apply keeps_update_request_headers.
Qed.

Lemma keeps_debug_request env req codes :
  blind_to_stdout I → keeps I (debug_request env req codes).
Proof. intros. unfold debug_request. keeps_tac. Qed.

Lemma keeps_report_failure url t e :
  blind_to_stdout I → keeps I (report_failure url t e).
Proof. intros. unfold report_failure. keeps_tac. Qed.

Lemma keeps_exchange req codes :
  blind_to_stdout I → blind_to_sent I → keeps I (exchange w g req codes).
Proof.
  intros. unfold exchange. keeps_tac. by apply keeps_http_call.
Qed.

Lemma keeps_request_tail url m tn :
  blind_to_stdout I → blind_to_sent I → blind_to_request_headers I →
  keeps I (request_tail w g url m tn).
Proof.
  intros. unfold request_tail. keeps_tac.
  - by apply keeps_merge_custom_headers.
  - by apply keeps_render_payload.
  - by apply keeps_debug_request.
  - by apply keeps_exchange.
  - by apply keeps_report_failure.
Qed.

Lemma keeps_load_required_matchers :
  blind_to_stdout I → keeps I (load_required_matchers w g).
Proof.
  intros. unfold load_required_matchers. keeps_tac.
  by apply keeps_render_template.
Qed.

End KeepsProgram.

(** ** Printing *)

Lemma set_stdout_id st : set_stdout (stdout st ++ []) st = st.
Proof. destruct st. unfold set_stdout. simpl. by rewrite app_nil_r. Qed.

Lemma prints_ret : prints (ret tt).
Proof. intros st. exists []. unfold ret. by rewrite set_stdout_id. Qed.

Lemma prints_print_msg level fmt args : prints (print_msg level fmt args).
Proof. intros st. by exists [Msg level fmt args]. Qed.

Lemma prints_bind (m : M unit) (k : unit → M unit) :
  prints m → (∀ u, prints (k u)) → prints (bind m k).
Proof.
  intros Hm Hk st. destruct (Hm st) as [l1 E1].
  destruct (Hk tt (set_stdout (stdout st ++ l1) st)) as [l2 E2].
  exists (l1 ++ l2). rewrite (bind_ret _ _ _ _ _ E1), E2.
  destruct st. unfold set_stdout. simpl. by rewrite app_assoc.
Qed.

Lemma prints_when b m : prints m → prints (when b m).
Proof. destruct b; [done|]. intros _. apply prints_ret. Qed.

Lemma prints_for_each {A : Type} (l : list A) (f : A → M unit) :
  (∀ x, prints (f x)) → prints (for_each l f).
Proof.
  intros Hf. induction l as [|x l IH]; [apply prints_ret|].
  simpl. apply prints_bind; auto.
Qed.

Lemma prints_debug_request env req codes : prints (debug_request env req codes).
Proof.
  unfold debug_request.
  repeat (apply prints_bind; [apply prints_print_msg | intros _]).
  apply prints_print_msg.
Qed.

(** ** The environment under the derived durations *)

Lemma from_env_insert_ne env k v k' d :
  k ≠ k' → from_env (<[k := v]> env) k' d = from_env env k' d.
Proof. intros H. unfold from_env. by rewrite lookup_insert_ne. Qed.

Lemma in_env_insert_ne env k v k' :
  k ≠ k' → in_env (<[k := v]> env) k' = in_env env k'.
Proof. intros H. unfold in_env. by rewrite from_env_insert_ne. Qed.

Lemma with_duration_lookup a b k env k' :
  k ≠ k' → with_duration a b k env !! k' = env !! k'.
Proof.
  intros H. unfold with_duration.
  destruct (_ && _); [|done]. destruct (timestamp_diff _ _); [|done].
  by rewrite lookup_insert_ne.
Qed.

Lemma with_duration_from_env a b k env k' d :
  k ≠ k' → from_env (with_duration a b k env) k' d = from_env env k' d.
Proof. intros H. unfold from_env. by rewrite with_duration_lookup. Qed.

Lemma with_duration_in_env a b k env k' :
  k ≠ k' → in_env (with_duration a b k env) k' = in_env env k'.
Proof. intros H. unfold in_env. by rewrite with_duration_from_env. Qed.

Lemma derived_environ_lookup env k :
  k ≠ "DRONE_BUILD_TOTALTIME" → k ≠ "DRONE_BUILD_QUEUEDTIME" →
  derived_environ env !! k = env !! k.
Proof.
  intros H1 H2. unfold derived_environ. by rewrite !with_duration_lookup.
Qed.

Lemma derived_environ_from_env env k d :
  k ≠ "DRONE_BUILD_TOTALTIME" → k ≠ "DRONE_BUILD_QUEUEDTIME" →
  from_env (derived_environ env) k d = from_env env k d.
Proof. intros H1 H2. unfold from_env. by rewrite derived_environ_lookup. Qed.

Lemma derived_environ_in_env env k :
  k ≠ "DRONE_BUILD_TOTALTIME" → k ≠ "DRONE_BUILD_QUEUEDTIME" →
  in_env (derived_environ env) k = in_env env k.
Proof. intros H1 H2. unfold in_env. by rewrite derived_environ_from_env. Qed.

Lemma derive_duration_run a b k st :
  duration_ok a b (environ st) = true →
  derive_duration a b k st = (Ret tt, set_environ (with_duration a b k (environ st)) st).
Proof.
  unfold duration_ok, derive_duration, with_duration, bind, get_environ, when.
  destruct (in_env (environ st) a && in_env (environ st) b); simpl.
  - destruct (timestamp_diff _ _); [done|discriminate].
  - intros _. by destruct st.
Qed.

Lemma merge_custom_headers_run st custom :
  custom_headers (environ st) = Ok custom →
  merge_custom_headers st
  = (Ret tt, set_request_headers (custom ∪ request_headers st) st).
Proof.
  unfold custom_headers, merge_custom_headers, bind, get_environ, when.
  destruct (in_env (environ st) "PLUGIN_HEADERS"); simpl.
  - by intros ->.
  - intros [= <-]. rewrite (left_id_L ∅ (∪)). by destruct st.
Qed.

Lemma custom_headers_derived env :
  custom_headers (derived_environ env) = custom_headers env.
Proof.
  unfold custom_headers.
  by rewrite derived_environ_in_env, derived_environ_from_env.
Qed.

Lemma request_timeout_derived env :
  request_timeout (derived_environ env) = request_timeout env.
Proof.
  unfold request_timeout.
  by rewrite derived_environ_in_env, derived_environ_from_env.
Qed.

Lemma duration_ok_with_duration a b a' b' k env :
  k ≠ a → k ≠ b →
  duration_ok a b (with_duration a' b' k env) = duration_ok a b env.
Proof.
  intros Ha Hb. unfold duration_ok.
  by rewrite !with_duration_in_env, !with_duration_from_env.
Qed.

(** ** One request, when the configuration is well formed *)

Lemma in_valid_codes (n : Z) : bool_decide (n ∈ [200]) = bool_decide (n = 200).
Proof. apply bool_decide_ext, list_elem_of_singleton. Qed.

Lemma exchange_run w g req st :
  ∃ lines fmt args,
    try_except (exchange w g req [200])
      (λ e, let! _ := report_failure (uri req) (timeout req) e in ret None) st
    = (answer_result (http_request w (sent st) req),
       set_stdout
         (stdout st ++ lines ++ [Msg (answer_level (http_request w (sent st) req)) fmt args])
         (set_sent (sent st ++ [req]) st)).
Proof.
  unfold try_except, exchange, bind at 1, http_call.
  destruct (http_request w (sent st) req) as [r content|e] eqn:E; simpl.
  - destruct (prints_when (debug_mode g) _
        (prints_bind _ _
           (prints_print_msg "DEBUG" ("Here is a response:" +:+ Str.nl +:+ "{0}")
              [AResponse r])
           (λ _, prints_print_msg "DEBUG"
                   ("And here is a body of response:" +:+ Str.nl +:+ "{0}")
                   [ABytes content]))
        (set_sent (sent st ++ [req]) st)) as [lines El].
    simpl in El. rewrite (bind_ret _ _ _ _ _ El). rewrite in_valid_codes.
    destruct (bool_decide (status r = 200)); exists lines; eexists _, _;
      unfold bind, print_msg, write, ret, sys_exit; simpl;
      by rewrite <- app_assoc.
  - exists []. unfold bind, report_failure, print_msg, write, ret.
    destruct e; simpl; eexists _, _; reflexivity.
Qed.

Lemma make_request_run w g url m tn st custom t p :
  request_ready (environ st) = true →
  custom_headers (environ st) = Ok custom →
  request_timeout (environ st) = Ok t →
  renders w g tn (derived_environ (environ st)) p →
  let req := build_request (derived_environ (environ st)) (custom ∪ request_headers st)
               url m p t in
  ∃ st',
    make_request w g url m tn st = (answer_result (http_request w (sent st) req), st')
    ∧ environ st' = derived_environ (environ st)
    ∧ request_headers st' = custom ∪ request_headers st
    ∧ sent st' = sent st ++ [req]
    ∧ clock_reads st' = clock_reads st
    ∧ logged (answer_level (http_request w (sent st) req)) st st'.
Proof.
  intros Hready Hc Ht Hp req. unfold request_ready in Hready.
  apply andb_true_iff in Hready as [Hready _].
  apply andb_true_iff in Hready as [Hready _].
  apply andb_true_iff in Hready as [Hd1 Hd2].
  unfold make_request. cbv zeta.
  rewrite (bind_ret _ _ _ _ _ (derive_duration_run _ _ _ _ Hd1)).
  erewrite bind_ret; cycle 1.
  { apply derive_duration_run. simpl. by rewrite duration_ok_with_duration. }
  erewrite bind_ret; cycle 1.
  { apply merge_custom_headers_run. simpl.
    fold (derived_environ (environ st)). by rewrite custom_headers_derived. }
  erewrite bind_ret; cycle 1.
  { apply Hp. reflexivity. }
  erewrite bind_ret; [|reflexivity].
  state_simpl.
  fold (derived_environ (environ st)). rewrite request_timeout_derived, Ht.
  erewrite bind_ret; [|reflexivity].
  erewrite bind_ret; [|reflexivity].
  state_simpl. fold req.
  match goal with |- ∃ _, _ ?s = _ ∧ _ => set (st3 := s) end.
  destruct (prints_when (debug_mode g) _
              (prints_debug_request (derived_environ (environ st)) req [200]) st3)
    as [l1 E1].
  rewrite (bind_ret _ _ _ _ _ E1).
  destruct (exchange_run w g req (set_stdout (stdout st3 ++ l1) st3))
    as (l2 & fmt & args & E2).
  change (uri req) with url in E2. change (timeout req) with t in E2.
  subst st3. state_simpl.
  rewrite E2. eexists. split; [reflexivity|].
  state_simpl. repeat split; try done.
  exists (l1 ++ l2), fmt, args. by rewrite <- !app_assoc.
Qed.

(** ** What a request reads of the environment *)

Lemma from_env_ext env env' k d :
  env' !! k = env !! k → from_env env' k d = from_env env k d.
Proof. unfold from_env. by intros ->. Qed.

Lemma in_env_ext env env' k : env' !! k = env !! k → in_env env' k = in_env env k.
Proof. intros H. unfold in_env. by rewrite (from_env_ext _ _ _ _ H). Qed.

Section RequestKeys.
Context (env env' : gmap string string).
Hypothesis Hsame : ∀ k, k ∈ request_keys → env' !! k = env !! k.

Local Ltac same_key :=
  first [apply in_env_ext | apply from_env_ext]; apply Hsame;
  apply list_elem_of_In; simpl; tauto.

Lemma duration_ok_ext_total :
  duration_ok "DRONE_BUILD_STARTED" "DRONE_BUILD_FINISHED" env'
  = duration_ok "DRONE_BUILD_STARTED" "DRONE_BUILD_FINISHED" env.
Proof.
  unfold duration_ok.
  replace (in_env env' "DRONE_BUILD_STARTED") with (in_env env "DRONE_BUILD_STARTED")
    by (symmetry; same_key).
  replace (in_env env' "DRONE_BUILD_FINISHED") with (in_env env "DRONE_BUILD_FINISHED")
    by (symmetry; same_key).
  replace (from_env env' "DRONE_BUILD_STARTED" "")
    with (from_env env "DRONE_BUILD_STARTED" "") by (symmetry; same_key).
  replace (from_env env' "DRONE_BUILD_FINISHED" "")
    with (from_env env "DRONE_BUILD_FINISHED" "") by (symmetry; same_key).
  done.
Qed.

Lemma duration_ok_ext_queued :
  duration_ok "DRONE_BUILD_CREATED" "DRONE_BUILD_STARTED" env'
  = duration_ok "DRONE_BUILD_CREATED" "DRONE_BUILD_STARTED" env.
Proof.
  unfold duration_ok.
  replace (in_env env' "DRONE_BUILD_STARTED") with (in_env env "DRONE_BUILD_STARTED")
    by (symmetry; same_key).
  replace (in_env env' "DRONE_BUILD_CREATED") with (in_env env "DRONE_BUILD_CREATED")
    by (symmetry; same_key).
  replace (from_env env' "DRONE_BUILD_STARTED" "")
    with (from_env env "DRONE_BUILD_STARTED" "") by (symmetry; same_key).
  replace (from_env env' "DRONE_BUILD_CREATED" "")
    with (from_env env "DRONE_BUILD_CREATED" "") by (symmetry; same_key).
  done.
Qed.

Lemma custom_headers_ext : custom_headers env' = custom_headers env.
Proof.
  unfold custom_headers.
  replace (in_env env' "PLUGIN_HEADERS") with (in_env env "PLUGIN_HEADERS")
    by (symmetry; same_key).
  replace (from_env env' "PLUGIN_HEADERS" "") with (from_env env "PLUGIN_HEADERS" "")
    by (symmetry; same_key).
  done.
Qed.

Lemma request_timeout_ext : request_timeout env' = request_timeout env.
Proof.
  unfold request_timeout.
  replace (in_env env' "PLUGIN_TIMEOUT") with (in_env env "PLUGIN_TIMEOUT")
    by (symmetry; same_key).
  replace (from_env env' "PLUGIN_TIMEOUT" "") with (from_env env "PLUGIN_TIMEOUT" "")
    by (symmetry; same_key).
  done.
Qed.

Lemma request_ready_ext : request_ready env' = request_ready env.
Proof.
  unfold request_ready.
  by rewrite duration_ok_ext_total, duration_ok_ext_queued, custom_headers_ext,
    request_timeout_ext.
Qed.

End RequestKeys.

Lemma request_keys_derived env k :
  k ∈ request_keys → derived_environ env !! k = env !! k.
Proof.
  intros H. apply list_elem_of_In in H.
  apply derived_environ_lookup; intros ->; simpl in H; intuition discriminate.
Qed.

Lemma request_ready_derived env : request_ready (derived_environ env) = request_ready env.
Proof. apply request_ready_ext, request_keys_derived. Qed.

Lemma request_ready_insert env k v :
  k ∉ request_keys → request_ready (<[k := v]> env) = request_ready env.
Proof.
  intros H. apply request_ready_ext. intros k' Hk'.
  apply lookup_insert_ne. by intros ->.
Qed.

Lemma request_ready_inv env :
  request_ready env = true →
  ∃ custom t, custom_headers env = Ok custom ∧ request_timeout env = Ok t.
Proof.
  unfold request_ready. intros H.
  apply andb_true_iff in H as [H Ht]. apply andb_true_iff in H as [_ Hc].
  destruct (custom_headers env) as [custom|]; [|done].
  destruct (request_timeout env) as [t|]; [|done].
  by exists custom, t.
Qed.

Lemma renders_not_create w g tn env :
  tn ≠ Some "create" → renders w g tn env EmptyDict.
Proof.
  intros H st _. unfold render_payload. by rewrite bool_decide_eq_false_2.
Qed.

Lemma renders_no_template w g tn env :
  in_env env "PLUGIN_CUSTOM_TEMPLATE" = false →
  in_env env "PLUGIN_TEMPLATE" = false →
  renders w g tn env EmptyDict.
Proof.
  intros H1 H2 st Hst. unfold render_payload.
  destruct (bool_decide (tn = Some "create")); [|done].
  unfold try_except. erewrite bind_ret; [|reflexivity].
  by rewrite Hst, H1, H2.
Qed.

(** A request without a payload to render. *)
Lemma plain_request_run w g url m tn st :
  tn ≠ Some "create" →
  request_ready (environ st) = true →
  ∃ req st',
    make_request w g url m tn st = (answer_result (http_request w (sent st) req), st')
    ∧ uri req = url ∧ method req = m
    ∧ sent st' = sent st ++ [req]
    ∧ environ st' = derived_environ (environ st)
    ∧ clock_reads st' = clock_reads st
    ∧ logged (answer_level (http_request w (sent st) req)) st st'.
Proof.
  intros Htn Hready.
  destruct (request_ready_inv _ Hready) as (custom & t & Hc & Ht).
  destruct (make_request_run w g url m tn st custom t EmptyDict Hready Hc Ht
              (renders_not_create w g tn _ Htn)) as (st' & E & He & Hh & Hs & Hk & Hl).
  eexists _, st'. split; [exact E|]. by repeat split.
Qed.

(** ** Deleting *)

Lemma logged_after level st st1 st' o :
  stdout st1 = stdout st ++ o → logged level st1 st' → logged level st st'.
Proof.
  intros E (pre & fmt & args & H). exists (o ++ pre), fmt, args.
  by rewrite H, E, <- !app_assoc.
Qed.

Lemma logged_grows level st st' : logged level st st' → ∃ o, stdout st' = stdout st ++ o.
Proof. intros (pre & fmt & args & H). by eexists. Qed.

Lemma tolerated_result a : tolerated a → ∃ x, answer_result a = Ret x.
Proof.
  destruct a as [r c|e]; simpl; intros H; [|by eexists].
  rewrite bool_decide_eq_true_2 by done. by eexists.
Qed.


Lemma delete_one_run w g target id st :
  request_ready (environ st) = true →
  ∃ req st',
    delete_one w g target id st
    = (match answer_result (http_request w (sent st) req) with
       | Ret _ => Ret tt
       | Exit c => Exit c
       | Raise e => Raise e
       end, st')
    ∧ uri req = delete_url target id ∧ method req = "DELETE"
    ∧ sent st' = sent st ++ [req]
    ∧ request_ready (environ st') = true
    ∧ logged (answer_level (http_request w (sent st) req)) st st'.
Proof.
  intros Hready. unfold delete_one. cbv zeta.
  erewrite bind_ret; [|reflexivity].
  set (st1 := set_stdout _ st).
  destruct (plain_request_run w g (delete_url target id) "DELETE" (Some "delete") st1)
    as (req & st' & E & Hu & Hm & Hs & He & _ & Hl); [done | done |].
  change (sent st1) with (sent st) in *.
  exists req, st'. unfold delete_url in E. unfold bind. rewrite E.
  split.
  { by destruct (answer_result (http_request w (sent st) req)). }
  repeat split; try done.
  - by rewrite He, request_ready_derived.
  - eapply logged_after; [|exact Hl]. reflexivity.
Qed.



(** ** Searching *)

Lemma decode_and_parse_json_run w content st :
  ∃ lines,
    decode_and_parse_json w content st
    = (Ret (decoded w content), set_stdout (stdout st ++ lines) st)
    ∧ (json_loads w content = None → ∃ fmt args, lines = [Msg "ERROR" fmt args]).
Proof.
  unfold decode_and_parse_json, decoded.
  destruct (json_loads w content) as [v|].
  - exists []. unfold ret. by rewrite set_stdout_id.
  - eexists. split; [reflexivity|]. intros _. by eexists _, _.
Qed.

Lemma read_silences_other w g rm author comment r content ct st :
  resp_headers r !! "content-type" = Some ct →
  ct ≠ "application/json" →
  ∃ fmt args,
    read_silences w g rm author comment r content st
    = (Ret None, set_stdout (stdout st ++ [Msg "WARNING" fmt args]) st).
Proof.
  intros Hct Hne. unfold read_silences, content_type. rewrite Hct.
  erewrite bind_ret; [|reflexivity].
  apply String.eqb_neq in Hne. rewrite Hne. simpl. by eexists _, _.
Qed.

Lemma read_silences_json w g rm author comment r content st :
  resp_headers r !! "content-type" = Some "application/json" →
  ∃ lines,
    read_silences w g rm author comment r content st
    = (Ret (Some (scan_silences (strict_match g) rm author comment
                    (decoded w content)).1),
       set_stdout (stdout st ++ lines) st)
    ∧ (json_loads w content = None → ∃ fmt args post, lines = Msg "ERROR" fmt args :: post)
    ∧ (∀ e, (scan_silences (strict_match g) rm author comment (decoded w content)).2
            = Some e →
            ∃ pre fmt, lines = pre ++ [Msg "ERROR" fmt [AExn e]]).
Proof.
  intros Hct. unfold read_silences, content_type. rewrite Hct.
  erewrite bind_ret; [|reflexivity]. rewrite String.eqb_refl. cbn [negb].
  destruct (decode_and_parse_json_run w content st) as (l1 & E1 & Hl1).
  rewrite (bind_ret _ _ _ _ _ E1).
  destruct (scan_silences _ _ _ _ _) as [ids caught]. simpl.
  set (st1 := set_stdout _ st).
  destruct (prints_for_each ids
              (λ id, print_msg "DEBUG" "Found matching silence with ID {0}" [AJson id])
              (λ id, prints_print_msg _ _ _) st1) as [l2 E2].
  rewrite (bind_ret _ _ _ _ _ E2). subst st1. state_simpl.
  destruct caught as [e|].
  - erewrite bind_ret; [|reflexivity]. unfold ret. state_simpl.
    eexists. split; [by rewrite <- !app_assoc|]. split.
    + intros H. destruct (Hl1 H) as (fmt & args & ->). by eexists _, _, _.
    + intros e' [= <-]. eexists (l1 ++ l2), _. by rewrite <- !app_assoc.
  - erewrite bind_ret; [|reflexivity]. unfold ret. state_simpl.
    exists (l1 ++ l2). split; [by rewrite <- !app_assoc|]. split; [|done].
    intros H. destruct (Hl1 H) as (fmt & args & ->). by eexists _, _, _.
Qed.

Lemma find_silences_run w g base st rm :
  request_ready (environ st) = true →
  load_required_matchers w g st = (Ret rm, st) →
  ∃ req st1,
    uri req = search_url base ∧ method req = "GET"
    ∧ sent st1 = sent st ++ [req]
    ∧ environ st1 = derived_environ (environ st)
    ∧ logged (answer_level (http_request w (sent st) req)) st st1
    ∧ find_silences w g base st
      = match answer_result (http_request w (sent st) req) with
        | Ret (Some (r, content)) =>
            read_silences w g rm silence_author (silence_comment (environ st))
              r content st1
        | Ret None =>
            (Raise (TypeError "cannot unpack non-iterable NoneType object"), st1)
        | Exit c => (Exit c, st1)
        | Raise e => (Raise e, st1)
        end.
Proof.
  intros Hready Hload. unfold find_silences. cbv zeta.
  erewrite bind_ret; [|reflexivity].
  rewrite (bind_ret _ _ _ _ _ Hload).
  erewrite bind_ret; [|reflexivity].
  set (st0 := set_stdout _ st).
  destruct (plain_request_run w g (search_url base) "GET" None st0)
    as (req & st1 & E & Hu & Hm & Hs & He & _ & Hl); [done | done |].
  change (sent st0) with (sent st) in *. change (environ st0) with (environ st) in *.
  exists req, st1. repeat split; try done.
  { eapply logged_after; [|exact Hl]. reflexivity. }
  unfold search_url in E. unfold bind at 1. rewrite E.
  destruct (answer_result (http_request w (sent st) req)) as [[[r c]|]|c|e]; try done.
Qed.


Lemma find_silences_outcomes (w : world) (g : globals) (base : string) (st : state)
    (rm : option json) (r : response) (content : string) :
  request_ready (environ st) = true →
  load_required_matchers w g st = (Ret rm, st) →
  (∀ h req, method req = "GET" → uri req = search_url base →
            http_request w h req = Responded r content) →
  (status r ≠ 200 →
   ∃ st', find_silences w g base st = (Exit 1, st') ∧ logged "ERROR" st st')
  ∧ (status r = 200 →
     ∀ ct, resp_headers r !! "content-type" = Some ct → ct ≠ "application/json" →
     ∃ st', find_silences w g base st = (Ret None, st') ∧ logged "WARNING" st st')
  ∧ (status r = 200 →
     resp_headers r !! "content-type" = Some "application/json" →
     let found := scan_silences (strict_match g) rm silence_author
                    (silence_comment (environ st)) (decoded w content) in
     ∃ st' lines,
       find_silences w g base st = (Ret (Some found.1), st')
       ∧ stdout st' = stdout st ++ lines
       ∧ (json_loads w content = None →
          found.1 = [] ∧ ∃ fmt args, Msg "ERROR" fmt args ∈ lines)
       ∧ (∀ e, found.2 = Some e → logged "ERROR" st st')).
Proof.
  intros Hready Hload Hget.
  destruct (find_silences_run w g base st rm Hready Hload)
    as (req & st1 & Hu & Hm & _ & _ & Hl & E).
  rewrite (Hget _ _ Hm Hu) in E, Hl. simpl in E, Hl.
  split; [|split].
  - intros Hs. rewrite bool_decide_eq_false_2 in E, Hl by done. by exists st1.
  - intros Hs ct Hct Hne. rewrite bool_decide_eq_true_2 in E by done.
    destruct (read_silences_other w g rm silence_author
                (silence_comment (environ st)) r content ct st1 Hct Hne)
      as (fmt & args & E').
    rewrite E' in E. eexists. split; [exact E|].
    destruct (logged_grows _ _ _ Hl) as [o Ho].
    exists o, fmt, args. state_simpl. by rewrite Ho, <- app_assoc.
  - intros Hs Hct found. rewrite bool_decide_eq_true_2 in E by done.
    destruct (read_silences_json w g rm silence_author
                (silence_comment (environ st)) r content st1 Hct)
      as (l & E' & Hdec & Hcaught).
    rewrite E' in E. destruct (logged_grows _ _ _ Hl) as [o Ho].
    eexists _, (o ++ l). split; [exact E|]. state_simpl.
    split; [by rewrite Ho, <- app_assoc|]. split.
    + intros Hnone. subst found. unfold decoded. rewrite Hnone. split; [done|].
      destruct (Hdec Hnone) as (fmt & args & post & ->).
      exists fmt, args. apply elem_of_app. right. left.
    + intros e He. destruct (Hcaught e He) as (pre & fmt & ->).
      exists (o ++ pre), fmt, [AExn e]. state_simpl.
      by rewrite Ho, <- !app_assoc.
Qed.

(** C2, as the code has it. The search [find_silences] ends in one of three
    ways once the backend answers the [GET]: another status than 200 is
    logged and ends the process with status 1; status 200 with another
    content type than [application/json] logs a warning and returns no
    identifier; status 200 with [application/json] returns the identifiers
    collected, whatever the body: a body that does not decode is logged and
    gives none, and an exception while the entries are read is logged. *)
Theorem search_outcomes (w : world) (g : globals) (base : string) (st : state)
    (rm : option json) (r : response) (content : string) :
  request_ready (environ st) = true →
  load_required_matchers w g st = (Ret rm, st) →
  (∀ h req, method req = "GET" → uri req = search_url base →
            http_request w h req = Responded r content) →
  (status r ≠ 200 →
   ∃ st', find_silences w g base st = (Exit 1, st') ∧ logged "ERROR" st st')
  ∧ (status r = 200 →
     ∀ ct, resp_headers r !! "content-type" = Some ct → ct ≠ "application/json" →
     ∃ st', find_silences w g base st = (Ret None, st') ∧ logged "WARNING" st st')
  ∧ (status r = 200 →
     resp_headers r !! "content-type" = Some "application/json" →
     let found := scan_silences (strict_match g) rm silence_author
                    (silence_comment (environ st)) (decoded w content) in
     ∃ st' lines,
       find_silences w g base st = (Ret (Some found.1), st')
       ∧ stdout st' = stdout st ++ lines
       ∧ (json_loads w content = None →
          found.1 = [] ∧ ∃ fmt args, Msg "ERROR" fmt args ∈ lines)
       ∧ (∀ e, found.2 = Some e → logged "ERROR" st st')).
Proof. apply find_silences_outcomes. Qed.

(** ** Creating *)

Lemma silence_keys_not_read k :
  k = "SILENCE_STARTS_AT" ∨ k = "SILENCE_ENDS_AT"
  ∨ k = "SILENCE_COMMENT" ∨ k = "SILENCE_CREATED_BY" →
  k ∉ request_keys.
Proof.
  rewrite list_elem_of_In. simpl. intuition (subst; discriminate).
Qed.

(** C3, as the code has it. On the create path a response with status
    200 and another content type than [application/json] is not fatal: a
    warning is logged and [create_silence] returns, so the run goes on; the
    search treats the same condition the same way, with a warning and no
    identifier. *)
Theorem create_other_content_type (w : world) (g : globals) (target : string)
    (st : state) (ends : string) (p : body) (r : response) (content ct : string) :
  request_ready (environ st) = true →
  status r = 200 →
  resp_headers r !! "content-type" = Some ct →
  ct ≠ "application/json" →
  (time_in_rfc3339 (isoformat w) (utcnow w (clock_reads st))
     (Some (silence_duration g)) = Ok ends →
   renders w g (Some "create")
     (derived_environ
        (<["SILENCE_ENDS_AT" := ends]>
           (<["SILENCE_STARTS_AT" := isoformat w (utcnow w (clock_reads st)) +:+ "Z"]>
              (environ st)))) p →
   (∀ h req, method req = "POST" → uri req = target +:+ "/api/v2/silences" →
             http_request w h req = Responded r content) →
   ∃ st', create_silence w g target st = (Ret tt, st') ∧ logged "WARNING" st st')
  ∧ (∀ rm,
       load_required_matchers w g st = (Ret rm, st) →
       (∀ h req, method req = "GET" → uri req = search_url target →
                 http_request w h req = Responded r content) →
       ∃ st', find_silences w g target st = (Ret None, st') ∧ logged "WARNING" st st').
Proof.
  intros Hready Hs Hct Hne. split.
  - intros Hends Hp Hpost. unfold create_silence. cbv zeta.
    erewrite bind_ret; [|reflexivity].
    erewrite bind_ret; [|reflexivity].
    erewrite bind_ret; [|reflexivity].
    state_simpl. rewrite Hends.
    erewrite bind_ret; [|reflexivity].
    erewrite bind_ret; [|reflexivity].
    state_simpl.
    match goal with |- ∃ _, bind _ _ ?s = _ ∧ _ => set (st2 := s) end.
    assert (request_ready (environ st2) = true) as Hr2.
    { subst st2. state_simpl.
      rewrite !request_ready_insert; [done|..]; apply silence_keys_not_read; tauto. }
    destruct (request_ready_inv _ Hr2) as (custom & t & Hc & Ht).
    destruct (make_request_run w g (target +:+ "/api/v2/silences") "POST"
                (Some "create") st2 custom t p Hr2 Hc Ht Hp)
      as (st3 & E & _ & _ & _ & _ & Hl).
    rewrite Hpost in E, Hl by done. simpl in E, Hl.
    rewrite bool_decide_eq_true_2 in E by done.
    rewrite (bind_ret _ _ _ _ _ E).
    erewrite bind_ret; [|reflexivity].
    unfold content_type. rewrite Hct.
    erewrite bind_ret; [|reflexivity].
    apply String.eqb_neq in Hne. rewrite Hne. cbn [negb].
    eexists. split; [reflexivity|].
    destruct (logged_grows _ _ _ Hl) as [o Ho].
    eexists o, _, _. state_simpl. rewrite Ho. subst st2. state_simpl.
    by rewrite <- app_assoc.
  - intros rm Hload Hget.
    destruct (find_silences_outcomes w g target st rm r content Hready Hload Hget)
      as (_ & H & _).
    by apply (H Hs ct).
Qed.

(** ** Selecting *)

Lemma silence_selected_spec strict rm required author comment j s :
  is_silence j s →
  (strict = true → ∃ rmj, rm = Some rmj ∧ py_getitem rmj "matchers" = Ok required) →
  silence_selected strict rm author comment j = Ok (selected strict required author comment s).
Proof.
  intros (Hid & (st & Hst & Hstate) & Hby & Hcomment & Hm) Hrm.
  unfold silence_selected, selected, rbind. rewrite Hst, Hstate. simpl py_eq.
  destruct (String.eqb (sstate s) "expired"); [done|].
  rewrite Hby. simpl py_eq.
  destruct (String.eqb (created_by s) author); [|done].
  rewrite Hcomment. simpl py_eq.
  destruct (String.eqb (scomment s) comment); [|done].
  destruct strict; [|done]. simpl.
  destruct (Hrm eq_refl) as (rmj & -> & Hreq). by rewrite Hm, Hreq.
Qed.

Lemma select_silences_spec strict rm required author comment entries silences :
  Forall2 is_silence entries silences →
  (strict = true → ∃ rmj, rm = Some rmj ∧ py_getitem rmj "matchers" = Ok required) →
  ∀ acc,
    select_silences strict rm author comment entries acc
    = (acc ++ map sid (List.filter (selected strict required author comment) silences),
       None).
Proof.
  intros HF Hrm. induction HF as [|j s entries silences Hj _ IH]; intros acc.
  - simpl. by rewrite app_nil_r.
  - cbn [select_silences List.filter].
    rewrite (silence_selected_spec strict rm required author comment j s Hj Hrm).
    destruct (selected strict required author comment s).
    + destruct Hj as (-> & _). rewrite IH. simpl. by rewrite <- app_assoc.
    + apply IH.
Qed.

Lemma matcher_json_eq m m' : py_eq (matcher_json m) (matcher_json m') = true ↔ m = m'.
Proof.
  destruct m as [n v r e], m' as [n' v' r' e']. unfold matcher_json. simpl.
  rewrite !andb_true_iff, !String.eqb_eq, !Bool.eqb_true_iff. split.
  - intros (Hn & Hv & Hr & He & _). by subst.
  - intros [= -> -> -> ->]. done.
Qed.

Lemma py_eq_arr_cons x xs y ys :
  py_eq (JArr (x :: xs)) (JArr (y :: ys)) = py_eq x y && py_eq (JArr xs) (JArr ys).
Proof. reflexivity. Qed.

Lemma matchers_json_eq ms ms' :
  py_eq (matchers_json ms) (matchers_json ms') = true ↔ ms = ms'.
Proof.
  unfold matchers_json. revert ms'.
  induction ms as [|m ms IH]; intros [|m' ms']; try done.
  cbn [map]. rewrite py_eq_arr_cons, andb_true_iff, matcher_json_eq, IH. split.
  - by intros [-> ->].
  - by intros [= -> ->].
Qed.

Lemma selected_spec strict required author comment s :
  selected strict required author comment s = true
  ↔ sstate s ≠ "expired" ∧ created_by s = author ∧ scomment s = comment
    ∧ (strict = true → py_eq (smatchers s) required = true).
Proof.
  unfold selected.
  rewrite !andb_true_iff, negb_true_iff, orb_true_iff, negb_true_iff,
    !String.eqb_eq, String.eqb_neq.
  split.
  - intros [[[H1 H2] H3] H4]. repeat split; try done.
    intros ->. by destruct H4.
  - intros (H1 & H2 & H3 & H4). repeat split; try done.
    destruct strict; [right; by apply H4 | by left].
Qed.

(** C4. From a decoded list of silences the search selects exactly the
    entries that are not expired, whose author is [drone/alertmanager],
    whose comment is the one of the current build, [Created for
    build#<number> of <owner>/<repo>, see <link>] with the four variables of
    the environment, and, in a strict search, whose matcher set equals the
    one of the template set's matcher artifact; without strict search author
    and comment suffice. It returns their identifiers in the order of the
    list. On matcher sets equality is equality of the sequences of
    matchers. *)
Theorem find_selects (w : world) (g : globals) (base : string) (st : state)
    (rm : option json) (required : json) (r : response) (content : string)
    (entries : list json) (silences : list silence) :
  request_ready (environ st) = true →
  load_required_matchers w g st = (Ret rm, st) →
  (strict_match g = true →
   ∃ rmj, rm = Some rmj ∧ py_getitem rmj "matchers" = Ok required) →
  (∀ h req, method req = "GET" → uri req = search_url base →
            http_request w h req = Responded r content) →
  status r = 200 →
  resp_headers r !! "content-type" = Some "application/json" →
  json_loads w content = Some (JArr entries) →
  Forall2 is_silence entries silences →
  let env := environ st in
  let comment :=
    "Created for build#" +:+ from_env env "DRONE_BUILD_NUMBER" ""
      +:+ " of " +:+ from_env env "DRONE_REPO_OWNER" ""
      +:+ "/" +:+ from_env env "DRONE_REPO_NAME" ""
      +:+ ", see " +:+ from_env env "DRONE_BUILD_LINK" "" in
  let chosen := selected (strict_match g) required "drone/alertmanager" comment in
  (∃ st', find_silences w g base st
          = (Ret (Some (map sid (List.filter chosen silences))), st'))
  ∧ (∀ s, chosen s = true
          ↔ sstate s ≠ "expired" ∧ created_by s = "drone/alertmanager"
            ∧ scomment s = comment
            ∧ (strict_match g = true → py_eq (smatchers s) required = true))
  ∧ (∀ ms ms', py_eq (matchers_json ms) (matchers_json ms') = true ↔ ms = ms').
Proof.
  intros Hready Hload Hrm Hget Hs Hct Hjson HF env comment chosen.
  split; [|split; [intros s; apply selected_spec | apply matchers_json_eq]].
  destruct (find_silences_outcomes w g base st rm r content Hready Hload Hget)
    as (_ & _ & H).
  destruct (H Hs Hct) as (st' & lines & E & _).
  exists st'. rewrite E. do 3 f_equal.
  unfold decoded. rewrite Hjson. unfold scan_silences. simpl py_iter. cbv iota.
  by rewrite (select_silences_spec _ rm required _ _ entries silences HF Hrm).
Qed.

(** ** The deploy-target macro *)

Lemma deploy_target_tag_border_free : border_free deploy_target_tag = true.
Proof. reflexivity. Qed.

(** C5. A rendered payload without the token [{{deploy_target}}] comes
    back unchanged. With the token, any build event other than promote and
    rollback is fatal, whatever the deploy target; for promote and rollback
    an absent or empty [DRONE_DEPLOY_TO] is fatal, and otherwise every
    occurrence of the token is replaced by its value. *)
Theorem replace_macroses_correct (g : globals) (raw : string) (st : state) :
  (Str.contains deploy_target_tag raw = false →
   replace_macroses g raw st = (Ret raw, st))
  ∧ (Str.contains deploy_target_tag raw = true →
     build_event g ≠ "promote" → build_event g ≠ "rollback" →
     ∃ st', replace_macroses g raw st = (Exit 1, st') ∧ logged "ERROR" st st')
  ∧ (Str.contains deploy_target_tag raw = true →
     build_event g = "promote" ∨ build_event g = "rollback" →
     environ st !! "DRONE_DEPLOY_TO" = None ∨ environ st !! "DRONE_DEPLOY_TO" = Some "" →
     ∃ st', replace_macroses g raw st = (Exit 1, st') ∧ logged "ERROR" st st')
  ∧ (∀ v,
       Str.contains deploy_target_tag raw = true →
       build_event g = "promote" ∨ build_event g = "rollback" →
       environ st !! "DRONE_DEPLOY_TO" = Some v → v ≠ "" →
       replace_macroses g raw st = (Ret (Str.replace deploy_target_tag v raw), st)
       ∧ ∀ pieces,
           raw = Str.join deploy_target_tag pieces →
           Forall (λ p, Str.contains deploy_target_tag p = false) pieces →
           Str.replace deploy_target_tag v raw = Str.join v pieces).
Proof.
  unfold replace_macroses. split; [|split; [|split]].
  - by intros ->.
  - intros -> Hp Hr. cbn [negb existsb].
    apply String.eqb_neq in Hp, Hr. rewrite Hp, Hr. simpl.
    eexists. split; [reflexivity|]. eexists [], _, _. reflexivity.
  - intros -> Hev Henv. cbn [negb existsb].
    assert (String.eqb (build_event g) "promote"
            || (String.eqb (build_event g) "rollback" || false) = true) as ->.
    { destruct Hev as [->| ->]; [done|]. by rewrite String.eqb_refl, orb_true_r. }
    erewrite bind_ret; [|reflexivity]. erewrite bind_ret; [|reflexivity].
    destruct Henv as [-> | ->];
      (eexists; split; [reflexivity|]; eexists [], _, _; reflexivity).
  - intros v -> Hev Henv Hv. cbn [negb existsb].
    assert (String.eqb (build_event g) "promote"
            || (String.eqb (build_event g) "rollback" || false) = true) as ->.
    { destruct Hev as [->| ->]; [done|]. by rewrite String.eqb_refl, orb_true_r. }
    erewrite bind_ret; [|reflexivity]. erewrite bind_ret; [|reflexivity].
    rewrite Henv. split; [by destruct v|].
    intros pieces -> HF. apply StrFacts.replace_join; [reflexivity | done | done].
Qed.

(** ** Durations *)


Lemma derive_duration_skip a b k st :
  in_env (environ st) a && in_env (environ st) b = false →
  derive_duration a b k st = (Ret tt, st).
Proof. unfold derive_duration, bind, get_environ. by intros ->. Qed.

Lemma derive_duration_set a b k st d :
  in_env (environ st) a && in_env (environ st) b = true →
  timestamp_diff (from_env (environ st) a "") (from_env (environ st) b "") = Ok d →
  derive_duration a b k st = (Ret tt, set_environ (<[k := d]> (environ st)) st).
Proof. unfold derive_duration, bind, get_environ. by intros -> ->. Qed.

Lemma derive_duration_raise a b k st e :
  in_env (environ st) a && in_env (environ st) b = true →
  timestamp_diff (from_env (environ st) a "") (from_env (environ st) b "") = Raised e →
  derive_duration a b k st = (Raise e, st).
Proof. unfold derive_duration, bind, get_environ. by intros -> ->. Qed.


Lemma make_request_unfold w g url m tn :
  make_request w g url m tn
  = (let! _ := derive_duration "DRONE_BUILD_STARTED" "DRONE_BUILD_FINISHED"
                 "DRONE_BUILD_TOTALTIME" in
     let! _ := derive_duration "DRONE_BUILD_CREATED" "DRONE_BUILD_STARTED"
                 "DRONE_BUILD_QUEUEDTIME" in
     request_tail w g url m tn).
Proof. reflexivity. Qed.

Lemma env_at_blind k x :
  blind_to_stdout (env_at k x) ∧ blind_to_sent (env_at k x)
  ∧ blind_to_request_headers (env_at k x) ∧ blind_to_clock (env_at k x).
Proof. repeat split; intros st ? H; exact H. Qed.

Lemma env_at_setenv k x k' : k' ≠ k → blind_to_setenv k' (env_at k x).
Proof. intros H st v Hst. unfold env_at in *. simpl. by rewrite lookup_insert_ne. Qed.



(** ** The custom headers stay in the global *)

(** C9. The custom headers of the configuration are merged into the
    global [request_headers], which the request carries, and the global is
    left so when [make_request] returns: a later request carries them too,
    under whatever it merges itself, even with the header list no longer
    configured. *)
Theorem custom_headers_persist (w : world) (g : globals) (url m : string)
    (tn : option string) (st : state) (custom : gmap string string) (p : body) :
  request_ready (environ st) = true →
  custom_headers (environ st) = Ok custom →
  renders w g tn (derived_environ (environ st)) p →
  ∃ req res st',
    make_request w g url m tn st = (res, st')
    ∧ sent st' = sent st ++ [req]
    ∧ headers req = custom ∪ request_headers st
    ∧ request_headers st' = custom ∪ request_headers st
    ∧ ∀ url2 m2 tn2 p2 st2 custom2,
        request_headers st2 = request_headers st' →
        request_ready (environ st2) = true →
        custom_headers (environ st2) = Ok custom2 →
        renders w g tn2 (derived_environ (environ st2)) p2 →
        ∃ req2 res2 st2',
          make_request w g url2 m2 tn2 st2 = (res2, st2')
          ∧ sent st2' = sent st2 ++ [req2]
          ∧ headers req2 = custom2 ∪ (custom ∪ request_headers st)
          ∧ request_headers st2' = custom2 ∪ (custom ∪ request_headers st)
          ∧ ∀ k v, custom !! k = Some v →
                   custom2 !! k = None ∨ custom2 !! k = Some v →
                   headers req2 !! k = Some v.
Proof.
  intros Hready Hc Hp.
  destruct (request_ready_inv _ Hready) as (c & t & Hc' & Ht).
  rewrite Hc in Hc'. injection Hc' as <-.
  destruct (make_request_run w g url m tn st custom t p Hready Hc Ht Hp)
    as (st' & E & _ & Hh & Hs & _).
  eexists _, _, st'. split; [exact E|]. split; [exact Hs|]. split; [reflexivity|].
  split; [exact Hh|].
  intros url2 m2 tn2 p2 st2 custom2 Hh2 Hready2 Hc2 Hp2.
  destruct (request_ready_inv _ Hready2) as (c2 & t2 & Hc2' & Ht2).
  rewrite Hc2 in Hc2'. injection Hc2' as <-.
  destruct (make_request_run w g url2 m2 tn2 st2 custom2 t2 p2 Hready2 Hc2 Ht2 Hp2)
    as (st2' & E2 & _ & Hh2' & Hs2 & _).
  rewrite Hh2, Hh in Hh2', E2, Hs2.
  eexists _, _, st2'. split; [exact E2|]. split; [exact Hs2|].
  split; [reflexivity|]. split; [exact Hh2'|].
  intros k v Hk [Hk2|Hk2]; cbn [headers build_request].
  - rewrite lookup_union_r by done. by apply lookup_union_Some_l.
  - by apply lookup_union_Some_l.
Qed.

(** ** A malformed header list *)

Lemma split_length c s : length (Str.split c s) = S (Str.count c s).
Proof.
  induction s as [|a s IH]; [done|]. simpl.
  destruct (Ascii.eqb a c); simpl; [by rewrite IH|].
  destruct (Str.split c s); [done|]. simpl in *. done.
Qed.

Lemma parse_headers_bad l :
  ∀ acc entry,
    entry ∈ l → Str.count ":" entry ≠ 1%nat → ∃ e, parse_headers l acc = Raised e.
Proof.
  induction l as [|h l IH]; intros acc entry Hin Hbad.
  - by apply elem_of_nil in Hin.
  - simpl. pose proof (split_length ":" h) as Hlen.
    destruct (Str.split ":" h) as [|k [|v [|x rest]]]; try (by eexists).
    apply elem_of_cons in Hin as [->|Hin]; [|by eapply IH].
    simpl in Hlen. congruence.
Qed.

Lemma merge_custom_headers_bad st entry :
  in_env (environ st) "PLUGIN_HEADERS" = true →
  entry ∈ Str.split "," (from_env (environ st) "PLUGIN_HEADERS" "") →
  Str.count ":" entry ≠ 1%nat →
  ∃ e, merge_custom_headers st = (Raise e, st).
Proof.
  intros Hin Hentry Hbad. unfold merge_custom_headers.
  erewrite bind_ret; [|reflexivity]. rewrite Hin. cbn [when].
  destruct (parse_headers_bad _ ∅ entry Hentry Hbad) as [e ->].
  by exists e.
Qed.

Lemma derive_duration_alt a b k st :
  (∃ env', derive_duration a b k st = (Ret tt, set_environ env' st)
           ∧ ∀ k', k ≠ k' → env' !! k' = environ st !! k')
  ∨ (∃ e, derive_duration a b k st = (Raise e, st)).
Proof.
  destruct (in_env (environ st) a && in_env (environ st) b) eqn:Hboth.
  - destruct (timestamp_diff (from_env (environ st) a "") (from_env (environ st) b ""))
      as [d|e] eqn:Hd.
    + left. eexists. split; [by apply derive_duration_set|].
      intros k' Hk. by rewrite lookup_insert_ne.
    + right. exists e. by apply derive_duration_raise.
  - left. exists (environ st). rewrite derive_duration_skip by done.
    split; [by destruct st | done].
Qed.

Lemma make_request_bad_headers w g url m tn st entry :
  in_env (environ st) "PLUGIN_HEADERS" = true →
  entry ∈ Str.split "," (from_env (environ st) "PLUGIN_HEADERS" "") →
  Str.count ":" entry ≠ 1%nat →
  ∃ e st',
    make_request w g url m tn st = (Raise e, st')
    ∧ sent st' = sent st
    ∧ environ st' !! "PLUGIN_HEADERS" = environ st !! "PLUGIN_HEADERS".
Proof.
  intros Hin Hentry Hbad. rewrite make_request_unfold.
  destruct (derive_duration_alt "DRONE_BUILD_STARTED" "DRONE_BUILD_FINISHED"
              "DRONE_BUILD_TOTALTIME" st) as [(env1 & E1 & H1)|[e E1]]; cycle 1.
  { rewrite (bind_raise _ _ _ _ _ E1). by exists e, st. }
  rewrite (bind_ret _ _ _ _ _ E1). set (st1 := set_environ env1 st).
  destruct (derive_duration_alt "DRONE_BUILD_CREATED" "DRONE_BUILD_STARTED"
              "DRONE_BUILD_QUEUEDTIME" st1) as [(env2 & E2 & H2)|[e E2]]; cycle 1.
  { rewrite (bind_raise _ _ _ _ _ E2). exists e, st1.
    split; [done|]. split; [done|]. by apply H1. }
  rewrite (bind_ret _ _ _ _ _ E2). set (st2 := set_environ env2 st1).
  assert (environ st2 !! "PLUGIN_HEADERS" = environ st !! "PLUGIN_HEADERS") as Hsame.
  { subst st2 st1. state_simpl. rewrite H2 by done. state_simpl. by apply H1. }
  destruct (merge_custom_headers_bad st2 entry) as [e E3].
  { by rewrite (in_env_ext _ _ _ Hsame). }
  { by rewrite (from_env_ext _ _ _ _ Hsame). }
  { done. }
  unfold request_tail. rewrite (bind_raise _ _ _ _ _ E3).
  by exists e, st2.
Qed.

Lemma aborts_exit_1 {A : Type} I : aborts I (sys_exit (A:=A) 1).
Proof. by intros st H. Qed.

Lemma aborts_when_true I (m : M unit) : aborts I m → aborts I (when true m).
Proof. done. Qed.

Section BadHeaders.
Context (w : world) (env : gmap string string) (entry : string).
Hypothesis Hin : in_env env "PLUGIN_HEADERS" = true.
Hypothesis Hentry : entry ∈ Str.split "," (from_env env "PLUGIN_HEADERS" "").
Hypothesis Hbad : Str.count ":" entry ≠ 1%nat.

Local Abbreviation I := (unsent_with (env !! "PLUGIN_HEADERS")).

Lemma unsent_blind_to_stdout : blind_to_stdout I.
Proof. by intros st o H. Qed.

Lemma unsent_blind_to_clock : blind_to_clock I.
Proof. by intros st n H. Qed.

Lemma unsent_blind_to_setenv k : k ≠ "PLUGIN_HEADERS" → blind_to_setenv k I.
Proof.
  intros Hk st v [H1 H2]. split; [done|]. simpl. by rewrite lookup_insert_ne.
Qed.

Lemma aborts_make_request g url m tn : aborts I (make_request w g url m tn).
Proof.
  intros st [Hs He].
  destruct (make_request_bad_headers w g url m tn st entry) as (e & st' & E & Hs' & He').
  - by rewrite (in_env_ext _ _ _ He).
  - by rewrite (from_env_ext _ _ _ _ He).
  - done.
  - rewrite E. simpl. repeat split; try done.
    + by rewrite Hs'.
    + by rewrite He'.
Qed.

Lemma aborts_create_silence g target : aborts I (create_silence w g target).
Proof.
  pose proof unsent_blind_to_stdout. unfold create_silence. cbv zeta.
  apply aborts_bind_r; [by apply keeps_read_clock, unsent_blind_to_clock|]. intros now.
  apply aborts_bind_r; [apply keeps_lift|]. intros starts.
  apply aborts_bind_r; [by apply keeps_setenv, unsent_blind_to_setenv|]. intros _.
  apply aborts_bind_r; [apply keeps_lift|]. intros ends.
  apply aborts_bind_r; [by apply keeps_setenv, unsent_blind_to_setenv|]. intros _.
  apply aborts_bind_l, aborts_make_request.
Qed.

Lemma aborts_delete_silences g target : aborts I (delete_silences w g target).
Proof.
  pose proof unsent_blind_to_stdout. unfold delete_silences, find_silences. cbv zeta.
  apply aborts_bind_l.
  apply aborts_bind_r; [apply keeps_get_environ|]. intros env0.
  apply aborts_bind_r; [by apply keeps_load_required_matchers|]. intros rm.
  apply aborts_bind_r; [by apply keeps_print_msg|]. intros _.
  apply aborts_bind_l, aborts_make_request.
Qed.

Lemma aborts_perform_action g action :
  action = "create" ∨ action = "delete" → aborts I (perform_action w g action).
Proof.
  intros Hact. unfold perform_action.
  apply aborts_bind_r; [apply keeps_get_environ|]. intros env0.
  apply aborts_bind_r; [by apply keeps_setenv, unsent_blind_to_setenv|]. intros _.
  apply aborts_bind_r; [by apply keeps_setenv, unsent_blind_to_setenv|]. intros _.
  apply aborts_bind_r; [apply keeps_get_environ|]. intros env1.
  pose proof (split_length "," (from_env env1 "PLUGIN_URLS" "")) as Hlen.
  destruct (Str.split "," (from_env env1 "PLUGIN_URLS" "")) as [|target targets];
    [done|].
  apply aborts_for_each. destruct Hact as [-> | ->].
  - apply aborts_bind_l, aborts_when_true, aborts_create_silence.
  - apply aborts_bind_r; [apply keeps_ret|]. intros _.
    apply aborts_when_true, aborts_delete_silences.
Qed.

Lemma aborts_main : aborts I (main w).
Proof.
  pose proof unsent_blind_to_stdout as Hb. unfold main.
  apply aborts_bind_r; [apply keeps_get_environ|]. intros env0.
  apply aborts_bind_r; [keeps_tac|]. intros debug.
  apply aborts_bind_r; [keeps_tac|]. intros _.
  destruct (existsb (String.eqb (from_env env0 "PLUGIN_ACTION" "")) supported_actions)
    eqn:Hact; cycle 1.
  { apply aborts_bind_l, aborts_when_true.
    apply aborts_bind_r; [by apply keeps_print_msg|]. intros _. apply aborts_exit_1. }
  apply aborts_bind_r; [apply keeps_ret|]. intros _.
  apply aborts_bind_r; [keeps_tac|]. intros _.
  apply aborts_bind_r; [keeps_tac|]. intros _.
  apply aborts_bind_r; [keeps_tac|]. intros _.
  apply aborts_bind_r; [keeps_tac|]. intros _.
  apply aborts_bind_l, aborts_perform_action.
  simpl in Hact. rewrite orb_false_r in Hact.
  apply orb_true_iff in Hact as [H|H]; apply String.eqb_eq in H; auto.
Qed.

End BadHeaders.

(** C10. When an entry of the configured header list holds no colon or
    more than one, [make_request] raises before the exchange: the request
    is not sent. The exception is not caught, so the run ends with a status
    other than 0 and without any request. *)
Theorem malformed_header_aborts (w : world) (env : gmap string string) (entry : string) :
  in_env env "PLUGIN_HEADERS" = true →
  entry ∈ Str.split "," (from_env env "PLUGIN_HEADERS" "") →
  Str.count ":" entry ≠ 1%nat →
  (∀ g url m tn st,
     environ st !! "PLUGIN_HEADERS" = env !! "PLUGIN_HEADERS" →
     ∃ e st', make_request w g url m tn st = (Raise e, st') ∧ sent st' = sent st)
  ∧ (run w env).1 ≠ 0
  ∧ sent (run w env).2 = [].
Proof.
  intros Hin Hentry Hbad. split.
  - intros g url m tn st He.
    destruct (make_request_bad_headers w g url m tn st entry) as (e & st' & E & Hs & _).
    + by rewrite (in_env_ext _ _ _ He).
    + by rewrite (from_env_ext _ _ _ _ He).
    + done.
    + by exists e, st'.
  - destruct (aborts_main w env entry Hin Hentry Hbad (initial env))
      as ([Hs _] & Hexit & Hret); [done|].
    unfold run. destruct (main w (initial env)) as [[[]|c|e] st']; simpl in *.
    + by destruct (Hret tt).
    + split; [|done]. intros ->. done.
    + done.
Qed.

(** ** The claims on concrete runs *)


(** C2 does not hold as stated: a search answered with status 500 does
    not return "no match", it ends the process with status 1. *)
Lemma search_refused_ends_run :
  (find_silences Scenario.all_refused Scenario.not_strict "http://am"
     (initial Scenario.delete_env)).1 = Exit 1
  ∧ (run Scenario.all_refused Scenario.delete_env).1 = 1.
Proof. vm_compute. by split. Qed.

Lemma search_outcomes_witness :
  request_ready (environ (initial Scenario.delete_env)) = true
  ∧ (∃ st',
       find_silences Scenario.plain_text Scenario.not_strict "http://am"
         (initial Scenario.delete_env) = (Ret None, st')
       ∧ logged "WARNING" (initial Scenario.delete_env) st').
Proof.
  split; [reflexivity|].
  apply (proj1 (proj2
           (search_outcomes Scenario.plain_text Scenario.not_strict "http://am"
              (initial Scenario.delete_env) None (Scenario.text_response 200) "ok"
              eq_refl eq_refl (λ _ _ _ _, eq_refl)))
           eq_refl "text/plain" eq_refl).
  discriminate.
Defined.

(** C3 does not hold as stated: a create answered with status 200 and
    plain text logs a warning, last of all, and the run ends with status
    0. *)
Lemma create_plain_text_succeeds :
  (run Scenario.plain_text Scenario.create_env).1 = 0
  ∧ ∃ fmt, last (stdout (run Scenario.plain_text Scenario.create_env).2)
           = Some (Msg "WARNING" fmt [AStr "text/plain"]).
Proof. vm_compute. split; [done|]. by eexists. Qed.

Lemma create_other_content_type_witness :
  request_ready (environ (initial Scenario.create_env)) = true
  ∧ ∃ st',
      create_silence Scenario.plain_text Scenario.creating "http://am"
        (initial Scenario.create_env) = (Ret tt, st')
      ∧ logged "WARNING" (initial Scenario.create_env) st'.
Proof.
  split; [reflexivity|].
  apply (proj1
           (create_other_content_type Scenario.plain_text Scenario.creating "http://am"
              (initial Scenario.create_env) "0001-01-01T00:00:00Z" EmptyDict
              (Scenario.text_response 200) "ok" "text/plain"
              eq_refl eq_refl eq_refl ltac:(discriminate))).
  - reflexivity.
  - by apply renders_no_template.
  - intros h req _ _. reflexivity.
Defined.

(** C7 does not hold as stated: called with a message, the filter reports
    the undefined [PLUGIN_FOO] with that message alone, which names neither
    the variable nor the option; and a reference without a name is reported
    under the empty name. *)
Lemma mandatory_message_names_nothing :
  mandatory (A:=string) (Undefined (Some "PLUGIN_FOO")) (Some "a value is required")
  = Raised (TemplateRuntimeError "a value is required")
  ∧ Str.contains "foo" "a value is required" = false
  ∧ Str.contains "PLUGIN_FOO" "a value is required" = false
  ∧ mandatory (A:=string) (Undefined None) None
    = Raised (TemplateRuntimeError
        ("Mandatory variable " +:+ Str.dq +:+ Str.dq +:+ " is not defined via environment")).
Proof. by repeat split. Qed.

Lemma find_selects_witness :
  Forall2 is_silence Scenario.entries Scenario.silences
  ∧ ∃ st',
      find_silences Scenario.listing Scenario.strict "http://am"
        (initial Scenario.delete_env) = (Ret (Some [JStr "a"]), st').
Proof.
  assert (Forall2 is_silence Scenario.entries Scenario.silences) as HF.
  { repeat constructor; eexists; split; reflexivity. }
  split; [exact HF|].
  apply (proj1
           (find_selects Scenario.listing Scenario.strict "http://am"
              (initial Scenario.delete_env)
              (Some (JObj [("matchers", matchers_json [Scenario.by_instance])]))
              (matchers_json [Scenario.by_instance])
              (Scenario.json_response 200) "LIST" Scenario.entries Scenario.silences
              eq_refl eq_refl
              (λ _, ex_intro _ _ (conj eq_refl eq_refl))
              (λ _ _ _ _, eq_refl) eq_refl eq_refl eq_refl HF)).
Defined.

Lemma replace_macroses_correct_witness :
  Str.contains deploy_target_tag "deploy to {{deploy_target}}, then {{deploy_target}}" = true
  ∧ replace_macroses Scenario.promoting
      "deploy to {{deploy_target}}, then {{deploy_target}}"
      (initial Scenario.promote_env)
    = (Ret "deploy to prod, then prod", initial Scenario.promote_env).
Proof.
  split; [reflexivity|].
  destruct (proj2 (proj2 (proj2
              (replace_macroses_correct Scenario.promoting
                 "deploy to {{deploy_target}}, then {{deploy_target}}"
                 (initial Scenario.promote_env)))) "prod"
              eq_refl (or_introl eq_refl) eq_refl ltac:(discriminate)) as [E Hall].
  rewrite E. rewrite (Hall ["deploy to "; ", then "; ""] eq_refl).
  - reflexivity.
  - repeat constructor.
Defined.


Lemma custom_headers_persist_witness :
  custom_headers Scenario.headers_env = Ok Scenario.two_headers
  ∧ ∃ req res st',
      make_request Scenario.listing Scenario.not_strict "http://am/api/v2/silences"
        "GET" None (initial Scenario.headers_env) = (res, st')
      ∧ headers req = Scenario.two_headers ∪ base_headers
      ∧ request_headers st' = Scenario.two_headers ∪ base_headers.
Proof.
  split; [reflexivity|].
  destruct (custom_headers_persist Scenario.listing Scenario.not_strict
              "http://am/api/v2/silences" "GET" None (initial Scenario.headers_env)
              Scenario.two_headers EmptyDict eq_refl eq_refl
              (renders_not_create Scenario.listing Scenario.not_strict None _
                 ltac:(discriminate)))
    as (req & res & st' & E & _ & Hh & Hg & _).
  by exists req, res, st'.
Defined.

Lemma malformed_header_aborts_witness :
  Str.count ":" "Referer: http://ci.example.com" = 2%nat
  ∧ (run Scenario.listing Scenario.referer_env).1 ≠ 0
  ∧ sent (run Scenario.listing Scenario.referer_env).2 = [].
Proof.
  split; [reflexivity|].
  apply (malformed_header_aborts Scenario.listing Scenario.referer_env
           "Referer: http://ci.example.com" eq_refl).
  - apply list_elem_of_singleton. reflexivity.
  - discriminate.
Defined.

(** ** The helpers on small inputs *)

Example split_fields : Str.split "," "a,b,,c" = ["a"; "b"; ""; "c"].
Proof. reflexivity. Qed.

Example strip_blanks :
  Str.strip "  a b  " = "a b"
  ∧ Str.strip (String (ascii_of_nat 160) "b" +:+ String (ascii_of_nat 133) "") = "b"
  ∧ Str.strip (String (ascii_of_nat 28) "b") = "b".
Proof. repeat split; reflexivity. Qed.

Example lower_letters :
  Str.lower "True" = "true"
  ∧ Str.lower (String (ascii_of_nat 201) "T" +:+ String (ascii_of_nat 215) "")
    = String (ascii_of_nat 233) "t" +:+ String (ascii_of_nat 215) "".
Proof. split; reflexivity. Qed.

Example int_literals :
  py_int " -1_000 " = Some (-1000) ∧ py_int "1__0" = None ∧ py_int "" = None
  ∧ py_int "12a" = None ∧ py_int "007" = Some 7 ∧ py_int "_1" = None
  ∧ py_int "1_" = None ∧ py_int "+ 5" = None ∧ py_int "-0" = Some 0.
Proof. repeat split; reflexivity. Qed.

(** [int] passes over the two spaces above 127 and not over the
    separators 28 to 31, unlike [str.strip]. *)
Example int_white_space :
  py_int (String (ascii_of_nat 160) "5" +:+ String (ascii_of_nat 133) "") = Some 5
  ∧ py_int (String (ascii_of_nat 28) "1000") = None
  ∧ py_int ("1000" +:+ String (ascii_of_nat 31) "") = None.
Proof. repeat split; reflexivity. Qed.

(** [int] converts 4300 digits and no more, leading zeros counted and
    underscores not. *)
Example int_digit_limit :
  is_ok (match py_int (String.concat "" (replicate 4300 "1")) with
         | Some n => Ok n
         | None => Raised (ValueError "")
         end) = true
  ∧ py_int (String.concat "" (replicate 4301 "1")) = None
  ∧ py_int (String.concat "" (replicate 4301 "0")) = None
  ∧ py_int (String.concat "_" (replicate 4300 "0")) = Some 0.
Proof. vm_compute. by repeat split. Qed.

Example replace_leftmost :
  Str.replace "ab" "X" "cababdab" = "cXXdX" ∧ Str.replace "aa" "X" "aaa" = "Xa".
Proof. split; reflexivity. Qed.

Example timedelta_forms :
  timedelta_str (-1) = Ok "-1 day, 23:59:59"
  ∧ timedelta_str 90061 = Ok "1 day, 1:01:01"
  ∧ timedelta_str 200000 = Ok "2 days, 7:33:20".
Proof. repeat split; reflexivity. Qed.

Example str_of_list :
  py_str (JArr [JStr "a"; JInt 1; JObj [("k", JNull)]]) = "['a', 1, {'k': None}]"
  ∧ py_repr (JStr (String (ascii_of_nat 160) "a" +:+ String (ascii_of_nat 233) ""))
    = "'\xa0a" +:+ String (ascii_of_nat 233) "'".
Proof. split; reflexivity. Qed.

Example dict_order :
  py_eq (JObj [("a", JInt 1); ("b", JBool true)]) (JObj [("b", JInt 1); ("a", JInt 1)])
  = true.
Proof. reflexivity. Qed.

Example escape_backslash :
  escape_for_json "a\b" = "a\\b" ∧ escape_for_json "plain" = "plain".
Proof. split; reflexivity. Qed.

(** * Further properties *)

(** ** [escape_for_json] *)

Lemma escape_for_json_app (s t : string) :
  escape_for_json (s +:+ t) = escape_for_json s +:+ escape_for_json t.
Proof.
  induction s as [|c s IH]; [done|].
  rewrite StrFacts.app_cons. simpl. rewrite IH.
  by destruct (Ascii.eqb c "\").
Qed.

Lemma escape_for_json_length (s : string) :
  String.length (escape_for_json s) = (String.length s + Str.count "\" s)%nat.
Proof.
  induction s as [|c s IH]; [done|]. simpl.
  destruct (Ascii.eqb c "\"); simpl; rewrite IH; lia.
Qed.

Lemma escape_for_json_count (s : string) :
  Str.count "\" (escape_for_json s) = (2 * Str.count "\" s)%nat.
Proof.
  induction s as [|c s IH]; [done|]. simpl.
  destruct (Ascii.eqb c "\") eqn:E; simpl; rewrite ?E, IH; lia.
Qed.

Lemma escape_for_json_is_replace (s : string) :
  escape_for_json s = Str.replace "\" "\\" s.
Proof.
  unfold Str.replace. induction s as [|c s IH]; [done|].
  cbn [escape_for_json Str.replace_from String.prefix String.length Nat.sub].
  destruct (Ascii.eqb_spec c "\") as [->|Hc].
  - destruct (ascii_dec "\" "\") as [_|]; [|done].
    destruct s; by rewrite IH.
  - destruct (ascii_dec "\" c) as [<-|_]; [done|]. by rewrite IH.
Qed.

Lemma escape_for_json_inj (s t : string) :
  escape_for_json s = escape_for_json t → s = t.
Proof.
  revert t. induction s as [|c s IH]; intros [|d t]; simpl.
  - done.
  - by destruct (Ascii.eqb d "\").
  - by destruct (Ascii.eqb c "\").
  - destruct (Ascii.eqb_spec c "\") as [->|Hc], (Ascii.eqb_spec d "\") as [->|Hd].
    + intros [= E]. by rewrite (IH _ E).
    + intros [= <-]. done.
    + intros [= ->]. done.
    + intros [= -> E]. by rewrite (IH _ E).
Qed.

(** X1. The filter [escape_for_json] is the replacement of every backslash by
    two: the result is one character longer for each backslash of the input
    and holds twice as many, it is the input itself exactly when the input
    has no backslash, and the filter goes through concatenation. *)
Theorem escape_for_json_doubles (s : string) :
  escape_for_json s = Str.replace "\" "\\" s
  ∧ String.length (escape_for_json s) = (String.length s + Str.count "\" s)%nat
  ∧ Str.count "\" (escape_for_json s) = (2 * Str.count "\" s)%nat
  ∧ (escape_for_json s = s ↔ Str.count "\" s = 0%nat)
  ∧ ∀ t, escape_for_json (s +:+ t) = escape_for_json s +:+ escape_for_json t.
Proof.
  split; [apply escape_for_json_is_replace|].
  split; [apply escape_for_json_length|].
  split; [apply escape_for_json_count|].
  split; [|apply escape_for_json_app]. split.
  - intros E. pose proof (escape_for_json_length s) as H. rewrite E in H. lia.
  - induction s as [|c s IH]; [done|]. simpl.
    destruct (Ascii.eqb c "\"); [done|]. intros H. by rewrite IH.
Qed.

(** X2. The filter [escape_for_json] loses nothing: two different inputs are
    escaped to two different texts. *)
Theorem escape_for_json_distinct (s t : string) :
  s ≠ t → escape_for_json s ≠ escape_for_json t.
Proof. intros Hne E. by apply Hne, escape_for_json_inj. Qed.

(** ** The scan of the search, whatever the body *)

Lemma py_eq_str x s : py_eq x (JStr s) = true ↔ x = JStr s.
Proof.
  destruct x; simpl; try (split; [discriminate|discriminate]).
  rewrite String.eqb_eq. split; [by intros ->|by intros [= ->]].
Qed.

Lemma silence_selected_true strict rm author comment j :
  silence_selected strict rm author comment j = Ok true ↔
  fingerprinted strict rm author comment j.
Proof.
  unfold silence_selected, fingerprinted, rbind. split.
  - destruct (py_getitem j "status") as [st|]; [|done].
    destruct (py_getitem st "state") as [state|] eqn:Est; [|done].
    destruct (py_eq state (JStr "expired")) eqn:Ex; [done|].
    destruct (py_getitem j "createdBy") as [cb|]; [|done].
    destruct (py_eq cb (JStr author)) eqn:Ecb; [|done].
    destruct (py_getitem j "comment") as [c|]; [|done].
    destruct (py_eq c (JStr comment)) eqn:Ec; [|done].
    apply py_eq_str in Ecb, Ec. subst cb c. simpl.
    intros H. split.
    { exists st, state. repeat split; try done. intros ->. simpl in Ex. discriminate. }
    split; [done|]. split; [done|]. intros ->. simpl in H.
    destruct (py_getitem j "matchers") as [ms|] eqn:Ems; [|done].
    destruct rm as [rm|]; [|done].
    destruct (py_getitem rm "matchers") as [required|] eqn:Ereq; [|done].
    injection H as H. by exists ms, rm, required.
  - intros ((st & state & -> & -> & Hne) & -> & -> & Hstrict).
    assert (py_eq state (JStr "expired") = false) as ->.
    { destruct (py_eq state (JStr "expired")) eqn:E; [|done].
      by apply py_eq_str in E. }
    simpl. rewrite !String.eqb_refl. simpl.
    destruct strict; [|done]. simpl.
    destruct (Hstrict eq_refl) as (ms & rmj & required & -> & -> & -> & ->). done.
Qed.

Lemma select_silences_sound strict rm author comment l :
  ∀ acc,
    ∃ picked ids,
      (select_silences strict rm author comment l acc).1 = acc ++ ids
      ∧ sublist picked l
      ∧ Forall2 (λ j id, py_getitem j "id" = Ok id) picked ids
      ∧ Forall (fingerprinted strict rm author comment) picked
      ∧ ((select_silences strict rm author comment l acc).2 = None →
         ∀ j, j ∈ l → fingerprinted strict rm author comment j → j ∈ picked).
Proof.
  induction l as [|j l IH]; intros acc.
  - exists [], []. simpl. rewrite app_nil_r. repeat split; done.
  - cbn [select_silences].
    destruct (silence_selected strict rm author comment j) as [[]|e] eqn:Ej.
    + destruct (py_getitem j "id") as [id|e] eqn:Eid.
      * destruct (IH (acc ++ [id])) as (picked & ids & E & Hsub & Hids & Hfp & Hall).
        exists (j :: picked), (id :: ids). rewrite E, <- app_assoc.
        split; [done|]. split; [by apply sublist_skip|].
        split; [by constructor|]. split.
        { constructor; [by apply silence_selected_true|done]. }
        intros Hnone j' Hj' Hf. apply elem_of_cons in Hj' as [->|Hj']; [left|].
        right. by apply Hall.
      * exists [], []. simpl. rewrite app_nil_r. repeat split; try done.
        apply sublist_nil_l.
    + destruct (IH acc) as (picked & ids & E & Hsub & Hids & Hfp & Hall).
      exists picked, ids. split; [done|]. split; [by apply sublist_cons|].
      split; [done|]. split; [done|].
      intros Hnone j' Hj' Hf. apply elem_of_cons in Hj' as [->|Hj']; [|by apply Hall].
      apply silence_selected_true in Hf. congruence.
    + exists [], []. simpl. rewrite app_nil_r. repeat split; try done.
      apply sublist_nil_l.
Qed.

(** X3. Whatever the decoded body, the identifiers the search collects are
    the [id] fields, in the order of the list, of entries of the body that
    carry the fingerprint: not expired, the plugin's author, the comment of
    the build and, in a strict search, the matcher set of the artifact. When
    no exception cut the scan, every entry with the fingerprint is among
    them. *)
Theorem scan_silences_sound (strict : bool) (rm : option json)
    (author comment : string) (d : json) :
  let found := scan_silences strict rm author comment d in
  ∃ picked,
    sublist picked (iterated d)
    ∧ Forall2 (λ j id, py_getitem j "id" = Ok id) picked found.1
    ∧ Forall (fingerprinted strict rm author comment) picked
    ∧ (found.2 = None →
       ∀ j, j ∈ iterated d → fingerprinted strict rm author comment j → j ∈ picked).
Proof.
  unfold scan_silences, iterated. destruct (py_iter d) as [l|e].
  - destruct (select_silences_sound strict rm author comment l [])
      as (picked & ids & E & H).
    simpl in E. rewrite E. by exists picked.
  - exists []. simpl. repeat split; try done.
Qed.

Lemma select_silences_cut strict rm required author comment pre silences bad post e :
  Forall2 is_silence pre silences →
  (strict = true → ∃ rmj, rm = Some rmj ∧ py_getitem rmj "matchers" = Ok required) →
  py_getitem bad "status" = Raised e →
  ∀ acc,
    select_silences strict rm author comment (pre ++ bad :: post) acc
    = (acc ++ map sid (List.filter (selected strict required author comment) silences),
       Some e).
Proof.
  intros HF Hrm Hbad. induction HF as [|j s pre silences Hj _ IH]; intros acc.
  - simpl. unfold silence_selected, rbind. rewrite Hbad. by rewrite app_nil_r.
  - cbn [app select_silences List.filter].
    rewrite (silence_selected_spec strict rm required author comment j s Hj Hrm).
    destruct (selected strict required author comment s).
    + destruct Hj as (-> & _). rewrite IH. simpl. by rewrite <- app_assoc.
    + apply IH.
Qed.

(** X4. An entry of the list without a readable [status] ends the scan with
    the exception of the subscript: the identifiers selected before it are
    kept, and the entries after it are not looked at, whatever they are. *)
Theorem scan_stops_at_malformed (strict : bool) (rm : option json) (required : json)
    (author comment : string) (pre : list json) (silences : list silence)
    (bad : json) (post : list json) (e : exn) :
  Forall2 is_silence pre silences →
  (strict = true → ∃ rmj, rm = Some rmj ∧ py_getitem rmj "matchers" = Ok required) →
  py_getitem bad "status" = Raised e →
  scan_silences strict rm author comment (JArr (pre ++ bad :: post))
  = (map sid (List.filter (selected strict required author comment) silences), Some e).
Proof.
  intros HF Hrm Hbad. unfold scan_silences. simpl py_iter. cbv iota.
  by rewrite (select_silences_cut strict rm required author comment pre silences
                bad post e HF Hrm Hbad).
Qed.

(** X5. A decoded body that is not a list gives no identifier; unless it is
    the empty dictionary or the empty string, the scan ends with a
    [TypeError]. *)
Theorem scan_not_a_list (strict : bool) (rm : option json) (author comment : string)
    (d : json) :
  (∀ elems, d ≠ JArr elems) →
  (scan_silences strict rm author comment d).1 = []
  ∧ (d ≠ JObj [] → d ≠ JStr "" →
     ∃ what, (scan_silences strict rm author comment d).2 = Some (TypeError what)).
Proof.
  intros Hd. unfold scan_silences.
  destruct d as [| b | n | s | elems | items]; simpl;
    try (split; [done|]; intros _ _; by eexists).
  - destruct s as [|c s]; simpl; [by split|]. split; [done|]. intros _ _. by eexists.
  - by destruct (Hd elems).
  - destruct items as [|[k v] items]; simpl; [by split|]. split; [done|].
    intros _ _. by eexists.
Qed.

(** ** The header list *)

Lemma split_two c s :
  Str.count c s = 1%nat ↔ ∃ k v, Str.split c s = [k; v].
Proof.
  pose proof (split_length c s) as H. split.
  - intros E. rewrite E in H.
    destruct (Str.split c s) as [|k [|v [|x l]]]; try done. by exists k, v.
  - intros (k & v & E). rewrite E in H. simpl in H. lia.
Qed.

Lemma find_snoc {A : Type} (f : A → bool) (l : list A) (x : A) :
  find f (l ++ [x]) = match find f l with
                      | Some y => Some y
                      | None => if f x then Some x else None
                      end.
Proof.
  induction l as [|y l IH]; simpl; [done|]. by destruct (f y).
Qed.

Lemma parse_headers_ok l :
  ∀ acc, is_ok (parse_headers l acc) = true ↔ Forall (λ h, Str.count ":" h = 1%nat) l.
Proof.
  induction l as [|h l IH]; intros acc; simpl.
  - split; [by constructor|done].
  - rewrite Forall_cons. pose proof (split_two ":" h) as H2.
    destruct (Str.split ":" h) as [|k [|v [|x rest]]].
    + split; [done|]. intros [(k & v & E)%H2 _]. done.
    + split; [done|]. intros [(k' & v & E)%H2 _]. done.
    + rewrite IH. split; [|by intros [_ ?]]. intros H. split; [|done].
      apply H2. by exists k, v.
    + split; [done|]. intros [(k' & v' & E)%H2 _]. done.
Qed.

Lemma parse_headers_lookup l :
  ∀ acc m name,
    parse_headers l acc = Ok m →
    m !! name = match find (λ h, String.eqb (header_name h) name) (rev l) with
                | Some h => Some (header_value h)
                | None => acc !! name
                end.
Proof.
  induction l as [|h l IH]; intros acc m name; simpl.
  - by intros [= ->].
  - rewrite find_snoc.
    destruct (Str.split ":" h) as [|k [|v [|x rest]]] eqn:E; try done.
    intros Hm. rewrite (IH _ _ name Hm).
    destruct (find _ (rev l)); [done|]. unfold header_name, header_value.
    rewrite E. simpl.
    destruct (String.eqb_spec (Str.strip k) name) as [->|Hne].
    + rewrite ?E. simpl. by rewrite lookup_insert_eq.
    + by rewrite lookup_insert_ne.
Qed.

(** X6. The loop over the header list succeeds exactly when every entry holds
    one colon. It then gives each name the value of the last entry with that
    name, both stripped of surrounding white space, and leaves the other
    names of the dictionary as they were. So the entries [ X-A : b ] and
    [X-B:] followed by a no-break space and [c] give [X-A] the value [b] and
    [X-B] the value [c]. *)
Theorem parse_headers_spec (l : list string) (acc : gmap string string) :
  (is_ok (parse_headers l acc) = true ↔ Forall (λ h, Str.count ":" h = 1%nat) l)
  ∧ (∀ m name,
       parse_headers l acc = Ok m →
       m !! name = match find (λ h, String.eqb (header_name h) name) (rev l) with
                   | Some h => Some (header_value h)
                   | None => acc !! name
                   end)
  ∧ parse_headers [" X-A : b "; "X-B:" +:+ String (ascii_of_nat 160) "c"] ∅
    = Ok (<["X-B" := "c"]> (<["X-A" := "b"]> ∅)).
Proof.
  split; [apply parse_headers_ok|]. split; [apply parse_headers_lookup | reflexivity].
Qed.

(** ** [strip_version], once more *)

(** X7. Applying [strip_version] twice is applying it once: what is left after
    the [v] is taken off no longer starts with a version tag. The result is
    at most one character shorter than the input. *)
Theorem strip_version_idempotent (input : string) :
  strip_version (strip_version input) = strip_version input
  ∧ (String.length input - 1 ≤ String.length (strip_version input)
     ≤ String.length input)%nat.
Proof.
  destruct (Re.re_match version_re input) eqn:E; cycle 1.
  { assert (strip_version input = input) as Hs by (unfold strip_version; by rewrite E).
    rewrite !Hs. split; [done|lia]. }
  assert (strip_version input = Str.drop 1 input) as ->
    by (unfold strip_version; by rewrite E).
  apply version_re_match in E as (d1 & d2 & d3 & rest & -> & [Hne Hd] & _).
  change (Str.drop 1 ("v" +:+ d1 +:+ "." +:+ d2 +:+ "." +:+ d3 +:+ rest))
    with (d1 +:+ "." +:+ d2 +:+ "." +:+ d3 +:+ rest).
  split.
  - unfold strip_version.
    destruct (Re.re_match version_re (d1 +:+ "." +:+ d2 +:+ "." +:+ d3 +:+ rest)) eqn:E;
      [|done].
    apply version_re_match in E as (e1 & e2 & e3 & rest' & E & _).
    destruct d1 as [|c d1]; [done|]. rewrite StrFacts.app_cons in E.
    rewrite StrFacts.app_cons in E. injection E as -> _. cbn in Hd. discriminate.
  - rewrite !StrFacts.app_cons, StrFacts.app_nil_l. simpl. lia.
Qed.

(** ** The exit status *)

Lemma exits_one_ret {A : Type} (a : A) : exits_one (ret a).
Proof. by intros st c. Qed.

Lemma exits_one_raise {A : Type} (e : exn) : exits_one (raise (A:=A) e).
Proof. by intros st c. Qed.

Lemma exits_one_exit {A : Type} : exits_one (sys_exit (A:=A) 1).
Proof. by intros st c [= <-]. Qed.

Lemma exits_one_lift {A : Type} (r : raises A) : exits_one (lift r).
Proof. destruct r; [apply exits_one_ret | apply exits_one_raise]. Qed.

Lemma exits_one_bind {A B : Type} (m : M A) (k : A → M B) :
  exits_one m → (∀ a, exits_one (k a)) → exits_one (bind m k).
Proof.
  intros Hm Hk st c. unfold bind. pose proof (Hm st) as H.
  destruct (m st) as [[a|c'|e] st1]; simpl in *; [apply Hk | | done].
  intros [= <-]. by apply H.
Qed.

Lemma exits_one_try {A : Type} (m : M A) (h : exn → M A) :
  exits_one m → (∀ e, exits_one (h e)) → exits_one (try_except m h).
Proof.
  intros Hm Hh st c. unfold try_except. pose proof (Hm st) as H.
  destruct (m st) as [[a|c'|e] st1]; simpl in *; [done | | apply Hh].
  intros [= <-]. by apply H.
Qed.

Lemma exits_one_when (b : bool) (m : M unit) : exits_one m → exits_one (when b m).
Proof. destruct b; [done|]. intros _. apply exits_one_ret. Qed.

Lemma exits_one_for_each {A : Type} (l : list A) (f : A → M unit) :
  (∀ x, exits_one (f x)) → exits_one (for_each l f).
Proof.
  intros Hf. induction l as [|x l IH]; [apply exits_one_ret|].
  simpl. apply exits_one_bind; auto.
Qed.

Lemma exits_one_get_environ : exits_one get_environ.
Proof. by intros st c. Qed.

Lemma exits_one_get_request_headers : exits_one get_request_headers.
Proof. by intros st c. Qed.

Lemma exits_one_write o : exits_one (write o).
Proof. by intros st c. Qed.

Lemma exits_one_print_msg level fmt args : exits_one (print_msg level fmt args).
Proof. by intros st c. Qed.

Lemma exits_one_setenv k v : exits_one (setenv k v).
Proof. by intros st c. Qed.

Lemma exits_one_read_clock w : exits_one (read_clock w).
Proof. by intros st c. Qed.

Lemma exits_one_update_request_headers h : exits_one (update_request_headers h).
Proof. by intros st c. Qed.

Lemma exits_one_http_call w req : exits_one (http_call w req).
Proof. intros st c. unfold http_call. by destruct (http_request w (sent st) req). Qed.

Lemma exits_one_unpack {A : Type} (r : option A) : exits_one (unpack r).
Proof. destruct r; [apply exits_one_ret | apply exits_one_raise]. Qed.

Ltac exits_step :=
  lazymatch goal with
  | |- exits_one (bind _ _) => apply exits_one_bind; [|intros]
  | |- exits_one (try_except _ _) => apply exits_one_try; [|intros]
  | |- exits_one (when _ _) => apply exits_one_when
  | |- exits_one (for_each _ _) => apply exits_one_for_each; intros
  | |- exits_one (ret _) => apply exits_one_ret
  | |- exits_one (raise _) => apply exits_one_raise
  | |- exits_one (sys_exit 1) => apply exits_one_exit
  | |- exits_one (lift _) => apply exits_one_lift
  | |- exits_one (unpack _) => apply exits_one_unpack
  | |- exits_one get_environ => apply exits_one_get_environ
  | |- exits_one get_request_headers => apply exits_one_get_request_headers
  | |- exits_one (print_msg _ _ _) => apply exits_one_print_msg
  | |- exits_one (write _) => apply exits_one_write
  | |- exits_one (setenv _ _) => apply exits_one_setenv
  | |- exits_one (read_clock _) => apply exits_one_read_clock
  | |- exits_one (update_request_headers _) => apply exits_one_update_request_headers
  | |- exits_one (http_call _ _) => apply exits_one_http_call
  | |- exits_one (fatal_error _) => unfold fatal_error
  | |- exits_one (if ?b then _ else _) => destruct b
  | |- exits_one (match ?x with _ => _ end) => destruct x
  | |- exits_one (let '(_, _) := ?x in _) => destruct x
  | |- exits_one _ => progress cbv zeta
  end.

Ltac exits_tac := repeat exits_step.

Section ExitsProgram.
Context (w : world) (g : globals).

Lemma exits_one_replace_macroses raw : exits_one (replace_macroses g raw).
Proof. unfold replace_macroses. exits_tac. Qed.

Lemma exits_one_render_template t : exits_one (render_template w g t).
Proof. unfold render_template. exits_tac. apply exits_one_replace_macroses. Qed.

Lemma exits_one_render_payload tn : exits_one (render_payload w g tn).
Proof.
  unfold render_payload, render_custom_template. exits_tac.
  - apply exits_one_replace_macroses.
  - apply exits_one_render_template.
Qed.

Lemma exits_one_make_request url m tn : exits_one (make_request w g url m tn).
Proof.
  unfold make_request, derive_duration, merge_custom_headers, debug_request,
    exchange, report_failure.
  exits_tac. all: apply exits_one_render_payload.
Qed.

Lemma exits_one_find_silences base : exits_one (find_silences w g base).
Proof.
  unfold find_silences, load_required_matchers, read_silences, decode_and_parse_json.
  exits_tac.
  all: first [apply exits_one_render_template | apply exits_one_make_request].
Qed.

Lemma exits_one_create_silence target : exits_one (create_silence w g target).
Proof.
  unfold create_silence, decode_and_parse_json. exits_tac.
  all: apply exits_one_make_request.
Qed.

Lemma exits_one_delete_silences target : exits_one (delete_silences w g target).
Proof.
  unfold delete_silences, delete_each, delete_one. exits_tac.
  all: first [apply exits_one_find_silences | apply exits_one_make_request].
Qed.

Lemma exits_one_perform_action action : exits_one (perform_action w g action).
Proof.
  unfold perform_action. exits_tac.
  - apply exits_one_create_silence.
  - apply exits_one_delete_silences.
Qed.

End ExitsProgram.

(** ** The checks of the entry point *)

Lemma prints_write o : prints (write o).
Proof. intros st. by exists [o]. Qed.

Lemma required_env_run (env : gmap string string) (l : list string) st :
  if forallb (λ key, bool_decide (is_Some (env !! key))) l then
    for_each l
      (λ key,
         when (negb (bool_decide (is_Some (env !! key))))
           (let! _ := print_msg "ERROR" "Can't find {0} in environment" [AStr key] in
            sys_exit 1)) st = (Ret tt, st)
  else
    ∃ key, key ∈ l ∧ env !! key = None
      ∧ for_each l
          (λ key,
             when (negb (bool_decide (is_Some (env !! key))))
               (let! _ := print_msg "ERROR" "Can't find {0} in environment" [AStr key] in
                sys_exit 1)) st
        = (Exit 1,
           set_stdout (stdout st ++ [Msg "ERROR" "Can't find {0} in environment" [AStr key]])
             st).
Proof.
  induction l as [|k l IH]; [done|]. cbn [forallb for_each].
  destruct (bool_decide (is_Some (env !! k))) eqn:Ek; cbn [andb negb when].
  - erewrite bind_ret; [|reflexivity].
    destruct (forallb _ l); [done|].
    destruct IH as (key & Hin & Hnone & E). exists key.
    split; [by right|]. by split.
  - exists k. split; [left|]. split; [|done].
    apply bool_decide_eq_false in Ek. by apply eq_None_not_Some.
Qed.

(** The run up to the action: the lines printed before it, then an error
    line and status 1, or the action under the settings read from the
    environment. *)
Lemma main_run (w : world) (st : state) :
  let env := environ st in
  ∃ lines,
    if accepted env then
      main w st
      = (let '(r, st') :=
           perform_action w (settings_of env) (from_env env "PLUGIN_ACTION" "")
             (set_stdout (stdout st ++ lines) st) in
         (after_action r, st'))
    else
      ∃ fmt args,
        main w st = (Exit 1, set_stdout (stdout st ++ lines ++ [Msg "ERROR" fmt args]) st).
Proof.
  intros env. unfold main.
  erewrite bind_ret; [|reflexivity]. fold env.
  assert (∃ l0,
            (if in_env env "PLUGIN_DEBUG"
                && String.eqb (Str.lower (from_env env "PLUGIN_DEBUG" "")) "true"
             then
               let! _ := print_msg "DEBUG" "Here is our environment:" [] in
               let! _ := for_each (map_to_list env)
                           (λ kv, write (Plain "{0} => {1}" [AStr kv.1; AStr kv.2])) in
               ret true
             else ret false) st
            = (Ret (debug_setting env), set_stdout (stdout st ++ l0) st)) as [l0 E0].
  { fold (debug_setting env). destruct (debug_setting env).
    - erewrite bind_ret; [|reflexivity].
      match goal with |- ∃ _, bind _ _ ?s = _ => set (st1 := s) end.
      destruct (prints_for_each (map_to_list env)
                  (λ kv, write (Plain "{0} => {1}" [AStr kv.1; AStr kv.2]))
                  (λ kv, prints_write _) st1) as [l E].
      rewrite (bind_ret _ _ _ _ _ E). subst st1. unfold ret. state_simpl.
      eexists. by rewrite <- app_assoc.
    - exists []. unfold ret. by rewrite set_stdout_id. }
  rewrite (bind_ret _ _ _ _ _ E0). clear E0.
  set (st1 := set_stdout (stdout st ++ l0) st).
  unfold accepted.
  destruct (in_env env "PLUGIN_URLS"); cbn [negb when andb]; cycle 1.
  { exists l0. erewrite bind_exit; [|reflexivity]. eexists _, _.
    subst st1. unfold set_stdout. simpl. by rewrite <- app_assoc. }
  erewrite bind_ret; [|reflexivity].
  destruct (existsb (String.eqb (from_env env "PLUGIN_ACTION" "")) supported_actions);
    cbn [negb when andb]; cycle 1.
  { exists l0. erewrite bind_exit; [|reflexivity]. eexists _, _.
    subst st1. unfold set_stdout. simpl. by rewrite <- app_assoc. }
  erewrite bind_ret; [|reflexivity].
  destruct (String.eqb (from_env env "PLUGIN_ACTION" "") "create"
            && String.eqb (from_env env "PLUGIN_DURATION" "") "");
    cbn [negb when andb].
  { exists l0. erewrite bind_exit; [|reflexivity]. eexists _, _.
    subst st1. unfold set_stdout. simpl. by rewrite <- app_assoc. }
  erewrite bind_ret; [|reflexivity].
  assert (∃ l1,
            when (negb (in_env env "PLUGIN_TEMPLATE" || in_env env "PLUGIN_CUSTOM_TEMPLATE"))
              (print_msg "WARNING"
                 "Settings template and custom_template are missing, rendering default" [])
              st1
            = (Ret tt, set_stdout (stdout st ++ l0 ++ l1) st)) as [l1 E1].
  { destruct (in_env env "PLUGIN_TEMPLATE" || in_env env "PLUGIN_CUSTOM_TEMPLATE");
      cbn [negb when].
    - exists []. by rewrite app_nil_r.
    - eexists [_]. subst st1. unfold print_msg, write. state_simpl.
      by rewrite <- app_assoc. }
  rewrite (bind_ret _ _ _ _ _ E1). clear E1.
  set (st2 := set_stdout (stdout st ++ l0 ++ l1) st).
  pose proof (required_env_run env required_env st2) as Hreq.
  destruct (forallb (λ key, bool_decide (is_Some (env !! key))) required_env);
    cbn [andb]; cycle 1.
  { destruct Hreq as (key & _ & _ & E). rewrite (bind_exit _ _ _ _ _ E).
    exists (l0 ++ l1). eexists _, _. subst st2. state_simpl.
    by rewrite <- !app_assoc. }
  rewrite (bind_ret _ _ _ _ _ Hreq).
  destruct (existsb (String.eqb (from_env env "DRONE_BUILD_EVENT" ""))
              supported_build_events); cbn [negb when]; cycle 1.
  { exists (l0 ++ l1). erewrite bind_exit; [|reflexivity]. eexists _, _.
    subst st2. state_simpl. by rewrite <- !app_assoc. }
  erewrite bind_ret; [|reflexivity].
  exists (l0 ++ l1). fold (settings_of env). unfold bind. subst st2.
  rewrite <- ?app_assoc.
  destruct (perform_action _ _ _ _) as [[[]|c|e] st']; reflexivity.
Qed.

(** ** What one call of [make_request] does *)



Lemma derive_duration_cases a b k st :
  (duration_ok a b (environ st) = true
   ∧ derive_duration a b k st
     = (Ret tt, set_environ (with_duration a b k (environ st)) st))
  ∨ (duration_ok a b (environ st) = false
     ∧ ∃ e, derive_duration a b k st = (Raise e, st)).
Proof.
  destruct (duration_ok a b (environ st)) eqn:Hok.
  - left. split; [done|]. by apply derive_duration_run.
  - right. split; [done|]. unfold duration_ok in Hok.
    apply orb_false_iff in Hok as [Hboth Hd]. apply negb_false_iff in Hboth.
    destruct (timestamp_diff _ _) as [d|e] eqn:E; [done|].
    exists e. by apply derive_duration_raise.
Qed.

Lemma merge_custom_headers_raise st e :
  custom_headers (environ st) = Raised e → merge_custom_headers st = (Raise e, st).
Proof.
  unfold custom_headers, merge_custom_headers, bind, get_environ, when.
  destruct (in_env (environ st) "PLUGIN_HEADERS"); simpl; [by intros ->|done].
Qed.

Lemma same_but_stdout_blind st0 : blind_to_stdout (same_but_stdout st0).
Proof. by intros st o H. Qed.

Lemma render_payload_frame w g tn st :
  same_but_stdout st (render_payload w g tn st).2.
Proof.
  apply (keeps_render_payload (same_but_stdout st) w g tn (same_but_stdout_blind st) st).
  by repeat split.
Qed.

Lemma request_ready_split env :
  request_ready env
  = duration_ok "DRONE_BUILD_STARTED" "DRONE_BUILD_FINISHED" env
    && duration_ok "DRONE_BUILD_CREATED" "DRONE_BUILD_STARTED" env
    && is_ok (custom_headers env) && is_ok (request_timeout env).
Proof. reflexivity. Qed.

(** A call either ends before the exchange, with nothing sent and without
    returning, or the configuration is well formed and the call makes the
    one request of [build_request] and ends as the answer decides. *)
Lemma make_request_cases w g url m tn st :
  ∃ r st',
    make_request w g url m tn st = (r, st')
    ∧ ((sent st' = sent st ∧ clock_reads st' = clock_reads st ∧ (∀ x, r ≠ Ret x)
        ∧ (request_ready (environ st) = true →
           is_ok (request_timeout (environ st)) = true
           ∧ ∃ st3, environ st3 = derived_environ (environ st)
                    ∧ ∀ p, (render_payload w g tn st3).1 ≠ Ret p))
       ∨ (∃ custom t p st3,
            let req := build_request (derived_environ (environ st))
                         (custom ∪ request_headers st) url m p t in
            request_ready (environ st) = true
            ∧ custom_headers (environ st) = Ok custom
            ∧ request_timeout (environ st) = Ok t
            ∧ environ st3 = derived_environ (environ st)
            ∧ (render_payload w g tn st3).1 = Ret p
            ∧ sent st' = sent st ++ [req]
            ∧ environ st' = derived_environ (environ st)
            ∧ request_headers st' = custom ∪ request_headers st
            ∧ clock_reads st' = clock_reads st
            ∧ r = answer_result (http_request w (sent st) req))).
Proof.
  rewrite request_ready_split. unfold make_request. cbv zeta.
  destruct (derive_duration_cases "DRONE_BUILD_STARTED" "DRONE_BUILD_FINISHED"
              "DRONE_BUILD_TOTALTIME" st) as [[Hd1 E1]|[Hd1 [e E1]]]; cycle 1.
  { rewrite (bind_raise _ _ _ _ _ E1), Hd1. eexists _, _. split; [reflexivity|].
    left. by repeat split. }
  rewrite (bind_ret _ _ _ _ _ E1), Hd1. clear E1.
  set (st1 := set_environ _ st).
  destruct (derive_duration_cases "DRONE_BUILD_CREATED" "DRONE_BUILD_STARTED"
              "DRONE_BUILD_QUEUEDTIME" st1) as [[Hd2 E2]|[Hd2 [e E2]]];
    subst st1; state_simpl; rewrite duration_ok_with_duration in Hd2 by done;
    rewrite Hd2; cycle 1.
  { rewrite (bind_raise _ _ _ _ _ E2). eexists _, _. split; [reflexivity|].
    left. by repeat split. }
  rewrite (bind_ret _ _ _ _ _ E2). clear E2. state_simpl.
  fold (derived_environ (environ st)).
  set (st2 := set_environ _ _).
  destruct (custom_headers (environ st)) as [custom|e] eqn:Hc; cycle 1.
  { erewrite bind_raise; cycle 1.
    { apply merge_custom_headers_raise. subst st2. state_simpl.
      rewrite custom_headers_derived. exact Hc. }
    eexists _, _. split; [reflexivity|]. left. by repeat split. }
  erewrite bind_ret; cycle 1.
  { apply merge_custom_headers_run. subst st2. state_simpl.
    rewrite custom_headers_derived. exact Hc. }
  set (st3 := set_request_headers _ st2).
  pose proof (render_payload_frame w g tn st3) as (He4 & Hh4 & Hs4 & Hk4).
  destruct (request_timeout (environ st)) as [t|e] eqn:Ht; cycle 1.
  { destruct (render_payload w g tn st3) as [[p|c|e'] st4] eqn:Ep; simpl in *.
    - rewrite (bind_ret _ _ _ _ _ Ep). erewrite bind_ret; [|reflexivity].
      rewrite He4. subst st3 st2. state_simpl. rewrite request_timeout_derived, Ht.
      erewrite bind_raise; [|reflexivity].
      eexists _, _. split; [reflexivity|]. left. by repeat split.
    - rewrite (bind_exit _ _ _ _ _ Ep).
      eexists _, _. split; [reflexivity|]. left. by repeat split.
    - rewrite (bind_raise _ _ _ _ _ Ep).
      eexists _, _. split; [reflexivity|]. left. by repeat split. }
  cbn [andb is_ok].
  destruct (render_payload w g tn st3) as [[p|c|e] st4] eqn:Ep; simpl in *.
  2:{ rewrite (bind_exit _ _ _ _ _ Ep). eexists _, _. split; [reflexivity|]. left.
      split; [done|]. split; [done|]. split; [done|]. intros _. split; [done|].
      exists st3. split; [done|]. intros p. by rewrite Ep. }
  2:{ rewrite (bind_raise _ _ _ _ _ Ep). eexists _, _. split; [reflexivity|]. left.
      split; [done|]. split; [done|]. split; [done|]. intros _. split; [done|].
      exists st3. split; [done|]. intros p. by rewrite Ep. }
  rewrite (bind_ret _ _ _ _ _ Ep).
  erewrite bind_ret; [|reflexivity].
  rewrite He4. subst st3 st2. state_simpl. rewrite request_timeout_derived, Ht.
  erewrite bind_ret; [|reflexivity].
  erewrite bind_ret; [|reflexivity].
  rewrite Hh4. state_simpl.
  set (req := build_request (derived_environ (environ st))
                (custom ∪ request_headers st) url m p t).
  destruct (prints_when (debug_mode g) _
              (prints_debug_request (derived_environ (environ st)) req [200]) st4)
    as [l1 E1].
  rewrite (bind_ret _ _ _ _ _ E1).
  destruct (exchange_run w g req (set_stdout (stdout st4 ++ l1) st4))
    as (l2 & fmt & args & E2).
  change (uri req) with url in E2. change (timeout req) with t in E2.
  rewrite E2. state_simpl. rewrite Hs4.
  eexists _, _. split; [reflexivity|]. state_simpl.
  right. eexists custom, t, p, _. cbv zeta. fold req.
  split; [done|]. split; [done|]. split; [done|].
  split; [|split; [by rewrite Ep|]]; [reflexivity|].
  by repeat split.
Qed.


(** ** Invariants through the actions *)

Lemma keeps_make_request_frame I w g url m tn :
  blind_to_stdout I → blind_to_sent I → blind_to_request_headers I →
  blind_to_setenv "DRONE_BUILD_TOTALTIME" I →
  blind_to_setenv "DRONE_BUILD_QUEUEDTIME" I →
  keeps I (make_request w g url m tn).
Proof.
  intros. rewrite make_request_unfold.
  apply keeps_bind; [by apply keeps_derive_duration|]. intros _.
  apply keeps_bind; [by apply keeps_derive_duration|]. intros _.
  by apply keeps_request_tail.
Qed.

Lemma keeps_make_request_sends P st0 w g url m tn :
  (∀ req, uri req = url → method req = m → P req) →
  keeps (sends P st0) (make_request w g url m tn).
Proof.
  intros HP st (reqs & Hs & HF).
  pose proof (exits_one_make_request w g url m tn st) as Hexit.
  destruct (make_request_cases w g url m tn st) as (r & st' & E & H).
  rewrite E in *. simpl in *. split.
  - destruct H as [(Hs' & _)|(custom & t & p & st3 & _ & _ & _ & _ & _ & Hs' & _)].
    + exists reqs. by rewrite Hs'.
    + eexists (reqs ++ [_]). rewrite Hs', Hs, <- app_assoc. split; [done|].
      apply Forall_app. split; [done|]. constructor; [by apply HP | constructor].
  - intros ->. by specialize (Hexit 0 eq_refl).
Qed.

Lemma keeps_for_each_in {A : Type} I (l : list A) (f : A → M unit) :
  (∀ x, x ∈ l → keeps I (f x)) → keeps I (for_each l f).
Proof.
  induction l as [|x l IH]; intros Hf; [apply keeps_ret|].
  simpl. apply keeps_bind; [apply Hf; left|]. intros _. apply IH.
  intros y Hy. apply Hf. by right.
Qed.

Section KeepsActions.
Context (I : state → Prop) (w : world) (g : globals) (ok : string → string → Prop).
Hypothesis Hout : blind_to_stdout I.
Hypothesis Hmake : ∀ url m tn, ok url m → keeps I (make_request w g url m tn).

Lemma keeps_read_silences rm author comment r content :
  keeps I (read_silences w g rm author comment r content).
Proof. unfold read_silences, decode_and_parse_json. keeps_tac. Qed.

Lemma keeps_find_silences base :
  ok (search_url base) "GET" → keeps I (find_silences w g base).
Proof.
  intros Hok. unfold find_silences. keeps_tac.
  - by apply keeps_load_required_matchers.
  - by apply Hmake.
  - unfold unpack. keeps_tac.
  - apply keeps_read_silences.
Qed.

Lemma keeps_delete_silences target :
  ok (search_url target) "GET" → (∀ id, ok (delete_url target id) "DELETE") →
  keeps I (delete_silences w g target).
Proof.
  intros Hget Hdel. unfold delete_silences, delete_each, delete_one.
  apply keeps_bind; [by apply keeps_find_silences|]. intros ids.
  keeps_tac. all: apply Hmake, Hdel.
Qed.

Hypothesis Hclock : blind_to_clock I.
Hypothesis Hstarts : blind_to_setenv "SILENCE_STARTS_AT" I.
Hypothesis Hends : blind_to_setenv "SILENCE_ENDS_AT" I.

Lemma keeps_create_silence target :
  ok (target +:+ "/api/v2/silences") "POST" → keeps I (create_silence w g target).
Proof.
  intros Hok. unfold create_silence, decode_and_parse_json. keeps_tac.
  - by apply keeps_read_clock.
  - by apply keeps_setenv.
  - by apply keeps_setenv.
  - by apply Hmake.
  - unfold unpack. keeps_tac.
Qed.

Lemma keeps_act_on action target :
  (action = "create" → ok (target +:+ "/api/v2/silences") "POST") →
  (action = "delete" →
   ok (search_url target) "GET" ∧ ∀ id, ok (delete_url target id) "DELETE") →
  keeps I (act_on w g action target).
Proof.
  intros Hc Hd. unfold act_on.
  apply keeps_bind; [|intros _].
  - destruct (String.eqb_spec action "create") as [E|_]; [|apply keeps_ret].
    by apply keeps_create_silence, Hc.
  - destruct (String.eqb_spec action "delete") as [E|_]; [|apply keeps_ret].
    destruct (Hd E). by apply keeps_delete_silences.
Qed.

End KeepsActions.

Lemma perform_action_unfold w g action st :
  perform_action w g action st
  = for_each (Str.split "," (from_env (environ st) "PLUGIN_URLS" ""))
      (act_on w g action) (set_environ (published (environ st)) st).
Proof.
  unfold perform_action.
  erewrite bind_ret; [|reflexivity].
  erewrite bind_ret; [|reflexivity].
  erewrite bind_ret; [|reflexivity].
  erewrite bind_ret; [|reflexivity].
  state_simpl. by rewrite !from_env_insert_ne.
Qed.

(** ** The run as a whole *)

Lemma exit_status_after_action (r : result unit) :
  exit_status (after_action r) = exit_status r.
Proof. by destruct r. Qed.


(** X10. A configuration that passes the checks hands over to
    [perform_action], with the settings read from the environment and the
    action of the configuration; the state of the run is the one the action
    leaves, and the exit status is 0 exactly when the action returns. *)
Theorem accepted_configuration (w : world) (env : gmap string string) :
  accepted env = true →
  ∃ lines,
    let out := perform_action w (settings_of env) (from_env env "PLUGIN_ACTION" "")
                 (set_stdout lines (initial env)) in
    run w env = (exit_status out.1, out.2)
    ∧ ((run w env).1 = 0 ↔ out.1 = Ret tt).
Proof.
  intros Hacc. unfold run.
  destruct (main_run w (initial env)) as [lines H]. simpl in H. rewrite Hacc in H.
  exists lines. cbv zeta. rewrite H.
  pose proof (exits_one_perform_action w (settings_of env)
                (from_env env "PLUGIN_ACTION" "") (set_stdout lines (initial env))) as Hexit.
  destruct (perform_action _ _ _ _) as [r st']. simpl in *.
  rewrite exit_status_after_action. split; [done|].
  destruct r as [[]|c|e]; simpl; [done | | done].
  rewrite (Hexit c eq_refl). done.
Qed.

(** X11. The exit status of a run is 0 or 1, whatever the environment and the
    outside: every [sys.exit] before the last has status 1, and an uncaught
    exception gives 1. *)
Theorem exit_status_0_or_1 (w : world) (env : gmap string string) :
  (run w env).1 = 0 ∨ (run w env).1 = 1.
Proof.
  unfold run. destruct (main_run w (initial env)) as [lines H]. simpl in H.
  destruct (accepted env).
  - rewrite H.
    pose proof (exits_one_perform_action w (settings_of env)
                  (from_env env "PLUGIN_ACTION" "") (set_stdout lines (initial env)))
      as Hexit.
    destruct (perform_action _ _ _ _) as [[[]|c|e] st']; simpl in *; auto.
  - destruct H as (fmt & args & ->). by right.
Qed.

Lemma sends_blind P st0 :
  blind_to_stdout (sends P st0) ∧ blind_to_clock (sends P st0)
  ∧ ∀ k, blind_to_setenv k (sends P st0).
Proof. repeat split; repeat intro; assumption. Qed.

Lemma keeps_targets_sends w g action targets st0 (P : request → Prop) :
  (∀ target req, target ∈ targets → addressed action target req → P req) →
  keeps (sends P st0) (for_each targets (act_on w g action)).
Proof.
  intros HP. destruct (sends_blind P st0) as (Ho & Hc & He).
  apply keeps_for_each_in. intros target Hin.
  apply (keeps_act_on (sends P st0) w g
           (λ url m, ∀ req, uri req = url → method req = m → P req)); try done.
  - intros url m tn Hok. by apply keeps_make_request_sends.
  - intros -> req Hu Hm. apply (HP target); [done|]. left. by repeat split.
  - intros ->. split.
    + intros req Hu Hm. apply (HP target); [done|]. right. split; [done|]. left. by split.
    + intros id req Hu Hm. apply (HP target); [done|]. right. split; [done|]. right.
      split; [done|]. by exists id.
Qed.

(** X12. Every request of a run goes to a target of the configuration: for the
    action [create] a [POST] to [<target>/api/v2/silences]; for the action
    [delete] a [GET] of [<target>/api/v2/silences] or a [DELETE] of
    [<target>/api/v2/silence/<id>]. *)
Theorem requests_addressed (w : world) (env : gmap string string) :
  Forall (to_configured_target env) (sent (run w env).2).
Proof.
  unfold run. destruct (main_run w (initial env)) as [lines H]. simpl in H.
  destruct (accepted env); cycle 1.
  { destruct H as (fmt & args & ->). simpl. constructor. }
  rewrite H. clear H. rewrite perform_action_unfold.
  change (environ (set_stdout lines (initial env))) with env.
  set (st0 := set_environ _ _).
  destruct (keeps_targets_sends w (settings_of env) (from_env env "PLUGIN_ACTION" "")
              (Str.split "," (from_env env "PLUGIN_URLS" "")) st0
              (to_configured_target env)) with st0 as [(reqs & Hs & HF) _].
  { intros target req Hin Ha. by exists target. }
  { exists []. by rewrite app_nil_r. }
  destruct (for_each _ _ st0) as [r st']. simpl in *. by rewrite Hs.
Qed.

(** ** What the run writes into the environment *)

Lemma keeps_targets_env_at w g action targets k x :
  k ∉ target_keys → keeps (env_at k x) (for_each targets (act_on w g action)).
Proof.
  intros Hk. destruct (env_at_blind k x) as (Ho & Hs & Hh & Hc).
  assert (∀ k', k' ∈ target_keys → blind_to_setenv k' (env_at k x)) as Hb.
  { intros k' Hin. apply env_at_setenv. by intros ->. }
  apply keeps_for_each. intros target.
  apply (keeps_act_on (env_at k x) w g (λ _ _, True)); try done.
  - intros url m tn _. apply keeps_make_request_frame; try done.
    all: apply Hb, list_elem_of_In; simpl; tauto.
  - apply Hb, list_elem_of_In; simpl; tauto.
  - apply Hb, list_elem_of_In; simpl; tauto.
Qed.

(** X13. A run assigns no variable of the environment besides six: the two
    derived durations, the comment and the author of the silence, and the
    two ends of its window. Every other variable ends the run as it started
    it. *)
Theorem environment_frame (w : world) (env : gmap string string) (k : string) :
  k ∉ written_keys → environ (run w env).2 !! k = env !! k.
Proof.
  intros Hk. unfold run. destruct (main_run w (initial env)) as [lines H]. simpl in H.
  destruct (accepted env); cycle 1.
  { by destruct H as (fmt & args & ->). }
  rewrite H. clear H. rewrite perform_action_unfold.
  change (environ (set_stdout lines (initial env))) with env.
  set (st0 := set_environ _ _).
  destruct (keeps_targets_env_at w (settings_of env) (from_env env "PLUGIN_ACTION" "")
              (Str.split "," (from_env env "PLUGIN_URLS" "")) k (env !! k)) with st0
    as [He _].
  { intros Hin. apply Hk. by do 2 right. }
  { subst st0. unfold env_at, published. state_simpl.
    rewrite !lookup_insert_ne; [done|..]; intros <-; apply Hk;
      apply list_elem_of_In; simpl; tauto. }
  destruct (for_each _ _ st0) as [r st']. exact He.
Qed.

(** X14. [perform_action] publishes the fingerprint of the build for the
    templates: however it ends, [SILENCE_COMMENT] holds the comment computed
    from the environment at the call and [SILENCE_CREATED_BY] the plugin's
    author; the comment computed from the environment it leaves is the same,
    which is what a later search looks for. *)
Theorem fingerprint_published (w : world) (g : globals) (action : string) (st : state) :
  let st' := (perform_action w g action st).2 in
  environ st' !! "SILENCE_COMMENT" = Some (silence_comment (environ st))
  ∧ environ st' !! "SILENCE_CREATED_BY" = Some silence_author
  ∧ silence_comment (environ st') = silence_comment (environ st).
Proof.
  cbv zeta. rewrite perform_action_unfold.
  set (st0 := set_environ _ _).
  assert (∀ k, k ∉ target_keys →
               environ (for_each (Str.split "," (from_env (environ st) "PLUGIN_URLS" ""))
                          (act_on w g action) st0).2 !! k = environ st0 !! k) as Hsame.
  { intros k Hk.
    by apply (keeps_targets_env_at w g action
                (Str.split "," (from_env (environ st) "PLUGIN_URLS" "")) k
                (environ st0 !! k)). }
  split; [|split].
  - rewrite Hsame by (rewrite list_elem_of_In; simpl; intuition discriminate).
    subst st0. unfold published. state_simpl.
    rewrite lookup_insert_ne by done. apply lookup_insert_eq.
  - rewrite Hsame by (rewrite list_elem_of_In; simpl; intuition discriminate).
    subst st0. unfold published. state_simpl. apply lookup_insert_eq.
  - unfold silence_comment, from_env.
    rewrite !Hsame by (rewrite list_elem_of_In; simpl; intuition discriminate).
    subst st0. unfold published. state_simpl. by rewrite !lookup_insert_ne.
Qed.

(** ** A configuration no request can be built from *)

Section AbortsActions.
Context (I : state → Prop) (w : world).
Hypothesis Hout : blind_to_stdout I.
Hypothesis Hclock : blind_to_clock I.
Hypothesis Hstarts : blind_to_setenv "SILENCE_STARTS_AT" I.
Hypothesis Hends : blind_to_setenv "SILENCE_ENDS_AT" I.
Hypothesis Hcomment : blind_to_setenv "SILENCE_COMMENT" I.
Hypothesis Hauthor : blind_to_setenv "SILENCE_CREATED_BY" I.
Hypothesis Hmake : ∀ g url m tn, aborts I (make_request w g url m tn).

Lemma create_silence_aborts g target : aborts I (create_silence w g target).
Proof.
  unfold create_silence. cbv zeta.
  apply aborts_bind_r; [by apply keeps_read_clock|]. intros now.
  apply aborts_bind_r; [apply keeps_lift|]. intros starts.
  apply aborts_bind_r; [by apply keeps_setenv|]. intros _.
  apply aborts_bind_r; [apply keeps_lift|]. intros ends.
  apply aborts_bind_r; [by apply keeps_setenv|]. intros _.
  apply aborts_bind_l, Hmake.
Qed.

Lemma delete_silences_aborts g target : aborts I (delete_silences w g target).
Proof.
  unfold delete_silences, find_silences. cbv zeta.
  apply aborts_bind_l.
  apply aborts_bind_r; [apply keeps_get_environ|]. intros env0.
  apply aborts_bind_r; [by apply keeps_load_required_matchers|]. intros rm.
  apply aborts_bind_r; [by apply keeps_print_msg|]. intros _.
  apply aborts_bind_l, Hmake.
Qed.

Lemma perform_action_aborts g action :
  action = "create" ∨ action = "delete" → aborts I (perform_action w g action).
Proof.
  intros Hact. unfold perform_action.
  apply aborts_bind_r; [apply keeps_get_environ|]. intros env0.
  apply aborts_bind_r; [by apply keeps_setenv|]. intros _.
  apply aborts_bind_r; [by apply keeps_setenv|]. intros _.
  apply aborts_bind_r; [apply keeps_get_environ|]. intros env1.
  pose proof (split_length "," (from_env env1 "PLUGIN_URLS" "")) as Hlen.
  destruct (Str.split "," (from_env env1 "PLUGIN_URLS" "")) as [|target targets];
    [done|].
  apply aborts_for_each. destruct Hact as [-> | ->].
  - apply aborts_bind_l, aborts_when_true, create_silence_aborts.
  - apply aborts_bind_r; [apply keeps_ret|]. intros _.
    apply aborts_when_true, delete_silences_aborts.
Qed.

Lemma main_aborts : aborts I (main w).
Proof.
  unfold main.
  apply aborts_bind_r; [apply keeps_get_environ|]. intros env0.
  apply aborts_bind_r; [keeps_tac|]. intros debug.
  apply aborts_bind_r; [keeps_tac|]. intros _.
  destruct (existsb (String.eqb (from_env env0 "PLUGIN_ACTION" "")) supported_actions)
    eqn:Hact; cycle 1.
  { apply aborts_bind_l, aborts_when_true.
    apply aborts_bind_r; [by apply keeps_print_msg|]. intros _. apply aborts_exit_1. }
  apply aborts_bind_r; [apply keeps_ret|]. intros _.
  apply aborts_bind_r; [keeps_tac|]. intros _.
  apply aborts_bind_r; [keeps_tac|]. intros _.
  apply aborts_bind_r; [keeps_tac|]. intros _.
  apply aborts_bind_r; [keeps_tac|]. intros _.
  apply aborts_bind_l, perform_action_aborts.
  simpl in Hact. rewrite orb_false_r in Hact.
  apply orb_true_iff in Hact as [H|H]; apply String.eqb_eq in H; auto.
Qed.

End AbortsActions.

Lemma request_keys_unwritten k : k ∈ request_keys → k ∉ written_keys.
Proof.
  rewrite !list_elem_of_In. simpl. intuition (subst; discriminate).
Qed.

Lemma unsent_reading_blind env :
  blind_to_stdout (unsent_reading env) ∧ blind_to_clock (unsent_reading env)
  ∧ ∀ k, k ∈ written_keys → blind_to_setenv k (unsent_reading env).
Proof.
  split; [by intros st o H|]. split; [by intros st n H|].
  intros k Hk st v [Hs He]. split; [done|]. intros k' Hk'. simpl.
  rewrite lookup_insert_ne; [by apply He|].
  intros ->. by apply (request_keys_unwritten k').
Qed.

Lemma make_request_unready w env g url m tn :
  request_ready env = false → aborts (unsent_reading env) (make_request w g url m tn).
Proof.
  intros Hun st [Hs He].
  assert (request_ready (environ st) = false) as Hun'.
  { by rewrite (request_ready_ext env (environ st) He). }
  pose proof (exits_one_make_request w g url m tn st) as Hexit.
  assert (∀ k, k ∈ request_keys →
               environ (make_request w g url m tn st).2 !! k = env !! k) as He'.
  { intros k Hk. destruct (env_at_blind k (env !! k)) as (H1 & H2 & H3 & _).
    apply (keeps_make_request_frame (env_at k (env !! k)) w g url m tn H1 H2 H3).
    - apply env_at_setenv. intros <-. by apply (request_keys_unwritten _ Hk);
        apply list_elem_of_In; simpl; tauto.
    - apply env_at_setenv. intros <-. by apply (request_keys_unwritten _ Hk);
        apply list_elem_of_In; simpl; tauto.
    - by apply He. }
  destruct (make_request_cases w g url m tn st) as (r & st' & E & H).
  rewrite E in *. simpl in *.
  destruct H as [(Hs' & _ & Hr & _)|(custom & t & p & st3 & Hready & _)]; [|congruence].
  split; [split; [congruence | done]|]. split; [|done].
  intros ->. by specialize (Hexit 0 eq_refl).
Qed.

Lemma aborted_run w env (I : state → Prop) :
  aborts I (main w) → I (initial env) →
  (run w env).1 = 1 ∧ I (run w env).2.
Proof.
  intros Hab HI. destruct (Hab (initial env) HI) as (HI' & Hexit & Hret).
  pose proof (main_run w (initial env)) as [lines Hrun].
  unfold run. destruct (main w (initial env)) as [[[]|c|e] st'] eqn:E; simpl in *.
  - by destruct (Hret tt).
  - split; [|done].
    destruct (accepted env).
    + pose proof (exits_one_perform_action w (settings_of env)
                    (from_env env "PLUGIN_ACTION" "")
                    (set_stdout lines (initial env))) as H1.
      destruct (perform_action _ _ _ _) as [[[]|c'|e'] st'']; simpl in *.
      * injection Hrun as Hc _. by subst c.
      * injection Hrun as Hc _. subst c. by apply H1.
      * done.
    + destruct Hrun as (fmt & args & [= <- _]). done.
  - done.
Qed.

(** X15. When the time stamps of the build that are set are not integers, or
    the header list or the timeout is malformed, no request can be built:
    the run ends with status 1 and nothing is sent. *)
Theorem unready_run_aborts (w : world) (env : gmap string string) :
  request_ready env = false →
  (run w env).1 = 1 ∧ sent (run w env).2 = [].
Proof.
  intros Hun. destruct (unsent_reading_blind env) as (Ho & Hc & Hw).
  destruct (aborted_run w env (unsent_reading env)) as [H1 [H2 _]]; [|done|done].
  apply main_aborts; try done.
  1-4: apply Hw, list_elem_of_In; simpl; tauto.
  intros g url m tn. by apply make_request_unready.
Qed.

(** ** The settings of a request *)

Lemma skip_verify_derived env : skip_verify (derived_environ env) = skip_verify env.
Proof.
  unfold skip_verify. by rewrite derived_environ_in_env, derived_environ_from_env.
Qed.

Lemma with_credentials_derived env :
  with_credentials (derived_environ env) = with_credentials env.
Proof. unfold with_credentials. by rewrite !derived_environ_in_env. Qed.

Lemma follow_redirects_derived env :
  follow_redirects_setting (derived_environ env) = follow_redirects_setting env.
Proof.
  unfold follow_redirects_setting.
  by rewrite derived_environ_in_env, derived_environ_from_env.
Qed.

Lemma skip_verify_spec env :
  skip_verify env = true ↔ Str.lower (from_env env "PLUGIN_SKIP_VERIFY" "") = "true".
Proof.
  unfold skip_verify, in_env. rewrite andb_true_iff, negb_true_iff, String.eqb_eq.
  split; [by intros [_ H]|]. intros H. split; [|done].
  apply String.eqb_neq. intros E. by rewrite E in H.
Qed.

Lemma follow_redirects_setting_spec env :
  follow_redirects_setting env = true
  ↔ in_env env "PLUGIN_FOLLOW_REDIRECTS" = false
    ∨ Str.lower (from_env env "PLUGIN_FOLLOW_REDIRECTS" "") = "true".
Proof.
  unfold follow_redirects_setting.
  destruct (in_env env "PLUGIN_FOLLOW_REDIRECTS"); rewrite ?String.eqb_eq.
  - split; [by right | by intros [?|?]].
  - split; [by left | done].
Qed.

(** X16. The request a call sends carries the settings of the environment at
    the call: the timeout is the integer of [PLUGIN_TIMEOUT], 60 when none
    is set; the certificate check is off exactly when [PLUGIN_SKIP_VERIFY]
    is [true] in any case of the letters; the headers are the global ones
    under those parsed from [PLUGIN_HEADERS]. Without both credentials the
    request carries none and follows redirects whatever
    [PLUGIN_FOLLOW_REDIRECTS] says; with both it carries them and follows
    redirects unless [PLUGIN_FOLLOW_REDIRECTS] is set to something else than
    [true]. *)
Theorem request_settings (w : world) (g : globals) (url m : string)
    (tn : option string) (st : state) (req : request) :
  sent (make_request w g url m tn st).2 = sent st ++ [req] →
  let env := environ st in
  let both := in_env env "PLUGIN_USERNAME" && in_env env "PLUGIN_PASSWORD" in
  uri req = url ∧ method req = m
  ∧ (in_env env "PLUGIN_TIMEOUT" = false → timeout req = 60)
  ∧ (in_env env "PLUGIN_TIMEOUT" = true →
     py_int (from_env env "PLUGIN_TIMEOUT" "") = Some (timeout req))
  ∧ (disable_ssl_certificate_validation req = true
     ↔ Str.lower (from_env env "PLUGIN_SKIP_VERIFY" "") = "true")
  ∧ (both = false → credentials req = None ∧ follow_redirects req = true)
  ∧ (both = true →
     credentials req
     = Some (from_env env "PLUGIN_USERNAME" "", from_env env "PLUGIN_PASSWORD" "")
     ∧ (follow_redirects req = true
        ↔ in_env env "PLUGIN_FOLLOW_REDIRECTS" = false
          ∨ Str.lower (from_env env "PLUGIN_FOLLOW_REDIRECTS" "") = "true"))
  ∧ (in_env env "PLUGIN_HEADERS" = false → headers req = request_headers st)
  ∧ (in_env env "PLUGIN_HEADERS" = true →
     ∃ custom,
       parse_headers (Str.split "," (from_env env "PLUGIN_HEADERS" "")) ∅ = Ok custom
       ∧ headers req = custom ∪ request_headers st).
Proof.
  intros Hsent env both.
  destruct (make_request_cases w g url m tn st) as (r & st' & E & H).
  rewrite E in Hsent. simpl in Hsent.
  destruct H as [(Hs & _)|(custom & t & p & st3 & _ & Hc & Ht & _ & _ & Hs & _)].
  { rewrite Hs in Hsent. apply (f_equal length) in Hsent.
    rewrite length_app in Hsent. simpl in Hsent. lia. }
  rewrite Hs in Hsent. apply app_inv_head in Hsent. injection Hsent as <-.
  cbn [uri method timeout disable_ssl_certificate_validation credentials
       follow_redirects headers build_request].
  fold env in Hc, Ht |- *.
  rewrite skip_verify_derived, with_credentials_derived, follow_redirects_derived.
  unfold request_timeout in Ht. unfold custom_headers in Hc.
  change (with_credentials env) with both.
  split; [done|]. split; [done|]. split.
  { intros Hno. rewrite Hno in Ht. by injection Ht. }
  split.
  { intros Hin. rewrite Hin in Ht.
    destruct (py_int (from_env env "PLUGIN_TIMEOUT" "")) as [n|]; [|done].
    by injection Ht as ->. }
  split; [apply skip_verify_spec|]. split; [by intros ->|]. split.
  { intros Hw. rewrite Hw. split; [|apply follow_redirects_setting_spec].
    unfold auth_username, auth_password.
    rewrite with_credentials_derived. change (with_credentials env) with both.
    by rewrite Hw, !derived_environ_from_env. }
  split.
  - intros Hno. rewrite Hno in Hc. injection Hc as <-. by rewrite (left_id_L ∅ (∪)).
  - intros Hin. rewrite Hin in Hc. by exists custom.
Qed.

(** ** The payload of a creation *)

Lemma render_custom_raises w g tpl st :
  render_custom_template w g tpl st
  = (Raise (match from_string w tpl with
            | Some e => e
            | None => AttributeError "'Template' object has no attribute 'filters'"
            end), st).
Proof.
  unfold render_custom_template, bind. by destruct (from_string w tpl).
Qed.

Lemma render_payload_custom w g st :
  in_env (environ st) "PLUGIN_CUSTOM_TEMPLATE" = true →
  render_payload w g (Some "create") st
  = (Exit 1,
     set_stdout
       (stdout st
        ++ [Msg "ERROR" ("Template rendering failed with an error:" +:+ Str.nl +:+ "{0}")
              [AExn (match from_string w (from_env (environ st) "PLUGIN_CUSTOM_TEMPLATE" "")
                     with
                     | Some e => e
                     | None =>
                         AttributeError "'Template' object has no attribute 'filters'"
                     end)]]) st).
Proof.
  intros Hin. unfold render_payload. rewrite bool_decide_eq_true_2 by done.
  unfold try_except. erewrite bind_ret; [|reflexivity]. rewrite Hin.
  by rewrite (bind_raise _ _ _ _ _ (render_custom_raises w g _ st)).
Qed.

Lemma render_template_run w g name st text :
  is_file w (from_env (environ st) "TEMPLATES_PATH" "/templates/" +:+ name +:+ ".j2")
  = true →
  render_file w (from_env (environ st) "TEMPLATES_PATH" "/templates/") (name +:+ ".j2")
    (environ st) = Ok text →
  Str.contains deploy_target_tag text = false →
  render_template w g name st = (Ret text, st).
Proof.
  intros Hf Hr Hc. unfold render_template.
  erewrite bind_ret; [|reflexivity]. cbv zeta. rewrite Hf. cbn [negb].
  erewrite bind_ret; [|reflexivity]. rewrite Hr.
  erewrite bind_ret; [|reflexivity]. unfold replace_macroses. by rewrite Hc.
Qed.

Lemma unsent_custom_blind :
  blind_to_stdout unsent_custom ∧ blind_to_clock unsent_custom
  ∧ ∀ k, k ∈ written_keys → blind_to_setenv k unsent_custom.
Proof.
  split; [by intros st o H|]. split; [by intros st n H|].
  intros k Hk st v [Hs He]. split; [done|]. simpl.
  rewrite in_env_insert_ne; [done|]. intros ->.
  apply list_elem_of_In in Hk. simpl in Hk. intuition discriminate.
Qed.

Lemma make_request_custom_aborts w g url m :
  aborts unsent_custom (make_request w g url m (Some "create")).
Proof.
  intros st [Hs Hin].
  pose proof (exits_one_make_request w g url m (Some "create") st) as Hexit.
  assert (in_env (environ (make_request w g url m (Some "create") st).2)
            "PLUGIN_CUSTOM_TEMPLATE" = in_env (environ st) "PLUGIN_CUSTOM_TEMPLATE") as He.
  { apply in_env_ext.
    destruct (env_at_blind "PLUGIN_CUSTOM_TEMPLATE"
                (environ st !! "PLUGIN_CUSTOM_TEMPLATE")) as (H1 & H2 & H3 & _).
    by apply (keeps_make_request_frame _ w g url m (Some "create") H1 H2 H3);
      [apply env_at_setenv | apply env_at_setenv |]. }
  destruct (make_request_cases w g url m (Some "create") st) as (r & st' & E & H).
  rewrite E in *. simpl in *.
  destruct H as [(Hs' & _ & Hr & _)|(custom & t & p & st3 & _ & _ & _ & He3 & Hp & _)].
  - split; [split; congruence|]. split; [|done].
    intros ->. by specialize (Hexit 0 eq_refl).
  - rewrite render_payload_custom in Hp; [done|].
    by rewrite He3, derived_environ_in_env.
Qed.

Lemma create_silence_custom_aborts w g target :
  aborts unsent_custom (create_silence w g target).
Proof.
  destruct unsent_custom_blind as (Ho & Hc & Hw).
  unfold create_silence. cbv zeta.
  apply aborts_bind_r; [by apply keeps_read_clock|]. intros now.
  apply aborts_bind_r; [apply keeps_lift|]. intros starts.
  apply aborts_bind_r; [apply keeps_setenv, Hw, list_elem_of_In; simpl; tauto|]. intros _.
  apply aborts_bind_r; [apply keeps_lift|]. intros ends.
  apply aborts_bind_r; [apply keeps_setenv, Hw, list_elem_of_In; simpl; tauto|]. intros _.
  apply aborts_bind_l, make_request_custom_aborts.
Qed.

Lemma custom_template_run w env :
  accepted env = true →
  from_env env "PLUGIN_ACTION" "" = "create" →
  in_env env "PLUGIN_CUSTOM_TEMPLATE" = true →
  (run w env).1 = 1 ∧ sent (run w env).2 = [].
Proof.
  intros Hacc Hact Hin. unfold run.
  destruct (main_run w (initial env)) as [lines H]. simpl in H.
  rewrite Hacc, Hact in H. rewrite H. clear H.
  pose proof (exits_one_perform_action w (settings_of env) "create"
                (set_stdout lines (initial env))) as Hexit.
  rewrite perform_action_unfold in *.
  change (environ (set_stdout lines (initial env))) with env in *.
  set (st0 := set_environ _ _) in *.
  pose proof (split_length "," (from_env env "PLUGIN_URLS" "")) as Hlen.
  destruct (Str.split "," (from_env env "PLUGIN_URLS" "")) as [|target targets];
    [done|].
  assert (aborts unsent_custom
            (for_each (target :: targets) (act_on w (settings_of env) "create"))) as Hab.
  { apply aborts_for_each. unfold act_on.
    apply aborts_bind_l, aborts_when_true, create_silence_custom_aborts. }
  destruct (Hab st0) as ([Hs _] & _ & Hret).
  { subst st0. unfold published. split; [done|]. state_simpl.
    by rewrite !in_env_insert_ne. }
  destruct (for_each _ _ st0) as [[[]|c|e] st']; simpl in *.
  - by destruct (Hret tt).
  - by rewrite (Hexit c eq_refl).
  - done.
Qed.

(** X17. The body of a request: the empty dictionary for a search and a
    deletion, and for a creation when neither a custom template nor a
    template set is configured. A custom template, when one is set, never
    gives a body, whatever the engine makes of it and whatever the template
    set: the rendering logs an error that carries the exception (the
    [AttributeError] of line 195 when the template compiles) and ends the
    process with status 1. Without a custom template the body is the text
    the engine makes of the file [create.j2] of the template set, when the
    text holds no deploy-target token. So a run that creates with a custom
    template set ends with status 1 and sends nothing. *)
Theorem payload_source (w : world) (g : globals) (env : gmap string string) :
  (∀ tn, tn ≠ Some "create" → renders w g tn env EmptyDict)
  ∧ (in_env env "PLUGIN_CUSTOM_TEMPLATE" = false →
     in_env env "PLUGIN_TEMPLATE" = false →
     renders w g (Some "create") env EmptyDict)
  ∧ (in_env env "PLUGIN_CUSTOM_TEMPLATE" = true →
     ∀ st, environ st = env →
       ∃ fmt e,
         render_payload w g (Some "create") st
         = (Exit 1, set_stdout (stdout st ++ [Msg "ERROR" fmt [AExn e]]) st)
         ∧ (from_string w (from_env env "PLUGIN_CUSTOM_TEMPLATE" "") = None →
            e = AttributeError "'Template' object has no attribute 'filters'"))
  ∧ (∀ text,
       in_env env "PLUGIN_CUSTOM_TEMPLATE" = false →
       in_env env "PLUGIN_TEMPLATE" = true →
       let dir := from_env env "TEMPLATES_PATH" "/templates/" in
       let name := from_env env "PLUGIN_TEMPLATE" "default" +:+ "/create" in
       is_file w (dir +:+ name +:+ ".j2") = true →
       render_file w dir (name +:+ ".j2") env = Ok text →
       Str.contains deploy_target_tag text = false →
       renders w g (Some "create") env (Payload text))
  ∧ (accepted env = true →
     from_env env "PLUGIN_ACTION" "" = "create" →
     in_env env "PLUGIN_CUSTOM_TEMPLATE" = true →
     (run w env).1 = 1 ∧ sent (run w env).2 = []).
Proof.
  split; [intros tn; apply renders_not_create|].
  split; [apply renders_no_template|]. split; [|split; [|apply custom_template_run]].
  - intros Hin st <-. rewrite (render_payload_custom w g st Hin).
    eexists _, _. split; [reflexivity|]. by intros ->.
  - intros text Hno Hin dir name Hf Hr Hc st <-. unfold render_payload.
    rewrite bool_decide_eq_true_2 by done. unfold try_except.
    erewrite bind_ret; [|reflexivity]. rewrite Hno, Hin. cbv zeta.
    by rewrite (bind_ret _ _ _ _ _ (render_template_run w g _ st text Hf Hr Hc)).
Qed.

Lemma render_template_missing w g name st :
  is_file w (from_env (environ st) "TEMPLATES_PATH" "/templates/" +:+ name +:+ ".j2")
  = false →
  ∃ fmt args,
    render_template w g name st
    = (Exit 1, set_stdout (stdout st ++ [Msg "ERROR" fmt args]) st).
Proof.
  intros Hf. unfold render_template.
  erewrite bind_ret; [|reflexivity]. cbv zeta. rewrite Hf. cbn [negb].
  by eexists _, _.
Qed.

Lemma render_template_raise w g name st e :
  is_file w (from_env (environ st) "TEMPLATES_PATH" "/templates/" +:+ name +:+ ".j2")
  = true →
  render_file w (from_env (environ st) "TEMPLATES_PATH" "/templates/") (name +:+ ".j2")
    (environ st) = Raised e →
  render_template w g name st = (Raise e, st).
Proof.
  intros Hf Hr. unfold render_template.
  erewrite bind_ret; [|reflexivity]. cbv zeta. rewrite Hf. cbn [negb].
  erewrite bind_ret; [|reflexivity]. by rewrite Hr.
Qed.

Lemma render_payload_fails w g st :
  template_fails w (environ st) →
  ∃ fmt args,
    render_payload w g (Some "create") st
    = (Exit 1, set_stdout (stdout st ++ [Msg "ERROR" fmt args]) st).
Proof.
  unfold template_fails, render_payload. rewrite bool_decide_eq_true_2 by done.
  unfold try_except. erewrite bind_ret; [|reflexivity].
  destruct (in_env (environ st) "PLUGIN_CUSTOM_TEMPLATE").
  - intros _.
    rewrite (bind_raise _ _ _ _ _ (render_custom_raises w g _ st)).
    by eexists _, _.
  - destruct (in_env (environ st) "PLUGIN_TEMPLATE"); [|done]. cbv zeta.
    intros [Hf|[e He]].
    + destruct (render_template_missing w g _ st Hf) as (fmt & args & E).
      rewrite (bind_exit _ _ _ _ _ E). by eexists _, _.
    + destruct (is_file w (from_env (environ st) "TEMPLATES_PATH" "/templates/"
                           +:+ (from_env (environ st) "PLUGIN_TEMPLATE" "default"
                                +:+ "/create") +:+ ".j2")) eqn:Hf.
      * rewrite (bind_raise _ _ _ _ _ (render_template_raise w g _ st e Hf He)).
        by eexists _, _.
      * destruct (render_template_missing w g _ st Hf) as (fmt & args & E).
        rewrite (bind_exit _ _ _ _ _ E). by eexists _, _.
Qed.

(** The call up to the rendering, when the time stamps and the header
    list are well formed. *)
Lemma make_request_prepared w g url m tn st custom :
  duration_ok "DRONE_BUILD_STARTED" "DRONE_BUILD_FINISHED" (environ st) = true →
  duration_ok "DRONE_BUILD_CREATED" "DRONE_BUILD_STARTED" (environ st) = true →
  custom_headers (environ st) = Ok custom →
  make_request w g url m tn st
  = (let! request_payload := render_payload w g tn in
     let! env := get_environ in
     let! timeout := lift (request_timeout env) in
     let! hdrs := get_request_headers in
     let req := build_request env hdrs url m request_payload timeout in
     let! _ := when (debug_mode g) (debug_request env req [200]) in
     try_except (exchange w g req [200])
       (λ e, let! _ := report_failure url timeout e in ret None))
      (prepared custom st).
Proof.
  intros Hd1 Hd2 Hc. unfold make_request. cbv zeta.
  rewrite (bind_ret _ _ _ _ _ (derive_duration_run _ _ _ _ Hd1)).
  erewrite bind_ret; cycle 1.
  { apply derive_duration_run. simpl. by rewrite duration_ok_with_duration. }
  erewrite bind_ret; cycle 1.
  { apply merge_custom_headers_run. simpl.
    fold (derived_environ (environ st)). by rewrite custom_headers_derived. }
  reflexivity.
Qed.

Lemma request_ready_parts env :
  request_ready env = true →
  duration_ok "DRONE_BUILD_STARTED" "DRONE_BUILD_FINISHED" env = true
  ∧ duration_ok "DRONE_BUILD_CREATED" "DRONE_BUILD_STARTED" env = true
  ∧ ∃ custom t, custom_headers env = Ok custom ∧ request_timeout env = Ok t.
Proof.
  intros H. pose proof (request_ready_inv env H) as Hinv.
  unfold request_ready in H. apply andb_true_iff in H as [H _].
  apply andb_true_iff in H as [H _]. apply andb_true_iff in H as [H1 H2].
  by repeat split.
Qed.

(** X18. A creation whose template does not render (a custom template is
    set, or the engine raises on the file of the template set, or that file
    is missing) logs an error and ends the process with status 1 before the
    exchange: nothing is sent. *)
Theorem template_failure_fatal (w : world) (g : globals) (url m : string) (st : state) :
  request_ready (environ st) = true →
  template_fails w (derived_environ (environ st)) →
  ∃ st',
    make_request w g url m (Some "create") st = (Exit 1, st')
    ∧ sent st' = sent st
    ∧ logged "ERROR" st st'.
Proof.
  intros Hready Hfail.
  destruct (request_ready_parts _ Hready) as (Hd1 & Hd2 & custom & t & Hc & _).
  rewrite (make_request_prepared w g url m _ st custom Hd1 Hd2 Hc).
  destruct (render_payload_fails w g (prepared custom st) Hfail) as (fmt & args & E).
  rewrite (bind_exit _ _ _ _ _ E). eexists. split; [reflexivity|].
  split; [done|]. by exists [], fmt, args.
Qed.

(** ** Creating, step by step *)

Lemma stamped_keys_not_read k :
  k = "SILENCE_STARTS_AT" ∨ k = "SILENCE_ENDS_AT" → k ∉ request_keys.
Proof. intros H. apply silence_keys_not_read. tauto. Qed.

Lemma request_ready_stamped w now ends env :
  request_ready (stamped w now ends env) = request_ready env.
Proof.
  unfold stamped. rewrite !request_ready_insert; [done|..];
    apply stamped_keys_not_read; tauto.
Qed.


(** One creation, up to the answer. *)
Lemma create_silence_run w g target st ends p :
  let now := utcnow w (clock_reads st) in
  request_ready (environ st) = true →
  time_in_rfc3339 (isoformat w) now (Some (silence_duration g)) = Ok ends →
  renders w g (Some "create") (derived_environ (stamped w now ends (environ st))) p →
  ∃ req st1,
    uri req = create_url target ∧ method req = "POST" ∧ req_body req = p
    ∧ sent st1 = sent st ++ [req]
    ∧ environ st1 = derived_environ (stamped w now ends (environ st))
    ∧ clock_reads st1 = S (clock_reads st)
    ∧ logged (answer_level (http_request w (sent st) req)) st st1
    ∧ create_silence w g target st
      = match answer_result (http_request w (sent st) req) with
        | Ret (Some (r, content)) => read_creation w r content st1
        | Ret None =>
            (Raise (TypeError "cannot unpack non-iterable NoneType object"), st1)
        | Exit c => (Exit c, st1)
        | Raise e => (Raise e, st1)
        end.
Proof.
  intros now Hready Hends Hp. unfold create_silence. cbv zeta.
  erewrite bind_ret; [|reflexivity].
  erewrite bind_ret; [|reflexivity].
  erewrite bind_ret; [|reflexivity].
  state_simpl. fold now. rewrite Hends.
  erewrite bind_ret; [|reflexivity].
  erewrite bind_ret; [|reflexivity].
  state_simpl. fold (stamped w now ends (environ st)).
  match goal with |- ∃ _ _, _ ∧ _ ∧ _ ∧ _ ∧ _ ∧ _ ∧ _ ∧ bind _ _ ?s = _ =>
    set (st2 := s) end.
  assert (request_ready (environ st2) = true) as Hr2.
  { subst st2. state_simpl. by rewrite request_ready_stamped. }
  destruct (request_ready_inv _ Hr2) as (custom & t & Hc & Ht).
  destruct (make_request_run w g (create_url target) "POST" (Some "create") st2
              custom t p Hr2 Hc Ht Hp) as (st3 & E & He & _ & Hs & Hk & Hl).
  exists (build_request (derived_environ (environ st2)) (custom ∪ request_headers st2)
            (create_url target) "POST" p t), st3.
  split; [reflexivity|]. split; [reflexivity|]. split; [reflexivity|].
  split; [exact Hs|]. split; [exact He|]. split; [exact Hk|].
  split; [eapply logged_after; [|exact Hl]; subst st2; state_simpl; by rewrite app_nil_r|].
  unfold create_url in E. unfold bind at 1. rewrite E.
  change (sent st2) with (sent st).
  destruct (answer_result _) as [[[r c]|]|c|e]; try done.
Qed.


Lemma read_creation_raises w r content st :
  (resp_headers r !! "content-type" = None →
   read_creation w r content st = (Raise (KeyError "content-type"), st))
  ∧ (∀ e,
       resp_headers r !! "content-type" = Some "application/json" →
       py_getitem (decoded w content) "silenceID" = Raised e →
       ∃ lines,
         read_creation w r content st = (Raise e, set_stdout (stdout st ++ lines) st)
         ∧ (json_loads w content = None →
            e = TypeError "subscript" ∧ ∃ fmt args, lines = [Msg "ERROR" fmt args])).
Proof.
  unfold read_creation, content_type. split.
  - by intros ->.
  - intros e Hct Hid. rewrite Hct.
    erewrite bind_ret; [|reflexivity]. rewrite String.eqb_refl. cbn [negb].
    destruct (decode_and_parse_json_run w content st) as (l1 & E1 & Hl1).
    rewrite (bind_ret _ _ _ _ _ E1), Hid. exists l1. split; [done|].
    intros Hnone. split; [|by apply Hl1].
    unfold decoded in Hid. rewrite Hnone in Hid. simpl in Hid. congruence.
Qed.

Lemma keeps_read_creation_sent w r content l :
  keeps (λ s, sent s = l) (read_creation w r content).
Proof.
  assert (blind_to_stdout (λ s, sent s = l)) by (by intros st o H).
  unfold read_creation, decode_and_parse_json. keeps_tac.
Qed.


(** X20. A creation sends its one [POST] and then fails in four ways: an
    exception of the exchange is logged and the unpacking of the missing
    result raises [TypeError]; another status than 200 is logged and ends
    the process with status 1; a response without a content type raises
    [KeyError]; a JSON body without [silenceID] raises, and a body that does
    not decode is logged and raises [TypeError]. *)
Theorem create_failures (w : world) (g : globals) (target : string) (st : state)
    (ends : string) (p : body) (a : http_result) :
  let now := utcnow w (clock_reads st) in
  request_ready (environ st) = true →
  time_in_rfc3339 (isoformat w) now (Some (silence_duration g)) = Ok ends →
  renders w g (Some "create") (derived_environ (stamped w now ends (environ st))) p →
  (∀ h req, method req = "POST" → uri req = create_url target →
            http_request w h req = a) →
  let out := create_silence w g target st in
  (∃ req, sent out.2 = sent st ++ [req] ∧ method req = "POST"
          ∧ uri req = create_url target)
  ∧ (∀ e, a = Failed e →
       out.1 = Raise (TypeError "cannot unpack non-iterable NoneType object")
       ∧ logged "ERROR" st out.2)
  ∧ (∀ r content, a = Responded r content → status r ≠ 200 →
       out.1 = Exit 1 ∧ logged "ERROR" st out.2)
  ∧ (∀ r content, a = Responded r content → status r = 200 →
       resp_headers r !! "content-type" = None →
       out.1 = Raise (KeyError "content-type"))
  ∧ (∀ r content e, a = Responded r content → status r = 200 →
       resp_headers r !! "content-type" = Some "application/json" →
       py_getitem (decoded w content) "silenceID" = Raised e →
       out.1 = Raise e
       ∧ (json_loads w content = None →
          e = TypeError "subscript" ∧ ∃ fmt args, Msg "ERROR" fmt args ∈ stdout out.2)).
Proof.
  intros now Hready Hends Hp Hpost out.
  destruct (create_silence_run w g target st ends p Hready Hends Hp)
    as (req & st1 & Hu & Hm & Hb & Hs & He & Hk & Hl & E).
  rewrite (Hpost _ _ Hm Hu) in E, Hl. subst out. rewrite E.
  destruct a as [r content|e]; simpl in *.
  - destruct (bool_decide (status r = 200)) eqn:E200.
    + apply bool_decide_eq_true in E200.
      destruct (read_creation_raises w r content st1) as [Hnone Hjson].
      assert (sent (read_creation w r content st1).2 = sent st ++ [req]) as Hsent.
      { destruct (keeps_read_creation_sent w r content (sent st1) st1 eq_refl) as [-> _].
        done. }
      split; [by exists req|]. split; [done|].
      split; [intros r' c' [= <- <-] Hne; done|].
      split; [intros r' c' [= <- <-] _ Hct; by rewrite (Hnone Hct)|].
      intros r' c' e [= <- <-] _ Hct Hid.
      destruct (Hjson e Hct Hid) as (lines & -> & Hl'). split; [done|].
      intros Hn. destruct (Hl' Hn) as (-> & fmt & args & ->). split; [done|].
      exists fmt, args. simpl. apply elem_of_app. right. left.
    + apply bool_decide_eq_false in E200. simpl.
      split; [by exists req|]. split; [done|].
      split; [by intros r' c' [= <- <-] _|].
      split; intros; congruence.
  - split; [by exists req|].
    split; [by intros e' _|]. repeat split; intros; congruence.
Qed.

(** ** Creation over the targets *)






(** ** The search, where it raises *)

Lemma read_silences_no_content_type w g rm author comment r content st :
  resp_headers r !! "content-type" = None →
  read_silences w g rm author comment r content st = (Raise (KeyError "content-type"), st).
Proof. intros H. unfold read_silences, content_type. by rewrite H. Qed.

(** X23. On the delete path an exception of the exchange of the search is
    logged, and the unpacking of the missing result raises [TypeError]; a
    response with status 200 and no content type raises [KeyError]. Either
    way the [GET] is the only request: no [DELETE] follows. *)
Theorem search_failures_raise (w : world) (g : globals) (target : string) (st : state)
    (rm : option json) (a : http_result) :
  request_ready (environ st) = true →
  load_required_matchers w g st = (Ret rm, st) →
  (∀ h req, method req = "GET" → uri req = search_url target →
            http_request w h req = a) →
  (∀ e, a = Failed e →
     ∃ st' req,
       delete_silences w g target st
       = (Raise (TypeError "cannot unpack non-iterable NoneType object"), st')
       ∧ sent st' = sent st ++ [req] ∧ method req = "GET" ∧ uri req = search_url target
       ∧ logged "ERROR" st st')
  ∧ (∀ r content, a = Responded r content → status r = 200 →
       resp_headers r !! "content-type" = None →
       ∃ st' req,
         delete_silences w g target st = (Raise (KeyError "content-type"), st')
         ∧ sent st' = sent st ++ [req] ∧ method req = "GET"
         ∧ uri req = search_url target).
Proof.
  intros Hready Hload Hget.
  destruct (find_silences_run w g target st rm Hready Hload)
    as (req & st1 & Hu & Hm & Hs & He & Hl & E).
  rewrite (Hget _ _ Hm Hu) in E, Hl. unfold delete_silences. split.
  - intros e ->. simpl in E, Hl. rewrite (bind_raise _ _ _ _ _ E). by exists st1, req.
  - intros r content -> H200 Hct. simpl in E.
    rewrite bool_decide_eq_true_2 in E by done.
    rewrite read_silences_no_content_type in E by done.
    rewrite (bind_raise _ _ _ _ _ E). by exists st1, req.
Qed.

(** ** The matcher artifact of a strict search *)

(** X24. A strict search needs the matcher artifact of the template set before
    it sends anything: when the file is missing an error is logged and the
    process ends with status 1; when the engine raises, or when the rendered
    text in braces does not decode, the search raises and the state is
    untouched; otherwise the decoded value is the required matcher set. *)
Theorem strict_search_artifact (w : world) (g : globals) (base : string) (st : state) :
  strict_match g = true →
  let dir := from_env (environ st) "TEMPLATES_PATH" "/templates/" in
  let name := from_env (environ st) "PLUGIN_TEMPLATE" "default" +:+ "/_matchers" in
  (is_file w (dir +:+ name +:+ ".j2") = false →
   ∃ st', find_silences w g base st = (Exit 1, st')
          ∧ sent st' = sent st ∧ logged "ERROR" st st')
  ∧ (∀ e, is_file w (dir +:+ name +:+ ".j2") = true →
       render_file w dir (name +:+ ".j2") (environ st) = Raised e →
       find_silences w g base st = (Raise e, st))
  ∧ (∀ text,
       is_file w (dir +:+ name +:+ ".j2") = true →
       render_file w dir (name +:+ ".j2") (environ st) = Ok text →
       Str.contains deploy_target_tag text = false →
       match json_loads w ("{" +:+ text +:+ "}") with
       | Some rm => load_required_matchers w g st = (Ret (Some rm), st)
       | None =>
           find_silences w g base st = (Raise (ValueError ("{" +:+ text +:+ "}")), st)
       end).
Proof.
  intros Hstrict dir name. unfold find_silences, load_required_matchers. cbv zeta.
  rewrite Hstrict. split; [|split].
  - intros Hf. erewrite bind_ret; [|reflexivity].
    destruct (render_template_missing w g name st Hf) as (fmt & args & E).
    erewrite bind_exit; cycle 1.
    { erewrite bind_ret; [|reflexivity]. by rewrite (bind_exit _ _ _ _ _ E). }
    eexists. split; [reflexivity|]. split; [done|]. by exists [], fmt, args.
  - intros e Hf Hr. erewrite bind_ret; [|reflexivity].
    erewrite bind_raise; [reflexivity|].
    erewrite bind_ret; [|reflexivity].
    by rewrite (bind_raise _ _ _ _ _ (render_template_raise w g name st e Hf Hr)).
  - intros text Hf Hr Hc.
    pose proof (render_template_run w g name st text Hf Hr Hc) as E.
    destruct (json_loads w ("{" +:+ text +:+ "}")) as [rm|] eqn:Hj.
    + erewrite bind_ret; [|reflexivity]. rewrite (bind_ret _ _ _ _ _ E). by rewrite Hj.
    + erewrite bind_ret; [|reflexivity].
      erewrite bind_raise; [reflexivity|].
      erewrite bind_ret; [|reflexivity]. rewrite (bind_ret _ _ _ _ _ E). by rewrite Hj.
Qed.

(** ** The deletions after a search *)

Lemma delete_each_requests w g target ids :
  ∀ st,
    request_ready (environ st) = true →
    (∀ h req, method req = "DELETE" → uri req ∈ map (delete_url target) ids →
              tolerated (http_request w h req)) →
    ∃ st' reqs,
      delete_each w g target ids st = (Ret tt, st')
      ∧ sent st' = sent st ++ reqs
      ∧ map (λ r, (method r, uri r)) reqs = map (λ id, ("DELETE", delete_url target id)) ids
      ∧ ∃ o, stdout st' = stdout st ++ o.
Proof.
  unfold delete_each. induction ids as [|id ids IH]; intros st Hready Hw.
  - exists st, []. rewrite app_nil_r. repeat split; try done.
    exists []. by rewrite app_nil_r.
  - destruct (delete_one_run w g target id st Hready)
      as (req & st1 & E & Hu & Hm & Hs & Hr & [o1 Ho1]%logged_grows).
    destruct (tolerated_result (http_request w (sent st) req)) as [x Ex].
    { apply Hw; [done|]. rewrite Hu. simpl. left. }
    rewrite Ex in E.
    destruct (IH st1 Hr) as (st' & reqs & E' & Hs' & Hu' & [o2 Ho2]).
    { intros h r ? ?. apply Hw; [done|]. simpl. by right. }
    exists st', (req :: reqs). simpl. rewrite (bind_ret _ _ _ _ _ E), E'.
    split; [done|]. rewrite Hs', Hs, <- app_assoc. simpl.
    rewrite Hu, Hm, Hu'. repeat split; try done.
    exists (o1 ++ o2). by rewrite Ho2, Ho1, <- app_assoc.
Qed.

(** X25. A deletion for one target is the [GET] of the search followed by one
    [DELETE] per identifier the search found, in its order, when each is
    answered with status 200 or fails in the exchange; when the search found
    none a warning is the last line and the [GET] is the only request. *)
Theorem delete_follows_search (w : world) (g : globals) (target : string) (st : state)
    (rm : option json) (r : response) (content : string) :
  request_ready (environ st) = true →
  load_required_matchers w g st = (Ret rm, st) →
  (∀ h req, method req = "GET" → uri req = search_url target →
            http_request w h req = Responded r content) →
  status r = 200 →
  resp_headers r !! "content-type" = Some "application/json" →
  let found := (scan_silences (strict_match g) rm silence_author
                  (silence_comment (environ st)) (decoded w content)).1 in
  (∀ h req, method req = "DELETE" → uri req ∈ map (delete_url target) found →
            tolerated (http_request w h req)) →
  ∃ st' reqs,
    delete_silences w g target st = (Ret tt, st')
    ∧ sent st' = sent st ++ reqs
    ∧ map (λ r, (method r, uri r)) reqs
      = ("GET", search_url target) :: map (λ id, ("DELETE", delete_url target id)) found
    ∧ (found = [] → logged "WARNING" st st').
Proof.
  intros Hready Hload Hget H200 Hct found Hdel.
  destruct (find_silences_run w g target st rm Hready Hload)
    as (req & st1 & Hu & Hm & Hs & He & Hl & E).
  rewrite (Hget _ _ Hm Hu) in E. simpl in E.
  rewrite bool_decide_eq_true_2 in E by done.
  destruct (read_silences_json w g rm silence_author (silence_comment (environ st))
              r content st1 Hct) as (lines & E' & _).
  rewrite E' in E. fold found in E.
  unfold delete_silences. rewrite (bind_ret _ _ _ _ _ E).
  set (st2 := set_stdout (stdout st1 ++ lines) st1).
  destruct (logged_grows _ _ _ Hl) as [o Ho].
  destruct found as [|id ids] eqn:Hfound.
  - eexists _, [req]. split; [reflexivity|]. state_simpl.
    split; [done|]. split; [cbn [map]; by rewrite Hm, Hu|]. intros _.
    eexists (o ++ lines), _, _. subst st2. state_simpl. by rewrite Ho, <- !app_assoc.
  - destruct (delete_each_requests w g target (id :: ids) st2)
      as (st' & reqs & Ed & Hs' & Hmap & _).
    { subst st2. state_simpl. by rewrite He, request_ready_derived. }
    { exact Hdel. }
    exists st', (req :: reqs). split; [exact Ed|].
    split; [by rewrite Hs'; subst st2; state_simpl; rewrite Hs, <- app_assoc|].
    split; [|done]. cbn [map]. by rewrite Hm, Hu, Hmap.
Qed.

(** ** Deleting over the targets *)










(** ** What is printed stays *)

Lemma appends_pure {A : Type} (m : M A) :
  (∀ st, stdout (m st).2 = stdout st) → appends m.
Proof. intros H st. exists []. by rewrite app_nil_r. Qed.

Lemma appends_ret {A : Type} (a : A) : appends (ret a).
Proof. by apply appends_pure. Qed.

Lemma appends_raise {A : Type} (e : exn) : appends (raise (A:=A) e).
Proof. by apply appends_pure. Qed.

Lemma appends_exit {A : Type} c : appends (sys_exit (A:=A) c).
Proof. by apply appends_pure. Qed.

Lemma appends_lift {A : Type} (r : raises A) : appends (lift r).
Proof. destruct r; [apply appends_ret | apply appends_raise]. Qed.

Lemma appends_bind {A B : Type} (m : M A) (k : A → M B) :
  appends m → (∀ a, appends (k a)) → appends (bind m k).
Proof.
  intros Hm Hk st. unfold bind. destruct (Hm st) as [l1 H1].
  destruct (m st) as [[a|c|e] st1]; simpl in *; [|by exists l1..].
  destruct (Hk a st1) as [l2 H2]. exists (l1 ++ l2). by rewrite H2, H1, <- app_assoc.
Qed.

Lemma appends_try {A : Type} (m : M A) (h : exn → M A) :
  appends m → (∀ e, appends (h e)) → appends (try_except m h).
Proof.
  intros Hm Hh st. unfold try_except. destruct (Hm st) as [l1 H1].
  destruct (m st) as [[a|c|e] st1]; simpl in *; [by exists l1.. |].
  destruct (Hh e st1) as [l2 H2]. exists (l1 ++ l2). by rewrite H2, H1, <- app_assoc.
Qed.

Lemma appends_when (b : bool) (m : M unit) : appends m → appends (when b m).
Proof. destruct b; [done|]. intros _. apply appends_ret. Qed.

Lemma appends_for_each {A : Type} (l : list A) (f : A → M unit) :
  (∀ x, appends (f x)) → appends (for_each l f).
Proof.
  intros Hf. induction l as [|x l IH]; [apply appends_ret|].
  simpl. apply appends_bind; auto.
Qed.

Lemma appends_write o : appends (write o).
Proof. intros st. by exists [o]. Qed.

Lemma appends_http_call w req : appends (http_call w req).
Proof.
  apply appends_pure. intros st. unfold http_call.
  by destruct (http_request w (sent st) req).
Qed.

Ltac appends_step :=
  lazymatch goal with
  | |- appends (bind _ _) => apply appends_bind; [|intros]
  | |- appends (try_except _ _) => apply appends_try; [|intros]
  | |- appends (when _ _) => apply appends_when
  | |- appends (for_each _ _) => apply appends_for_each; intros
  | |- appends (ret _) => apply appends_ret
  | |- appends (raise _) => apply appends_raise
  | |- appends (sys_exit _) => apply appends_exit
  | |- appends (lift _) => apply appends_lift
  | |- appends (unpack _) => unfold unpack
  | |- appends (print_msg _ _ _) => apply appends_write
  | |- appends (write _) => apply appends_write
  | |- appends (http_call _ _) => apply appends_http_call
  | |- appends get_environ => by apply appends_pure
  | |- appends get_request_headers => by apply appends_pure
  | |- appends (setenv _ _) => by apply appends_pure
  | |- appends (read_clock _) => by apply appends_pure
  | |- appends (update_request_headers _) => by apply appends_pure
  | |- appends (fatal_error _) => unfold fatal_error
  | |- appends (if ?b then _ else _) => destruct b
  | |- appends (match ?x with _ => _ end) => destruct x
  | |- appends _ => progress cbv zeta
  end.

Ltac appends_tac := repeat appends_step.

Section AppendsProgram.
Context (w : world) (g : globals).

Lemma appends_replace_macroses raw : appends (replace_macroses g raw).
Proof. unfold replace_macroses. appends_tac. Qed.

Lemma appends_render_template t : appends (render_template w g t).
Proof. unfold render_template. appends_tac. apply appends_replace_macroses. Qed.

Lemma appends_render_payload tn : appends (render_payload w g tn).
Proof.
  unfold render_payload, render_custom_template. appends_tac.
  - apply appends_replace_macroses.
  - apply appends_render_template.
Qed.

Lemma appends_make_request url m tn : appends (make_request w g url m tn).
Proof.
  unfold make_request, derive_duration, merge_custom_headers, debug_request,
    exchange, report_failure.
  appends_tac. all: apply appends_render_payload.
Qed.

Lemma appends_find_silences base : appends (find_silences w g base).
Proof.
  unfold find_silences, load_required_matchers, read_silences, decode_and_parse_json.
  appends_tac.
  all: first [apply appends_render_template | apply appends_make_request].
Qed.

Lemma appends_create_silence target : appends (create_silence w g target).
Proof.
  unfold create_silence, decode_and_parse_json. appends_tac.
  all: apply appends_make_request.
Qed.

Lemma appends_delete_silences target : appends (delete_silences w g target).
Proof.
  unfold delete_silences, delete_each, delete_one. appends_tac.
  all: first [apply appends_find_silences | apply appends_make_request].
Qed.

Lemma appends_perform_action action : appends (perform_action w g action).
Proof.
  unfold perform_action. appends_tac.
  - apply appends_create_silence.
  - apply appends_delete_silences.
Qed.

End AppendsProgram.

Lemma dump_run (l : list (string * string)) st :
  for_each l (λ kv, write (dump_line kv)) st
  = (Ret tt, set_stdout (stdout st ++ map dump_line l) st).
Proof.
  revert st. induction l as [|kv l IH]; intros st.
  - simpl. unfold ret. by rewrite set_stdout_id.
  - cbn [for_each map]. erewrite bind_ret; [|reflexivity]. rewrite IH.
    state_simpl. by rewrite <- app_assoc.
Qed.

(** The first lines of a run that debugs: the dump of the environment. *)
Lemma main_dumps (w : world) (st : state) :
  debug_setting (environ st) = true →
  ∃ lines,
    stdout (main w st).2 = stdout st ++ Msg "DEBUG" "Here is our environment:" []
                             :: map dump_line (map_to_list (environ st)) ++ lines.
Proof.
  intros Hdebug.
  unfold main. erewrite bind_ret; [|reflexivity].
  fold (debug_setting (environ st)). rewrite Hdebug.
  erewrite bind_ret; cycle 1.
  { erewrite bind_ret; [|reflexivity].
    change (λ kv : string * string, write (Plain "{0} => {1}" [AStr kv.1; AStr kv.2]))
      with (λ kv, write (dump_line kv)).
    rewrite (bind_ret _ _ _ _ _ (dump_run _ _)). reflexivity. }
  match goal with |- ∃ _, stdout (?m ?s).2 = _ =>
    assert (appends m) as Happ; [|destruct (Happ s) as [lines Hl]] end.
  { appends_tac. apply appends_perform_action. }
  exists lines. rewrite Hl. state_simpl. by rewrite <- !app_assoc.
Qed.

(** X26. With [PLUGIN_DEBUG] set to [true] in any case, the run prints every
    variable of its environment with its value, those that hold credentials
    included, and the lines stay in the output however the run ends. *)
Theorem debug_dumps_environment (w : world) (env : gmap string string) (k v : string) :
  debug_setting env = true →
  env !! k = Some v →
  dump_line (k, v) ∈ stdout (run w env).2.
Proof.
  intros Hdebug Hk. unfold run.
  destruct (main_dumps w (initial env) Hdebug) as [lines H].
  destruct (main w (initial env)) as [r st']. simpl in *. rewrite H.
  right. apply elem_of_app. left.
  apply list_elem_of_fmap. exists (k, v). split; [done|].
  by apply elem_of_map_to_list.
Qed.

(** ** Debugging changes the output only *)

Lemma same_but_stdout_sym st st' : same_but_stdout st st' → same_but_stdout st' st.
Proof. intros (He & Hh & Hs & Hc). by repeat split. Qed.


















Section Debugging.
Context (w : world) (g : globals) (b : bool).









End Debugging.


(** ** The further properties on concrete runs *)

Lemma escape_for_json_distinct_witness :
  "a\b" ≠ "a\\b" ∧ escape_for_json "a\b" ≠ escape_for_json "a\\b".
Proof.
  split; [discriminate|].
  apply (escape_for_json_distinct "a\b" "a\\b"). discriminate.
Defined.

Lemma scan_stops_at_malformed_witness :
  Forall2 is_silence [Scenario.entry "a" "active" []] [Scenario.listed "a" "active" []]
  ∧ scan_silences false None silence_author Scenario.our_comment (JArr Cases.cut_list)
    = ([JStr "a"], Some (TypeError "subscript")).
Proof.
  assert (Forall2 is_silence [Scenario.entry "a" "active" []]
            [Scenario.listed "a" "active" []]) as HF.
  { repeat constructor; eexists; split; reflexivity. }
  split; [exact HF|].
  unfold Cases.cut_list.
  rewrite (scan_stops_at_malformed false None JNull silence_author Scenario.our_comment
             [Scenario.entry "a" "active" []] [Scenario.listed "a" "active" []]
             (JStr "oops") [Scenario.entry "b" "active" []] (TypeError "subscript") HF
             ltac:(discriminate) eq_refl).
  reflexivity.
Defined.

Lemma scan_not_a_list_witness :
  (∀ elems, JObj [("error", JStr "bad request")] ≠ JArr elems)
  ∧ (scan_silences false None silence_author Scenario.our_comment
       (JObj [("error", JStr "bad request")])).1 = [].
Proof.
  split; [discriminate|].
  apply (scan_not_a_list false None silence_author Scenario.our_comment
           (JObj [("error", JStr "bad request")])).
  discriminate.
Defined.

Lemma unready_run_aborts_witness :
  request_ready Cases.unready_env = false
  ∧ (run Scenario.listing Cases.unready_env).1 = 1
  ∧ sent (run Scenario.listing Cases.unready_env).2 = [].
Proof.
  split; [reflexivity|].
  apply (unready_run_aborts Scenario.listing Cases.unready_env). reflexivity.
Defined.

Lemma request_settings_witness :
  ∃ req,
    sent (make_request Scenario.listing Scenario.not_strict "http://am/api/v2/silences"
            "GET" None (initial Cases.insecure_env)).2
    = sent (initial Cases.insecure_env) ++ [req]
    ∧ disable_ssl_certificate_validation req = true ∧ timeout req = 5
    ∧ credentials req = None ∧ follow_redirects req = true.
Proof.
  eexists. split; [reflexivity|].
  match goal with |- disable_ssl_certificate_validation ?r = _ ∧ _ =>
    destruct (request_settings Scenario.listing Scenario.not_strict
                "http://am/api/v2/silences" "GET" None
                (initial Cases.insecure_env) r eq_refl)
      as (_ & _ & _ & Ht & Hv & Hc & _)
  end.
  split; [apply Hv; reflexivity|].
  split; [reflexivity|].
  apply Hc. reflexivity.
Defined.

Lemma payload_source_witness :
  accepted Cases.custom_env = true
  ∧ (run Cases.adding Cases.custom_env).1 = 1
  ∧ sent (run Cases.adding Cases.custom_env).2 = [].
Proof.
  split; [reflexivity|].
  apply (proj2 (proj2 (proj2 (proj2
           (payload_source Cases.adding Scenario.creating Cases.custom_env)))));
    reflexivity.
Defined.

Lemma template_failure_fatal_witness :
  request_ready (environ (initial Cases.custom_env)) = true
  ∧ ∃ st',
      make_request Scenario.listing Scenario.creating "http://am/api/v2/silences" "POST"
        (Some "create") (initial Cases.custom_env) = (Exit 1, st')
      ∧ sent st' = sent (initial Cases.custom_env)
      ∧ logged "ERROR" (initial Cases.custom_env) st'.
Proof.
  split; [reflexivity|].
  apply (template_failure_fatal Scenario.listing Scenario.creating
           "http://am/api/v2/silences" "POST" (initial Cases.custom_env) eq_refl).
  vm_compute. exact Logic.I.
Defined.


Lemma create_failures_witness :
  request_ready (environ (initial Scenario.create_env)) = true
  ∧ (create_silence Scenario.all_refused Scenario.creating "http://am"
       (initial Scenario.create_env)).1 = Exit 1.
Proof.
  split; [reflexivity|].
  destruct (create_failures Scenario.all_refused Scenario.creating "http://am"
              (initial Scenario.create_env) "0001-01-01T00:00:00Z" EmptyDict
              (Responded (Scenario.json_response 500) "") eq_refl eq_refl)
    as (_ & _ & H & _).
  - by apply renders_no_template.
  - intros h req _ _. reflexivity.
  - apply (H (Scenario.json_response 500) "" eq_refl). discriminate.
Defined.



Lemma search_failures_raise_witness :
  request_ready (environ (initial Scenario.delete_env)) = true
  ∧ ∃ st' req,
      delete_silences Cases.unreachable Scenario.not_strict "http://am"
        (initial Scenario.delete_env)
      = (Raise (TypeError "cannot unpack non-iterable NoneType object"), st')
      ∧ sent st' = sent (initial Scenario.delete_env) ++ [req]
      ∧ method req = "GET" ∧ uri req = search_url "http://am"
      ∧ logged "ERROR" (initial Scenario.delete_env) st'.
Proof.
  split; [reflexivity|].
  apply (proj1 (search_failures_raise Cases.unreachable Scenario.not_strict "http://am"
                  (initial Scenario.delete_env) None (Failed ServerNotFoundError)
                  eq_refl eq_refl (λ _ _ _ _, eq_refl)) ServerNotFoundError eq_refl).
Defined.

Lemma strict_search_artifact_witness :
  strict_match Scenario.strict = true
  ∧ ∃ st',
      find_silences Scenario.listing Scenario.strict "http://am"
        (initial Cases.other_set_env) = (Exit 1, st')
      ∧ sent st' = sent (initial Cases.other_set_env)
      ∧ logged "ERROR" (initial Cases.other_set_env) st'.
Proof.
  split; [reflexivity|].
  apply (proj1 (strict_search_artifact Scenario.listing Scenario.strict "http://am"
                  (initial Cases.other_set_env) eq_refl)).
  reflexivity.
Defined.

Lemma delete_follows_search_witness :
  request_ready (environ (initial Scenario.delete_env)) = true
  ∧ ∃ st' reqs,
      delete_silences Scenario.listing Scenario.not_strict "http://am"
        (initial Scenario.delete_env) = (Ret tt, st')
      ∧ sent st' = sent (initial Scenario.delete_env) ++ reqs
      ∧ map (λ r, (method r, uri r)) reqs
        = [("GET", "http://am/api/v2/silences");
           ("DELETE", "http://am/api/v2/silence/a");
           ("DELETE", "http://am/api/v2/silence/b")].
Proof.
  split; [reflexivity|].
  destruct (delete_follows_search Scenario.listing Scenario.not_strict "http://am"
              (initial Scenario.delete_env) None (Scenario.json_response 200) "LIST"
              eq_refl eq_refl (λ _ _ _ _, eq_refl) eq_refl eq_refl)
    as (st' & reqs & E & Hs & Hmap & _).
  - intros h req _ _. reflexivity.
  - exists st', reqs. split; [exact E|]. split; [exact Hs|]. rewrite Hmap. reflexivity.
Defined.


Lemma accepted_configuration_witness :
  accepted Scenario.delete_env = true
  ∧ ∃ lines,
      run Scenario.listing Scenario.delete_env
      = (exit_status
           (perform_action Scenario.listing (settings_of Scenario.delete_env) "delete"
              (set_stdout lines (initial Scenario.delete_env))).1,
         (perform_action Scenario.listing (settings_of Scenario.delete_env) "delete"
            (set_stdout lines (initial Scenario.delete_env))).2).
Proof.
  split; [reflexivity|].
  destruct (accepted_configuration Scenario.listing Scenario.delete_env eq_refl)
    as (lines & H & _).
  exists lines. exact H.
Defined.

Lemma environment_frame_witness :
  ("PLUGIN_URLS" ∉ written_keys)
  ∧ environ (run Scenario.listing Scenario.delete_env).2 !! "PLUGIN_URLS"
    = Some "http://am".
Proof.
  assert ("PLUGIN_URLS" ∉ written_keys) as H.
  { rewrite list_elem_of_In. simpl. intuition discriminate. }
  split; [exact H|].
  rewrite (environment_frame Scenario.listing Scenario.delete_env "PLUGIN_URLS" H).
  reflexivity.
Defined.

Lemma debug_dumps_environment_witness :
  debug_setting Cases.debug_env = true
  ∧ dump_line ("PLUGIN_PASSWORD", "hunter2")
    ∈ stdout (run Scenario.listing Cases.debug_env).2.
Proof.
  split; [reflexivity|].
  apply (debug_dumps_environment Scenario.listing Cases.debug_env
           "PLUGIN_PASSWORD" "hunter2"); reflexivity.
Defined.
